(** * Route-variety helper backend: session gate, Strava client, POI lookup, GPX

    A shallow embedding of the two Flask back ends of the repository:

    - [Main]    : [src/app.py], [src/strava_client.py], [src/poi_service.py]
                  (Google Places look-up, "Strategy B");
    - [Backend] : [src/backend/app.py], [src/backend/strava_client.py],
                  [src/backend/poi_service.py] (OpenStreetMap look-up,
                  "Strategy A").

    Python values coming from JSON are kept as a small dynamic value type
    with the exceptions Python raises on them.  The outside world (clock,
    HTTP end points, Places API) is an oracle that answers each call, as it
    is sent, from the history of calls made so far; every call is recorded
    in a trace, and the Flask session is a finite map from keys to values.
    Logging has no effect on the results and is left out. *)

From Stdlib Require Import ZArith QArith String Ascii List DecimalString Lia.
From stdpp Require Import gmap strings list fin_maps.
Import ListNotations.

Local Open Scope Z_scope.

(* ===================================================================== *)
(** ** Python values and exceptions *)
(* ===================================================================== *)

(** Values of the types [json.loads] produces.  A float is kept as the
    rational it denotes (JSON has neither NaN nor infinities); a dict is its
    list of items in insertion order. *)
#[warnings="-register-all"]
Inductive pyval : Type :=
| PNone
| PBool (b : bool)
| PInt (z : Z)
| PFloat (q : Q)
| PStr (s : string)
| PList (l : list pyval)
| PDict (kv : list (string * pyval)).

(** The exception classes the code raises or catches.  [OtherError] stands
    for any further subclass of [Exception]. *)
Inductive exn : Type :=
| KeyError
| IndexError
| TypeError
| AttributeError
| ValueError
| ZeroDivisionError
| RuntimeError
| RequestException
| StravaAPIError
| ApiError
| OtherError.

Inductive result (A : Type) : Type :=
| Ok (a : A)
| Raise (e : exn).
Arguments Ok {A} a.
Arguments Raise {A} e.

Definition exn_eqb (a b : exn) : bool :=
  match a, b with
  | KeyError, KeyError | IndexError, IndexError | TypeError, TypeError
  | AttributeError, AttributeError | ValueError, ValueError
  | ZeroDivisionError, ZeroDivisionError | RuntimeError, RuntimeError
  | RequestException, RequestException | StravaAPIError, StravaAPIError
  | ApiError, ApiError | OtherError, OtherError => true
  | _, _ => false
  end.

(** [except] clauses, as predicates on the exception raised. *)
Definition except_Exception (_ : exn) : bool := true.
Definition except_StravaAPIError (e : exn) : bool := exn_eqb e StravaAPIError.
Definition except_RequestException (e : exn) : bool := exn_eqb e RequestException.
Definition except_IndexError_TypeError (e : exn) : bool :=
  exn_eqb e IndexError || exn_eqb e TypeError.

(** *** Numbers *)

Definition Qlt_b (x y : Q) : bool := negb (Qle_bool y x).

Definition Qzero_b (q : Q) : bool := Qeq_bool q 0.

(** The numeric value of a Python number ([bool] is a subclass of [int]). *)
Definition py_number (v : pyval) : option Q :=
  match v with
  | PBool b => Some (inject_Z (Z.b2z b))
  | PInt z => Some (inject_Z z)
  | PFloat q => Some q
  | _ => None
  end.

(** [a < t] and [a > t] against a float [t]; Python compares an int with a
    float by value, and refuses [None], strings and containers. *)
Definition py_lt_float (a : pyval) (t : Q) : result bool :=
  match py_number a with
  | Some x => Ok (Qlt_b x t)
  | None => Raise TypeError
  end.

Definition py_gt_float (a : pyval) (t : Q) : result bool :=
  match py_number a with
  | Some x => Ok (Qlt_b t x)
  | None => Raise TypeError
  end.

(** *** Truth value *)

Definition string_nonempty (s : string) : bool :=
  match s with EmptyString => false | String _ _ => true end.

Definition list_nonempty {A} (l : list A) : bool :=
  match l with [] => false | _ :: _ => true end.

(** [bool(v)]: [None], [False], zero, the empty string and empty containers
    are false. *)
Definition truthy (v : pyval) : bool :=
  match v with
  | PNone => false
  | PBool b => b
  | PInt z => negb (z =? 0)
  | PFloat q => negb (Qzero_b q)
  | PStr s => string_nonempty s
  | PList l => list_nonempty l
  | PDict kv => list_nonempty kv
  end.

(** *** Dictionaries, subscripts, iteration *)

Fixpoint assoc (k : string) (kv : list (string * pyval)) : option pyval :=
  match kv with
  | [] => None
  | (k', v) :: rest => if String.eqb k k' then Some v else assoc k rest
  end.

(** [v[k]] for a string key [k]. *)
Definition py_getitem (v : pyval) (k : string) : result pyval :=
  match v with
  | PDict kv => match assoc k kv with Some x => Ok x | None => Raise KeyError end
  | _ => Raise TypeError
  end.

(** [v.get(k, default)]; only dicts have a [get] method. *)
Definition py_get (v : pyval) (k : string) (default : pyval) : result pyval :=
  match v with
  | PDict kv => Ok (match assoc k kv with Some x => x | None => default end)
  | _ => Raise AttributeError
  end.

Fixpoint string_chars (s : string) : list pyval :=
  match s with
  | EmptyString => []
  | String c rest => PStr (String c EmptyString) :: string_chars rest
  end.

(** [v[i]] for a non-negative integer literal [i].  A JSON dict has string
    keys only, so an integer subscript is always a [KeyError] there. *)
Definition py_index (v : pyval) (i : nat) : result pyval :=
  match v with
  | PList l => match nth_error l i with Some x => Ok x | None => Raise IndexError end
  | PStr s => match nth_error (string_chars s) i with
              | Some x => Ok x | None => Raise IndexError end
  | PDict _ => Raise KeyError
  | _ => Raise TypeError
  end.

(** The items a [for] loop sees. *)
Definition py_iter (v : pyval) : result (list pyval) :=
  match v with
  | PList l => Ok l
  | PStr s => Ok (string_chars s)
  | PDict kv => Ok (map (fun p => PStr (fst p)) kv)
  | _ => Raise TypeError
  end.

Definition is_substring (s t : string) : bool :=
  match String.index 0 s t with Some _ => true | None => false end.

Definition is_PStr (k : string) (v : pyval) : bool :=
  match v with PStr s => String.eqb s k | _ => false end.

(** [k in v] for a string [k]. *)
Definition py_contains (k : string) (v : pyval) : result bool :=
  match v with
  | PDict kv => Ok (match assoc k kv with Some _ => true | None => false end)
  | PList l => Ok (existsb (is_PStr k) l)
  | PStr s => Ok (is_substring k s)
  | _ => Raise TypeError
  end.

(** [isinstance(v, list)]. *)
Definition is_list (v : pyval) : bool :=
  match v with PList _ => true | _ => false end.

(** [len(v)]. *)
Definition py_len (v : pyval) : result Z :=
  match v with
  | PList l => Ok (Z.of_nat (length l))
  | PStr s => Ok (Z.of_nat (String.length s))
  | PDict kv => Ok (Z.of_nat (length kv))
  | _ => Raise TypeError
  end.

(** [str(z)] for an int. *)
Definition str_of_Z (z : Z) : string := NilZero.string_of_int (Z.to_int z).

(* ===================================================================== *)
(** ** The world: session, trace of outside calls, oracle *)
(* ===================================================================== *)

(** What [requests.get] / [requests.post] bring back: no response at all
    (connection failure, or no answer within the time-out of the call: a
    [RequestException]), or a status with a JSON body. *)
Inductive http_result : Type :=
| NoResponse
| Response (status_code : Z) (json : pyval).

(** Calls that leave the process.  [timeout] is the [timeout=] argument of
    the call in seconds, [None] when the call gives none and so waits for
    as long as the answer takes. *)
Inductive event : Type :=
| EvTime
| EvPost (url : string) (data : list (string * pyval)) (timeout : option Z)
| EvGet (url : string) (bearer : pyval) (params : list (string * pyval))
    (timeout : option Z)
| EvPlacesNearby (location : pyval * pyval) (radius : Z) (type : string).

(** The outside world answers a call from the calls made before it and from
    the call as it is sent: the same request may get an answer when it waits
    without limit and none within a time-out. *)
Record Env : Type := {
  env_time : list event -> Q;
  env_post : list event -> string -> list (string * pyval) -> option Z -> http_result;
  env_get : list event -> string -> pyval -> list (string * pyval) -> option Z
            -> http_result;
  env_places : list event -> pyval * pyval -> Z -> string -> result pyval
}.

Record world : Type := World {
  session : gmap string pyval;
  trace : list event
}.

Definition M (A : Type) : Type := world -> result A * world.

Definition ret {A} (a : A) : M A := fun w => (Ok a, w).
Definition raise {A} (e : exn) : M A := fun w => (Raise e, w).
Definition lift {A} (r : result A) : M A := fun w => (r, w).

Definition bind {A B} (m : M A) (k : A -> M B) : M B :=
  fun w => match m w with
           | (Ok a, w') => k a w'
           | (Raise e, w') => (Raise e, w')
           end.

Notation "x <~ m ;; k" := (bind m (fun x => k))
  (at level 100, m at next level, right associativity).
Notation "m ;;; k" := (bind m (fun _ => k))
  (at level 100, right associativity).

(** [try: m  except <catches> as e: h e]. *)
Definition try_except {A} (m : M A) (catches : exn -> bool) (h : exn -> M A) : M A :=
  fun w => match m w with
           | (Ok a, w') => (Ok a, w')
           | (Raise e, w') => if catches e then h e w' else (Raise e, w')
           end.

(** The session of an application that has a secret key, not empty, to sign
    it with. *)
Definition get_session : M (gmap string pyval) := fun w => (Ok (session w), w).

(** [session[k] = v]. *)
Definition session_set (k : string) (v : pyval) : M unit :=
  fun w => (Ok tt, World (<[k := v]> (session w)) (trace w)).

(** [session.clear()]. *)
Definition session_clear : M unit :=
  fun w => (Ok tt, World ∅ (trace w)).

(** The world after one more call. *)
Definition emit (e : event) (w : world) : world :=
  World (session w) (trace w ++ [e]).

Section Outside.
Variable env : Env.

(** [time.time()]. *)
Definition time_time : M Q :=
  fun w => (Ok (env_time env (trace w)), emit EvTime w).

(** [requests.post(url, data=...)] and
    [requests.post(url, data=..., timeout=...)]. *)
Definition requests_post (url : string) (data : list (string * pyval))
    (timeout : option Z) : M (Z * pyval) :=
  fun w => match env_post env (trace w) url data timeout with
           | NoResponse => (Raise RequestException, emit (EvPost url data timeout) w)
           | Response c j => (Ok (c, j), emit (EvPost url data timeout) w)
           end.

(** [requests.get(url, headers={'Authorization': f'Bearer {tok}'}, params=...)],
    with or without [timeout=...]. *)
Definition requests_get (url : string) (bearer : pyval)
    (params : list (string * pyval)) (timeout : option Z) : M (Z * pyval) :=
  fun w => match env_get env (trace w) url bearer params timeout with
           | NoResponse =>
               (Raise RequestException, emit (EvGet url bearer params timeout) w)
           | Response c j => (Ok (c, j), emit (EvGet url bearer params timeout) w)
           end.

(** [gmaps.places_nearby(location=..., radius=..., type=...)]. *)
Definition gmaps_places_nearby (location : pyval * pyval) (radius : Z)
    (type : string) : M pyval :=
  fun w => (env_places env (trace w) location radius type,
            emit (EvPlacesNearby location radius type) w).
End Outside.

(** [response.raise_for_status()]: 4xx and 5xx raise [HTTPError], a
    [RequestException]. *)
Definition raise_for_status (r : Z * pyval) : M unit :=
  if (400 <=? fst r) && (fst r <? 600) then raise RequestException else ret tt.

(** A Flask response: status code and JSON body. *)
Record response : Type := Resp { status : Z; body : pyval }.

(** [jsonify(v)], [jsonify(v), code] and the body [{"error": msg}]. *)
Definition jsonify (v : pyval) : response := Resp 200 v.
Definition jsonify_with (v : pyval) (code : Z) : response := Resp code v.
Definition error_body (msg : string) : pyval := PDict [("error"%string, PStr msg)].

(** Sequencing inside [result], for code that touches nothing outside. *)
Definition rbind {A B} (r : result A) (k : A -> result B) : result B :=
  match r with Ok a => k a | Raise e => Raise e end.

Notation "'let?' x := r 'in' k" := (rbind r (fun x => k))
  (at level 10, x name, r at level 100, k at level 200).

(** [session[k]]. *)
Definition session_get (k : string) : M pyval :=
  fun w => match session w !! k with
           | Some v => (Ok v, w)
           | None => (Raise KeyError, w)
           end.

(** [try: m  except c1: h1  except c2: h2]: the first clause that matches
    handles the exception. *)
Definition try_except2 {A} (m : M A)
    (c1 : exn -> bool) (h1 : exn -> M A)
    (c2 : exn -> bool) (h2 : exn -> M A) : M A :=
  try_except m (fun e => c1 e || c2 e) (fun e => if c1 e then h1 e else h2 e).

(** What Flask does with a view: an exception that leaves the view becomes a
    500 response. *)
Definition internal_server_error : response :=
  Resp 500 (PStr "Internal Server Error").

Definition flask_call (view : M response) (w : world) : response * world :=
  match view w with
  | (Ok r, w') => (r, w')
  | (Raise _, w') => (internal_server_error, w')
  end.

(** What the views of the login flow return besides JSON: a plain text with
    its status, or [redirect(location)]. *)
Inductive reply : Type :=
| Json (r : response)
| Text (text : string) (code : Z)
| Redirect (location : string).

(** The status Flask sends for a reply; [redirect] answers 302. *)
Definition reply_status (r : reply) : Z :=
  match r with
  | Json r => status r
  | Text _ code => code
  | Redirect _ => 302
  end.

(** [bool(v)] for an [Optional[str]]: [None] and the empty string are
    false. *)
Definition opt_truthy (o : option string) : bool :=
  match o with
  | Some s => string_nonempty s
  | None => false
  end.

(** *** The session of an application that may have no secret key

    Flask signs the session cookie with [app.secret_key].  When the key is
    [None] or empty, every request gets a [NullSession]: it reads as an
    empty session, and every write to it raises [RuntimeError]. *)
Definition open_session (secret_key : option string) : M (gmap string pyval) :=
  fun w => (Ok (if opt_truthy secret_key then session w else ∅), w).

(** [session[k]]. *)
Definition session_getitem (secret_key : option string) (k : string) : M pyval :=
  s <~ open_session secret_key ;;
  match s !! k with
  | Some v => ret v
  | None => raise KeyError
  end.

(** [session[k] = v]. *)
Definition session_setitem (secret_key : option string) (k : string) (v : pyval)
  : M unit :=
  if opt_truthy secret_key then session_set k v else raise RuntimeError.

(** [session.clear()]. *)
Definition session_clear_all (secret_key : option string) : M unit :=
  if opt_truthy secret_key then session_clear else raise RuntimeError.

(** The calls a view made: what its run added to the trace. *)
Definition is_refresh_call (e : event) : bool :=
  match e with
  | EvPost _ data _ => match assoc "grant_type" data with
                     | Some (PStr g) => String.eqb g "refresh_token"
                     | _ => false
                     end
  | _ => false
  end.


Definition count_refresh (t : list event) : nat :=
  length (filter (fun e => is_refresh_call e = true) t).

(** *** Strings *)

Definition nl : string := String (ascii_of_nat 10) EmptyString.
Definition dq : string := String (ascii_of_nat 34) EmptyString.

Definition is_upper (c : ascii) : bool :=
  let n := nat_of_ascii c in (Nat.leb 65 n && Nat.leb n 90)%bool.
Definition is_lower (c : ascii) : bool :=
  let n := nat_of_ascii c in (Nat.leb 97 n && Nat.leb n 122)%bool.
Definition to_upper (c : ascii) : ascii :=
  if is_lower c then ascii_of_nat (nat_of_ascii c - 32) else c.
Definition to_lower (c : ascii) : ascii :=
  if is_upper c then ascii_of_nat (nat_of_ascii c + 32) else c.

(** [s.replace(a, b)] for single characters. *)
Fixpoint str_replace (a b : ascii) (s : string) : string :=
  match s with
  | EmptyString => EmptyString
  | String c rest => String (if Ascii.eqb c a then b else c) (str_replace a b rest)
  end.

(** [s.title()] on ASCII text: a letter after a letter is lowered, any other
    letter is raised. *)
Fixpoint title_from (previous_is_cased : bool) (s : string) : string :=
  match s with
  | EmptyString => EmptyString
  | String c rest =>
      String (if previous_is_cased then to_lower c else to_upper c)
             (title_from (is_upper c || is_lower c) rest)
  end.

Definition str_title (s : string) : string := title_from false s.

(** [sep.join(parts)]. *)
Fixpoint str_join (sep : string) (parts : list string) : string :=
  match parts with
  | [] => EmptyString
  | [x] => x
  | x :: rest => x +:+ sep +:+ str_join sep rest
  end.

(** [for a, b in ...]: each item must itself yield exactly two items. *)
Definition unpack2 (v : pyval) : result (pyval * pyval) :=
  let? items := py_iter v in
  match items with
  | [a; b] => Ok (a, b)
  | _ => Raise ValueError
  end.

(** [a // b] on ints; [Z.div] rounds towards minus infinity as Python does. *)
Definition py_floordiv (a b : Z) : result Z :=
  if b =? 0 then Raise ZeroDivisionError else Ok (a / b).

(** [l[::step]] for [step >= 1]: the items at 0, step, 2*step, ... *)
Fixpoint every_nth {A} (step skip : nat) (l : list A) : list A :=
  match l with
  | [] => []
  | x :: rest =>
      match skip with
      | O => x :: every_nth step (step - 1) rest
      | S k => every_nth step k rest
      end
  end.

Definition slice_step {A} (l : list A) (step : nat) : list A := every_nth step 0 l.

(** *** [urllib.parse.urlencode]

    A [str] is kept as the bytes of its UTF-8 encoding, which is what
    [quote] works on. *)

Definition is_digit (c : ascii) : bool :=
  let n := nat_of_ascii c in (Nat.leb 48 n && Nat.leb n 57)%bool.

(** The characters [quote] never escapes: letters, digits and [_.-~]. *)
Definition always_safe (c : ascii) : bool :=
  let n := nat_of_ascii c in
  (is_upper c || is_lower c || is_digit c
   || Nat.eqb n 95 || Nat.eqb n 46 || Nat.eqb n 45 || Nat.eqb n 126)%bool.

Definition hex_digit (n : nat) : ascii :=
  if Nat.ltb n 10 then ascii_of_nat (48 + n)%nat else ascii_of_nat (55 + n)%nat.

(** ['%{:02X}'.format(byte)]. *)
Definition percent_escape (c : ascii) : string :=
  let n := nat_of_ascii c in
  String "%" (String (hex_digit (n / 16)%nat)
                (String (hex_digit (n mod 16)%nat) EmptyString)).

(** [quote(s, safe)]. *)
Fixpoint quote (safe : ascii -> bool) (s : string) : string :=
  match s with
  | EmptyString => EmptyString
  | String c rest =>
      (if always_safe c || safe c then String c EmptyString else percent_escape c)
      +:+ quote safe rest
  end.

Definition is_blank (c : ascii) : bool := Ascii.eqb c " ".

(** [' ' in s]. *)
Fixpoint has_blank (s : string) : bool :=
  match s with
  | EmptyString => false
  | String c rest => is_blank c || has_blank rest
  end.

(** [quote_plus(s)]: without a blank it is [quote(s)]; with one, the blanks
    are kept by [quote] and then replaced by [+]. *)
Definition quote_plus (s : string) : string :=
  if has_blank s then str_replace " " "+" (quote is_blank s)
  else quote (fun _ => false) s.

(** [urlencode(query)] for a dict of [str] keys and values. *)
Definition urlencode (query : list (string * string)) : string :=
  str_join "&"
    (map (fun kv => quote_plus (fst kv) +:+ "=" +:+ quote_plus (snd kv)) query).

(* ===================================================================== *)
(** ** [src/config.py] *)
(* ===================================================================== *)

Record Config : Type := {
  STRAVA_CLIENT_ID : string;
  STRAVA_CLIENT_SECRET : string;
  GOOGLE_MAPS_API_KEY : option string;
  POI_SEARCH_RADIUS : Z;
  POI_ROUTE_SAMPLING_DISTANCE : Z
}.

(** The class as its body and [validate] are written: the attributes as
    [os.getenv] leaves them, an unset variable being [None]. *)
Module config.

Record attributes : Type := {
  FLASK_SECRET_KEY : string;
  FLASK_DEBUG : bool;
  STRAVA_CLIENT_ID : option string;
  STRAVA_CLIENT_SECRET : option string;
  GOOGLE_MAPS_API_KEY : option string;
  POI_SEARCH_RADIUS : Z;
  POI_ROUTE_SAMPLING_DISTANCE : Z
}.

(** [os.getenv(name)] and [os.getenv(name, default)]. *)
Definition getenv (environ : gmap string string) (name : string) : option string :=
  environ !! name.

Definition getenv_or (environ : gmap string string) (name default : string)
  : string :=
  match environ !! name with
  | Some value => value
  | None => default
  end.

Section ClassBody.
(** [int(s)] (Python's reading of numerals is not part of this
    repository). *)
Variable py_int : string -> result Z.
Variable environ : gmap string string.

(** The class body, run when the module is imported. *)
Definition class_body : result attributes :=
  let secret_key := getenv_or environ "FLASK_SECRET_KEY" "dev-secret-key" in
  let debug :=
    match getenv environ "FLASK_ENV" with
    | Some v => String.eqb v "development"
    | None => false
    end in
  let client_id := getenv environ "STRAVA_CLIENT_ID" in
  let client_secret := getenv environ "STRAVA_CLIENT_SECRET" in
  let maps_key := getenv environ "GOOGLE_MAPS_API_KEY" in
  let? radius := py_int (getenv_or environ "POI_SEARCH_RADIUS" "100") in
  let? sampling := py_int (getenv_or environ "POI_ROUTE_SAMPLING_DISTANCE" "500") in
  Ok {| FLASK_SECRET_KEY := secret_key;
        FLASK_DEBUG := debug;
        STRAVA_CLIENT_ID := client_id;
        STRAVA_CLIENT_SECRET := client_secret;
        GOOGLE_MAPS_API_KEY := maps_key;
        POI_SEARCH_RADIUS := radius;
        POI_ROUTE_SAMPLING_DISTANCE := sampling |}.
End ClassBody.

(** The list [missing] that [validate] builds. *)
Definition missing (cls : attributes) : list string :=
  (if negb (opt_truthy (STRAVA_CLIENT_ID cls)) then ["STRAVA_CLIENT_ID"%string] else [])
  ++ (if negb (opt_truthy (STRAVA_CLIENT_SECRET cls))
      then ["STRAVA_CLIENT_SECRET"%string] else [])
  ++ (if negb (opt_truthy (GOOGLE_MAPS_API_KEY cls))
      then ["GOOGLE_MAPS_API_KEY"%string] else []).

(** The text of the [ValueError]. *)
Definition validate_message (cls : attributes) : string :=
  "Missing required environment variables: " +:+ str_join ", " (missing cls).

Definition validate (cls : attributes) : result unit :=
  if list_nonempty (missing cls) then Raise ValueError else Ok tt.

End config.

(* ===================================================================== *)
(** ** [src/strava_client.py], [src/poi_service.py], [src/app.py] *)
(* ===================================================================== *)

Module Main.

Module strava_client.
Section StravaAPI.
Variable env : Env.
(** [self.client_id], [self.client_secret]. *)
Variables client_id client_secret : string.

Definition API_URL : string := "https://www.strava.com/api/v3".
Definition TOKEN_URL : string := "https://www.strava.com/oauth/token".
Definition AUTHORIZE_URL : string := "https://www.strava.com/oauth/authorize".

Definition get_authorization_url (redirect_uri : string) : string :=
  let params := [("client_id"%string, client_id);
                 ("redirect_uri"%string, redirect_uri);
                 ("response_type"%string, "code"%string);
                 ("approval_prompt"%string, "force"%string);
                 ("scope"%string, "read,activity:read_all"%string)] in
  AUTHORIZE_URL +:+ "?" +:+ urlencode params.

Definition refresh_payload (refresh_token : pyval) : list (string * pyval) :=
  [("client_id"%string, PStr client_id);
   ("client_secret"%string, PStr client_secret);
   ("refresh_token"%string, refresh_token);
   ("grant_type"%string, PStr "refresh_token")].

Definition refresh_access_token (refresh_token : pyval) : M pyval :=
  let payload := refresh_payload refresh_token in
  try_except
    (response <~ requests_post env TOKEN_URL payload (Some 10) ;;
     raise_for_status response ;;;
     ret (snd response))
    except_RequestException
    (fun _ => raise StravaAPIError).

Definition exchange_payload (code : string) : list (string * pyval) :=
  [("client_id"%string, PStr client_id);
   ("client_secret"%string, PStr client_secret);
   ("code"%string, PStr code);
   ("grant_type"%string, PStr "authorization_code")].

Definition exchange_code_for_token (code : string) : M pyval :=
  let payload := exchange_payload code in
  try_except
    (response <~ requests_post env TOKEN_URL payload (Some 10) ;;
     raise_for_status response ;;;
     ret (snd response))
    except_RequestException
    (fun _ => raise StravaAPIError).

(** The headers [{'Authorization': f'Bearer {access_token}'}], kept as the
    token they carry. *)
Definition get_api_headers (access_token : pyval) : pyval := access_token.

Definition get_activities (access_token : pyval) (page per_page : Z) : M pyval :=
  let headers := get_api_headers access_token in
  let params := [("page"%string, PInt page);
                 ("per_page"%string, PInt (Z.min per_page 200))] in
  try_except
    (response <~ requests_get env (API_URL +:+ "/athlete/activities")
                   headers params (Some 10) ;;
     raise_for_status response ;;;
     ret (snd response))
    except_RequestException
    (fun _ => raise StravaAPIError).

Definition stream_url (activity_id : Z) : string :=
  API_URL +:+ "/activities/" +:+ str_of_Z activity_id +:+ "/streams".

Definition stream_params : list (string * pyval) :=
  [("keys"%string, PStr "latlng"); ("key_by_type"%string, PStr "true")].

Definition get_activity_stream (activity_id : Z) (access_token : pyval) : M pyval :=
  let headers := get_api_headers access_token in
  try_except
    (response <~ requests_get env (stream_url activity_id) headers
                   stream_params (Some 15) ;;
     raise_for_status response ;;;
     let data := snd response in
     latlng <~ lift (py_get data "latlng" (PDict [])) ;;
     lift (py_get latlng "data" (PList [])))
    except_RequestException
    (fun _ => raise StravaAPIError).
End StravaAPI.



End strava_client.

Module poi_service.

(** [googlemaps.Client(key=key)] for a non-empty key: the constructor raises
    [ValueError] unless the key starts with [AIza].  The client is kept as
    the key it holds. *)
Definition googlemaps_Client (key : string) : result string :=
  if String.prefix "AIza" key then Ok key else Raise ValueError.

(** The module-level statement
    [gmaps = googlemaps.Client(key=Config.GOOGLE_MAPS_API_KEY)
             if Config.GOOGLE_MAPS_API_KEY else None],
    run when the module is imported. *)
Definition gmaps_init (key : option string) : result (option string) :=
  if opt_truthy key then
    match key with
    | Some k => let? client := googlemaps_Client k in Ok (Some client)
    | None => Ok None
    end
  else Ok None.

(** The name [googlemaps.ApiError], looked up in the package when an
    exception reaches the first [except] clause of the search loop.  The
    package binds [Client] and its module [exceptions], where the class
    [ApiError] is defined, and has no attribute [ApiError] of its own: the
    look-up raises [AttributeError]. *)
Definition googlemaps_ApiError : result (exn -> bool) := Raise AttributeError.

Definition POI_TYPES : list string :=
  ["cafe"; "restaurant"; "bar"; "tourist_attraction";
   "museum"; "park"; "art_gallery"; "viewpoint"]%string.

Definition swap_pair (p : pyval * pyval) : pyval * pyval := (snd p, fst p).

(** A route is a list of two-item lists [[lng, lat]], kept as pairs. *)
Definition _sample_route_points (route_coords : list (pyval * pyval))
    (sample_distance : Z) : result (list (pyval * pyval)) :=
  let len := Z.of_nat (length route_coords) in
  if len <=? 2 then Ok (map swap_pair route_coords)
  else
    let? per_sample := py_floordiv (len * 100) sample_distance in
    let? quotient := py_floordiv len per_sample in
    let step := Z.max 1 quotient in
    Ok (map swap_pair (slice_step route_coords (Z.to_nat step))).

(** Keys of [found_pois]: lists and dicts cannot be hashed; numbers are equal
    keys when they are equal numbers. *)
Definition hashable (v : pyval) : bool :=
  match v with PList _ | PDict _ => false | _ => true end.

Definition key_eqb (a b : pyval) : bool :=
  match a, b with
  | PNone, PNone => true
  | PStr s, PStr t => String.eqb s t
  | _, _ => match py_number a, py_number b with
            | Some x, Some y => Qeq_bool x y
            | _, _ => false
            end
  end.

(** [found_pois]: the dict as its items in insertion order. *)
Definition found_dict : Type := list (pyval * pyval).

(** [place_id in found_pois]. *)
Definition dict_contains (k : pyval) (d : found_dict) : result bool :=
  if hashable k then Ok (existsb (fun item => key_eqb k (fst item)) d)
  else Raise TypeError.

Definition in_POI_TYPES (t : pyval) : bool :=
  existsb (fun k => is_PStr k t) POI_TYPES.

(** [next((t for t in poi_types if t in POI_TYPES), "point_of_interest")]. *)
Definition first_poi_type (poi_types : pyval) : result string :=
  let? ts := py_iter poi_types in
  Ok (match find in_POI_TYPES ts with
      | Some (PStr s) => s
      | _ => "point_of_interest"%string
      end).

(** The dict stored for a newly seen place. *)
Definition poi_record (poi : pyval) : result pyval :=
  let? poi_types := py_get poi "types" (PList []) in
  let? poi_type := first_poi_type poi_types in
  let? name := py_get poi "name" (PStr "Unknown") in
  let? geometry := py_getitem poi "geometry" in
  let? location := py_getitem geometry "location" in
  let? lat := py_getitem location "lat" in
  let? geometry' := py_getitem poi "geometry" in
  let? location' := py_getitem geometry' "location" in
  let? lng := py_getitem location' "lng" in
  let? rating := py_get poi "rating" PNone in
  let? price_level := py_get poi "price_level" PNone in
  Ok (PDict [("name"%string, name);
             ("type"%string, PStr (str_title (str_replace "_" " " poi_type)));
             ("coords"%string, PList [lat; lng]);
             ("rating"%string, rating);
             ("price_level"%string, price_level)]).

(** The body of [for poi in results]. *)
Definition visit_poi (found_pois : found_dict) (poi : pyval) : result found_dict :=
  let? place_id := py_getitem poi "place_id" in
  let? seen := dict_contains place_id found_pois in
  if seen : bool then Ok found_pois
  else
    let? record := poi_record poi in
    Ok (found_pois ++ [(place_id, record)]).

(** [for poi in results]: [found_pois] is updated in place, so what was
    stored before an exception stays stored. *)
Fixpoint visit_results (found_pois : found_dict) (results : list pyval)
  : found_dict * option exn :=
  match results with
  | [] => (found_pois, None)
  | poi :: rest =>
      match visit_poi found_pois poi with
      | Ok found_pois' => visit_results found_pois' rest
      | Raise e => (found_pois, Some e)
      end
  end.

Section Resolver.
Variable env : Env.
Variable cfg : Config.

(** [gmaps] in the imported module: a client when the key is a non-empty
    string that the constructor accepts, else [None] (on a key the
    constructor refuses the import itself fails, see [gmaps_init]). *)
Definition gmaps : bool :=
  match gmaps_init (GOOGLE_MAPS_API_KEY cfg) with
  | Ok (Some _) => true
  | _ => false
  end.

(** The two [except] clauses of the search loop, reached with the exception
    [e] and with [found_pois] as the loop body left it.  The class of a
    clause is evaluated when the exception reaches the clause, and what that
    evaluation raises leaves the [try] statement; both handlers log and
    [continue]. *)
Definition except_clauses (found_pois : found_dict) (e : exn) : M found_dict :=
  is_ApiError <~ lift googlemaps_ApiError ;;
  if is_ApiError e : bool then ret found_pois
  else if except_Exception e then ret found_pois
  else raise e.

(** One round of [for lat, lng in sample_points]: the search, the loop over
    its results, and the [except] clauses for what either raises. *)
Definition search_sample (found_pois : found_dict) (location : pyval * pyval)
  : M found_dict :=
  fun w =>
    match (response <~ gmaps_places_nearby env location (POI_SEARCH_RADIUS cfg)
                         (str_join "|" POI_TYPES) ;;
           results <~ lift (py_get response "results" (PList [])) ;;
           items <~ lift (py_iter results) ;;
           ret (visit_results found_pois items)) w with
    | (Ok (found_pois', None), w') => (Ok found_pois', w')
    | (Ok (found_pois', Some e), w') => except_clauses found_pois' e w'
    | (Raise e, w') => except_clauses found_pois e w'
    end.

Fixpoint search_samples (found_pois : found_dict)
    (sample_points : list (pyval * pyval)) : M found_dict :=
  match sample_points with
  | [] => ret found_pois
  | location :: rest =>
      found_pois' <~ search_sample found_pois location ;;
      search_samples found_pois' rest
  end.

Definition get_pois_for_route (route_coords : list (pyval * pyval))
  : M (list pyval) :=
  if negb (list_nonempty route_coords) then ret []
  else if negb gmaps then ret []
  else
    sample_points <~ lift (_sample_route_points route_coords
                             (POI_ROUTE_SAMPLING_DISTANCE cfg)) ;;
    found_pois <~ search_samples [] sample_points ;;
    ret (map snd found_pois).
End Resolver.
End poi_service.

Module app.
Import strava_client.

Definition msg_auth_required : string := "Authentication required".
Definition msg_reauthenticate : string :=
  "Authentication expired, please re-authenticate".


Section Views.
Variable env : Env.
Variable cfg : Config.
(** [str(v)] as the f-strings apply it (Python's formatting of floats is
    not part of this repository). *)
Variable py_str : pyval -> string.
(** The float case of [round(x, 2)] (Python's, likewise). *)
Variable round_float : Q -> Q.

(** [strava_api = get_strava_client()]. *)
Definition strava_refresh_access_token : pyval -> M pyval :=
  refresh_access_token env (STRAVA_CLIENT_ID cfg) (STRAVA_CLIENT_SECRET cfg).

(** The decorator.  The [try] block yields [None] when control falls
    through to the call of [f], and the response when the [except] clause
    returns. *)
Definition auth_required (f : M response) : M response :=
  s <~ get_session ;;
  match s !! "strava_token" with
  | None => ret (jsonify_with (error_body msg_auth_required) 401)
  | Some token_info =>
      expires_at <~ lift (py_getitem token_info "expires_at") ;;
      now <~ time_time env ;;
      expired <~ lift (py_lt_float expires_at now) ;;
      early <~ (if expired : bool then
                  try_except
                    (refresh_token <~ lift (py_getitem token_info "refresh_token") ;;
                     new_token_info <~ strava_refresh_access_token refresh_token ;;
                     session_set "strava_token" new_token_info ;;;
                     ret None)
                    except_StravaAPIError
                    (fun _ =>
                       session_clear ;;;
                       ret (Some (jsonify_with (error_body msg_reauthenticate) 401)))
                else ret None) ;;
      match early with
      | Some r => ret r
      | None => f
      end
  end.

Definition trkpt_line (lat lng : pyval) : string :=
  "  <trkpt lat=" +:+ dq +:+ py_str lat +:+ dq +:+ " lon=" +:+ dq +:+ py_str lng
    +:+ dq +:+ "></trkpt>" +:+ nl.

(** [for lat, lng in coords: gpx_points += ...]. *)
Fixpoint gpx_points_loop (gpx_points : string) (coords : list pyval) : result string :=
  match coords with
  | [] => Ok gpx_points
  | c :: rest =>
      let? p := unpack2 c in
      gpx_points_loop (gpx_points +:+ trkpt_line (fst p) (snd p)) rest
  end.

Definition gpx_document (activity_name gpx_points : string) : string :=
  "<?xml version=" +:+ dq +:+ "1.0" +:+ dq +:+ " encoding=" +:+ dq +:+ "UTF-8"
    +:+ dq +:+ "?>" +:+ nl +:+
  "<gpx version=" +:+ dq +:+ "1.1" +:+ dq +:+ " creator=" +:+ dq
    +:+ "Strava Route Discovery App" +:+ dq +:+ " xmlns=" +:+ dq
    +:+ "http://www.topografix.com/GPX/1/1" +:+ dq +:+ ">" +:+ nl +:+
  "  <trk>" +:+ nl +:+
  "    <name>" +:+ activity_name +:+ "</name>" +:+ nl +:+
  "    <trkseg>" +:+ nl +:+
  gpx_points +:+ nl +:+
  "    </trkseg>" +:+ nl +:+
  "  </trk>" +:+ nl +:+
  "</gpx>" +:+ nl.

Definition create_gpx_string (activity_name : string) (coords : pyval)
  : result string :=
  let? items := py_iter coords in
  let? gpx_points := gpx_points_loop EmptyString items in
  Ok (gpx_document activity_name gpx_points).

(** [session['strava_token']['access_token']]. *)
Definition session_access_token : M pyval :=
  token_info <~ session_get "strava_token" ;;
  lift (py_getitem token_info "access_token").

Definition strava_get_activity_stream : Z -> pyval -> M pyval :=
  get_activity_stream env.

(** The view functions, before [@auth_required] is applied. *)
Definition get_activity_stream_data_body (activity_id : Z) : M response :=
  access_token <~ session_access_token ;;
  try_except
    (latlng_stream <~ strava_get_activity_stream activity_id access_token ;;
     if negb (truthy latlng_stream) then
       ret (jsonify_with (error_body "No GPS data found for this activity") 404)
     else
       ret (jsonify (PDict [("stream"%string, latlng_stream)])))
    except_StravaAPIError
    (fun _ => ret (jsonify_with (error_body "Failed to fetch activity data") 500)).

Definition get_activity_stream_data (activity_id : Z) : M response :=
  auth_required (get_activity_stream_data_body activity_id).

Definition auth_status : M response :=
  s <~ get_session ;;
  match s !! "strava_token" with
  | None => ret (jsonify (PDict [("authenticated"%string, PBool false)]))
  | Some token_info =>
      expires_at <~ lift (py_getitem token_info "expires_at") ;;
      now <~ time_time env ;;
      live <~ lift (py_gt_float expires_at now) ;;
      if live : bool
      then ret (jsonify (PDict [("authenticated"%string, PBool true)]))
      else ret (jsonify (PDict [("authenticated"%string, PBool false)]))
  end.

Definition logout : M response :=
  session_clear ;;;
  ret (jsonify_with (PDict [("message"%string, PStr "Successfully logged out")]) 200).

(** [round(x, 2)]: an int comes back as it is, anything that is not a
    number has no [__round__]. *)
Definition py_round2 (v : pyval) : result pyval :=
  match v with
  | PInt z => Ok (PInt z)
  | PBool b => Ok (PInt (Z.b2z b))
  | PFloat q => Ok (PFloat (round_float q))
  | _ => Raise TypeError
  end.

(** The dict built for one activity; its items are evaluated in order. *)
Definition activity_item (act : pyval) : result pyval :=
  let? id := py_getitem act "id" in
  let? name := py_getitem act "name" in
  let? distance := py_getitem act "distance" in
  let? rounded := py_round2 distance in
  let? type := py_getitem act "type" in
  let? start_date := py_getitem act "start_date_local" in
  Ok (PDict [("id"%string, id); ("name"%string, name);
             ("distance"%string, rounded); ("type"%string, type);
             ("start_date"%string, start_date)]).

(** The condition of the comprehension,
    [act.get("map", {}).get("summary_polyline")], as a truth value. *)
Definition has_summary_polyline (act : pyval) : result bool :=
  let? m := py_get act "map" (PDict []) in
  let? polyline := py_get m "summary_polyline" PNone in
  Ok (truthy polyline).

(** [[ {...} for act in activities if ... ]]. *)
Fixpoint filtered_activities (activities : list pyval) : result (list pyval) :=
  match activities with
  | [] => Ok []
  | act :: rest =>
      let? keep := has_summary_polyline act in
      if keep : bool then
        let? item := activity_item act in
        let? items := filtered_activities rest in
        Ok (item :: items)
      else filtered_activities rest
  end.

Definition get_activities_body : M response :=
  access_token <~ session_access_token ;;
  try_except
    (activities <~ strava_client.get_activities env access_token 1 50 ;;
     acts <~ lift (py_iter activities) ;;
     filtered <~ lift (filtered_activities acts) ;;
     ret (jsonify (PList filtered)))
    except_StravaAPIError
    (fun _ => ret (jsonify_with (error_body "Failed to fetch activities") 500)).

Definition get_activities : M response := auth_required get_activities_body.

Definition strava_exchange_code_for_token : string -> M pyval :=
  exchange_code_for_token env (STRAVA_CLIENT_ID cfg) (STRAVA_CLIENT_SECRET cfg).

(** [redirect_uri] is what [url_for('strava_callback', _external=True)]
    gives. *)
Definition strava_auth (redirect_uri : string) : M reply :=
  let auth_url := get_authorization_url (STRAVA_CLIENT_ID cfg) redirect_uri in
  ret (Redirect auth_url).

(** [code] is [request.args.get('code')]. *)
Definition strava_callback (code : option string) : M reply :=
  match code with
  | Some code' =>
      if negb (string_nonempty code') then
        ret (Json (jsonify_with (error_body "Authorization code not provided") 400))
      else
        try_except
          (token_info <~ strava_exchange_code_for_token code' ;;
           session_set "strava_token" token_info ;;;
           ret (Redirect "http://localhost:5173/activities"))
          except_StravaAPIError
          (fun _ => ret (Json (jsonify_with (error_body "Authentication failed") 500)))
  | None =>
      ret (Json (jsonify_with (error_body "Authorization code not provided") 400))
  end.

Definition get_activity_gpx_body (activity_id : Z) : M response :=
  access_token <~ session_access_token ;;
  try_except
    (latlng_stream <~ strava_get_activity_stream activity_id access_token ;;
     if negb (truthy latlng_stream) then
       ret (jsonify_with (error_body "No GPS data found for this activity") 404)
     else
       gpx_data <~ lift (create_gpx_string ("Activity " +:+ str_of_Z activity_id)
                           latlng_stream) ;;
       ret (jsonify (PDict [("gpx"%string, PStr gpx_data)])))
    except_StravaAPIError
    (fun _ => ret (jsonify_with (error_body "Failed to fetch activity data") 500)).

Definition get_activity_gpx (activity_id : Z) : M response :=
  auth_required (get_activity_gpx_body activity_id).

(** [[[coord[1], coord[0]] for coord in route]]. *)
Fixpoint swap_route (route : list pyval) : result (list (pyval * pyval)) :=
  match route with
  | [] => Ok []
  | coord :: rest =>
      let? lng := py_index coord 1 in
      let? lat := py_index coord 0 in
      let? coords := swap_route rest in
      Ok ((lng, lat) :: coords)
  end.

(** [data] is what [request.get_json()] returned. *)
Definition get_nearby_pois (data : pyval) : M response :=
  missing <~ (if negb (truthy data) then ret true
              else has <~ lift (py_contains "route" data) ;; ret (negb has)) ;;
  if missing : bool then
    ret (jsonify_with (error_body "Route data is required") 400)
  else
    route <~ lift (py_getitem data "route") ;;
    rejected <~ (if negb (is_list route) then ret true
                 else len <~ lift (py_len route) ;; ret (len <? 2)) ;;
    if rejected : bool then
      ret (jsonify_with
             (error_body "Route must be a list with at least 2 coordinates") 400)
    else
      try_except2
        (items <~ lift (py_iter route) ;;
         route_coords <~ lift (swap_route items) ;;
         pois <~ poi_service.get_pois_for_route env cfg route_coords ;;
         ret (jsonify (PList pois)))
        except_IndexError_TypeError
        (fun _ => ret (jsonify_with
                         (error_body "Invalid route coordinate format") 400))
        except_Exception
        (fun _ => ret (jsonify_with
                         (error_body "Failed to retrieve points of interest") 500)).
End Views.
End app.

End Main.

(* ===================================================================== *)
(** ** [src/backend/strava_client.py], [src/backend/poi_service.py],
       [src/backend/app.py] *)
(* ===================================================================== *)

Module Backend.

Module strava_client.
Section StravaAPI.
Variable env : Env.
Variables client_id client_secret : string.

Definition API_URL : string := "https://www.strava.com/api/v3".
Definition TOKEN_URL : string := "https://www.strava.com/oauth/token".
Definition AUTHORIZE_URL : string := "https://www.strava.com/oauth/authorize".

Definition get_authorization_url (redirect_uri : string) : string :=
  let params := [("client_id"%string, client_id);
                 ("redirect_uri"%string, redirect_uri);
                 ("response_type"%string, "code"%string);
                 ("approval_prompt"%string, "force"%string);
                 ("scope"%string, "read,activity:read_all"%string)] in
  AUTHORIZE_URL +:+ "?" +:+ urlencode params.

Definition refresh_payload (refresh_token : pyval) : list (string * pyval) :=
  [("client_id"%string, PStr client_id);
   ("client_secret"%string, PStr client_secret);
   ("refresh_token"%string, refresh_token);
   ("grant_type"%string, PStr "refresh_token")].

Definition exchange_payload (code : string) : list (string * pyval) :=
  [("client_id"%string, PStr client_id);
   ("client_secret"%string, PStr client_secret);
   ("code"%string, PStr code);
   ("grant_type"%string, PStr "authorization_code")].

Definition exchange_code_for_token (code : string) : M pyval :=
  let payload := exchange_payload code in
  response <~ requests_post env TOKEN_URL payload None ;;
  raise_for_status response ;;;
  ret (snd response).

(** No [try] here, and no [timeout]: what [requests] raises leaves the
    method as it is. *)
Definition refresh_access_token (refresh_token : pyval) : M pyval :=
  let payload := refresh_payload refresh_token in
  response <~ requests_post env TOKEN_URL payload None ;;
  raise_for_status response ;;;
  ret (snd response).

Definition get_api_headers (access_token : pyval) : pyval := access_token.

Definition get_activities (access_token : pyval) (page per_page : Z) : M pyval :=
  let headers := get_api_headers access_token in
  let params := [("page"%string, PInt page); ("per_page"%string, PInt per_page)] in
  response <~ requests_get env (API_URL +:+ "/athlete/activities")
                headers params None ;;
  raise_for_status response ;;;
  ret (snd response).

Definition stream_url (activity_id : Z) : string :=
  API_URL +:+ "/activities/" +:+ str_of_Z activity_id +:+ "/streams".

Definition stream_params : list (string * pyval) :=
  [("keys"%string, PStr "latlng"); ("key_by_type"%string, PStr "true")].

Definition get_activity_stream (activity_id : Z) (access_token : pyval) : M pyval :=
  let headers := get_api_headers access_token in
  response <~ requests_get env (stream_url activity_id) headers stream_params
                None ;;
  raise_for_status response ;;;
  let data := snd response in
  latlng <~ lift (py_get data "latlng" (PDict [])) ;;
  lift (py_get latlng "data" (PList [])).
End StravaAPI.
End strava_client.

Module poi_service.
Section Resolver.
(** Everything after the first [if]: the shapely / osmnx pipeline
    ([LineString], [features_from_geometry], [project_gdf], the distance
    filter), whose libraries are outside this repository. *)
Variable osm_pois_near_line : list (pyval * pyval) -> M (list pyval).

Definition get_pois_for_route (route_coords : list (pyval * pyval))
  : M (list pyval) :=
  if negb (list_nonempty route_coords) then ret []
  else osm_pois_near_line route_coords.
End Resolver.
End poi_service.

Module app.
Import strava_client.

Definition msg_unauthorized : string := "Unauthorized".
Definition msg_reauthenticate : string :=
  "Failed to refresh token, please re-authenticate".

Section Views.
Variable env : Env.
(** [app.secret_key = os.getenv("FLASK_SECRET_KEY")]: there is no default
    here, and without a key the session is Flask's null session. *)
Variable secret_key : option string.
Variables client_id client_secret : string.
Variable py_str : pyval -> string.
Variable osm_pois_near_line : list (pyval * pyval) -> M (list pyval).

Definition strava_refresh_access_token : pyval -> M pyval :=
  refresh_access_token env client_id client_secret.

Definition auth_required (f : M response) : M response :=
  s <~ open_session secret_key ;;
  match s !! "strava_token" with
  | None => ret (jsonify_with (error_body msg_unauthorized) 401)
  | Some token_info =>
      expires_at <~ lift (py_getitem token_info "expires_at") ;;
      now <~ time_time env ;;
      expired <~ lift (py_lt_float expires_at now) ;;
      early <~ (if expired : bool then
                  try_except
                    (refresh_token <~ lift (py_getitem token_info "refresh_token") ;;
                     new_token_info <~ strava_refresh_access_token refresh_token ;;
                     session_setitem secret_key "strava_token" new_token_info ;;;
                     ret None)
                    except_Exception
                    (fun _ =>
                       session_clear_all secret_key ;;;
                       ret (Some (jsonify_with (error_body msg_reauthenticate) 401)))
                else ret None) ;;
      match early with
      | Some r => ret r
      | None => f
      end
  end.

(** The same text as in [src/app.py]. *)
Definition create_gpx_string : string -> pyval -> result string :=
  Main.app.create_gpx_string py_str.

Definition auth_status : M response :=
  s <~ open_session secret_key ;;
  match s !! "strava_token" with
  | None => ret (jsonify (PDict [("authenticated"%string, PBool false)]))
  | Some token_info =>
      expires_at <~ lift (py_getitem token_info "expires_at") ;;
      now <~ time_time env ;;
      live <~ lift (py_gt_float expires_at now) ;;
      if live : bool
      then ret (jsonify (PDict [("authenticated"%string, PBool true)]))
      else ret (jsonify (PDict [("authenticated"%string, PBool false)]))
  end.

Definition logout : M response :=
  session_clear_all secret_key ;;;
  ret (jsonify_with (PDict [("message"%string, PStr "Successfully logged out")]) 200).

(** [session['strava_token']['access_token']]. *)
Definition session_access_token : M pyval :=
  token_info <~ session_getitem secret_key "strava_token" ;;
  lift (py_getitem token_info "access_token").

Definition activity_item (act : pyval) : result pyval :=
  let? id := py_getitem act "id" in
  let? name := py_getitem act "name" in
  let? distance := py_getitem act "distance" in
  let? type := py_getitem act "type" in
  let? start_date := py_getitem act "start_date_local" in
  Ok (PDict [("id"%string, id); ("name"%string, name);
             ("distance"%string, distance); ("type"%string, type);
             ("start_date"%string, start_date)]).

Definition has_summary_polyline (act : pyval) : result bool :=
  let? m := py_get act "map" (PDict []) in
  let? polyline := py_get m "summary_polyline" PNone in
  Ok (truthy polyline).

Fixpoint filtered_activities (activities : list pyval) : result (list pyval) :=
  match activities with
  | [] => Ok []
  | act :: rest =>
      let? keep := has_summary_polyline act in
      if keep : bool then
        let? item := activity_item act in
        let? items := filtered_activities rest in
        Ok (item :: items)
      else filtered_activities rest
  end.

Definition get_activities_body : M response :=
  access_token <~ session_access_token ;;
  try_except
    (activities <~ strava_client.get_activities env access_token 1 50 ;;
     acts <~ lift (py_iter activities) ;;
     filtered <~ lift (filtered_activities acts) ;;
     ret (jsonify (PList filtered)))
    except_Exception
    (fun _ => ret (jsonify_with (error_body "Failed to fetch activities") 500)).

Definition get_activities : M response := auth_required get_activities_body.

Definition get_activity_gpx_body (activity_id : Z) : M response :=
  access_token <~ session_access_token ;;
  try_except
    (latlng_stream <~ get_activity_stream env activity_id access_token ;;
     if negb (truthy latlng_stream) then
       ret (jsonify_with
              (error_body "No latitude/longitude data found for this activity.") 404)
     else
       gpx_data <~ lift (create_gpx_string ("Activity " +:+ str_of_Z activity_id)
                           latlng_stream) ;;
       ret (jsonify (PDict [("gpx"%string, PStr gpx_data)])))
    except_Exception
    (fun _ => ret (jsonify_with (error_body "Failed to fetch activity stream") 500)).

Definition get_activity_gpx (activity_id : Z) : M response :=
  auth_required (get_activity_gpx_body activity_id).

Definition strava_exchange_code_for_token : string -> M pyval :=
  exchange_code_for_token env client_id client_secret.

Definition strava_auth (redirect_uri : string) : M reply :=
  let auth_url := get_authorization_url client_id redirect_uri in
  ret (Redirect auth_url).

Definition strava_callback (code : option string) : M reply :=
  match code with
  | Some code' =>
      if negb (string_nonempty code') then
        ret (Text "Error: No code provided." 400)
      else
        try_except
          (token_info <~ strava_exchange_code_for_token code' ;;
           session_setitem secret_key "strava_token" token_info ;;;
           ret (Redirect "http://localhost:5173/activities"))
          except_Exception
          (fun _ => ret (Text "Error: Could not exchange code for token." 500))
  | None => ret (Text "Error: No code provided." 400)
  end.

(** The comprehension runs before the [try], over whatever
    [data['route']] is; there is no check of its length. *)
Definition get_nearby_pois (data : pyval) : M response :=
  missing <~ (if negb (truthy data) then ret true
              else has <~ lift (py_contains "route" data) ;; ret (negb has)) ;;
  if missing : bool then
    ret (jsonify_with (error_body "Missing route data") 400)
  else
    route <~ lift (py_getitem data "route") ;;
    items <~ lift (py_iter route) ;;
    route_coords <~ lift (Main.app.swap_route items) ;;
    try_except
      (pois <~ poi_service.get_pois_for_route osm_pois_near_line route_coords ;;
       ret (jsonify (PList pois)))
      except_Exception
      (fun _ => ret (jsonify_with
                       (error_body "Failed to retrieve points of interest") 500)).
End Views.
End app.

End Backend.

(* ===================================================================== *)
(** ** Vocabulary of the statements *)
(* ===================================================================== *)

(** [expires_at] of a token dict, when it is a number. *)
Definition expires_at_of (token_info : pyval) : option Q :=
  match py_getitem token_info "expires_at" with
  | Ok e => py_number e
  | Raise _ => None
  end.

(** A token request that does not bring a token back: no response, or a
    4xx / 5xx status. *)
Definition http_failed (r : http_result) : bool :=
  match r with
  | NoResponse => true
  | Response c _ => (400 <=? c) && (c <? 600)
  end.

(** The refresh request of a gate, with the time-out its client gives the
    call.  Both back ends read the Strava credentials from the same two
    environment variables. *)
Definition token_request_with (timeout : option Z) (cfg : Config)
    (refresh_token : pyval) : event :=
  EvPost Main.strava_client.TOKEN_URL
    (Main.strava_client.refresh_payload (STRAVA_CLIENT_ID cfg)
       (STRAVA_CLIENT_SECRET cfg) refresh_token)
    timeout.

(** What the token end point answers to that request, which follows the
    clock reading. *)
Definition refresh_answer_with (timeout : option Z) (env : Env) (cfg : Config)
    (w : world) (refresh_token : pyval) : http_result :=
  env_post env (trace w ++ [EvTime]) Main.strava_client.TOKEN_URL
    (Main.strava_client.refresh_payload (STRAVA_CLIENT_ID cfg)
       (STRAVA_CLIENT_SECRET cfg) refresh_token)
    timeout.

(** [src/strava_client.py] waits 10 seconds for the token end point,
    [src/backend/strava_client.py] without limit. *)
Definition token_request : Config -> pyval -> event :=
  token_request_with (Some 10).
Definition backend_token_request : Config -> pyval -> event :=
  token_request_with None.
Definition refresh_answer : Env -> Config -> world -> pyval -> http_result :=
  refresh_answer_with (Some 10).
Definition backend_refresh_answer : Env -> Config -> world -> pyval -> http_result :=
  refresh_answer_with None.

(** The gate made exactly one refresh request, put the token it brought into
    the session, and only then handed over to the wrapped view, whatever
    that view is. *)
Definition refreshes_once_then_dispatches
    (gate : M response -> M response) (w : world) (new_token_info : pyval) : Prop :=
  exists added : list event,
    count_refresh added = 1%nat /\
    forall f, gate f w =
                f (World (<["strava_token" := new_token_info]> (session w))
                         (trace w ++ added)).

(** The gate made exactly one refresh request, emptied the session and
    answered 401 itself: no wrapped view is run. *)
Definition refreshes_once_then_rejects
    (gate : M response -> M response) (w : world) : Prop :=
  exists (added : list event) (r : response),
    count_refresh added = 1%nat /\
    status r = 401 /\
    forall f, gate f w = (Ok r, World ∅ (trace w ++ added)).

(** The gate handed over to the wrapped view without any refresh request and
    with the session as it was. *)
Definition dispatches_without_refresh
    (gate : M response -> M response) (w : world) : Prop :=
  exists (w1 : world) (added : list event),
    trace w1 = trace w ++ added /\
    count_refresh added = 0%nat /\
    session w1 = session w /\
    forall f, gate f w = f w1.

(** [src/backend/app.py] takes its secret key from the environment and has
    no default.  A session that holds a token is one Flask could sign, so
    the statements about such sessions are about the back end started with a
    key; the model asks of a key only whether it is empty. *)
Definition backend_secret_key : option string := Some "backend-secret"%string.

(** [auth_required] of [src/backend/app.py] with the credentials of the
    configuration. *)
Definition backend_auth_required (env : Env) (cfg : Config)
  : M response -> M response :=
  Backend.app.auth_required env backend_secret_key
    (STRAVA_CLIENT_ID cfg) (STRAVA_CLIENT_SECRET cfg).

(** A view body that talks to Strava at most once, with the access token
    found in the session, and leaves the session alone. *)
Definition uses_session_token (body : M response) : Prop :=
  forall w : world,
    session (snd (body w)) = session w /\
    (trace (snd (body w)) = trace w \/
     exists tok bearer url params timeout,
       session w !! "strava_token" = Some tok /\
       py_getitem tok "access_token" = Ok bearer /\
       trace (snd (body w)) = trace w ++ [EvGet url bearer params timeout]).


(** What the outside answers to [request] when it is sent after the calls
    in [tr]. *)
Definition answer_to (env : Env) (tr : list event) (request : event) : http_result :=
  match request with
  | EvPost url data timeout => env_post env tr url data timeout
  | EvGet url bearer params timeout => env_get env tr url bearer params timeout
  | _ => NoResponse
  end.


(** The views behind [@auth_required], in both back ends. *)
Inductive protected_endpoint (env : Env) (cfg : Config)
    (py_str : pyval -> string) (round_float : Q -> Q) : M response -> Prop :=
| protected_stream (activity_id : Z) :
    protected_endpoint env cfg py_str round_float
      (Main.app.get_activity_stream_data env cfg activity_id)
| protected_activities :
    protected_endpoint env cfg py_str round_float
      (Main.app.get_activities env cfg round_float)
| protected_gpx (activity_id : Z) :
    protected_endpoint env cfg py_str round_float
      (Main.app.get_activity_gpx env cfg py_str activity_id)
| protected_backend_activities :
    protected_endpoint env cfg py_str round_float
      (Backend.app.get_activities env backend_secret_key (STRAVA_CLIENT_ID cfg)
         (STRAVA_CLIENT_SECRET cfg))
| protected_backend_gpx (activity_id : Z) :
    protected_endpoint env cfg py_str round_float
      (Backend.app.get_activity_gpx env backend_secret_key (STRAVA_CLIENT_ID cfg)
         (STRAVA_CLIENT_SECRET cfg) py_str activity_id).

(** The summary polyline of a raw activity record, when the field is there. *)
Definition polyline_of (act : pyval) : option pyval :=
  match act with
  | PDict kv =>
      match assoc "map" kv with
      | Some (PDict m) => assoc "summary_polyline" m
      | _ => None
      end
  | _ => None
  end.

(** The field is there and its value is true in Python's sense. *)
Definition has_nonempty_polyline (act : pyval) : bool :=
  match polyline_of act with
  | Some polyline => truthy polyline
  | None => false
  end.

(** A raw record as Strava sends it: a dict whose ["map"], if any, is a
    dict. *)
Definition map_is_dict_or_absent (act : pyval) : bool :=
  match act with
  | PDict kv =>
      match assoc "map" kv with
      | None | Some (PDict _) => true
      | Some _ => false
      end
  | _ => false
  end.

(** Two of the messages of [get_nearby_pois] in [src/app.py]. *)
Definition msg_short_route : string :=
  "Route must be a list with at least 2 coordinates".
Definition msg_pois_failed : string := "Failed to retrieve points of interest".

(** A coordinate the comprehension can swap: a list with at least two
    items. *)
Definition is_coordinate (coord : pyval) : bool :=
  match coord with
  | PList (_ :: _ :: _) => true
  | _ => false
  end.

(** *** The place dictionary of [get_pois_for_route] *)

Import Main.poi_service.

(** No two entries have equal keys. *)
Fixpoint distinct_ids (d : found_dict) : bool :=
  match d with
  | [] => true
  | item :: rest =>
      negb (existsb (fun other => key_eqb (fst item) (fst other)) rest)
      && distinct_ids rest
  end.

(** [found_pois.get(k)]. *)
Definition dict_lookup (k : pyval) (d : found_dict) : option pyval :=
  match find (fun item => key_eqb k (fst item)) d with
  | Some item => Some (snd item)
  | None => None
  end.

(** [k in found_pois], for a key that can be hashed. *)
Definition known (k : pyval) (d : found_dict) : bool :=
  existsb (fun item => key_eqb k (fst item)) d.

(** What one search brings: the items of ["results"], when the call
    returns and its answer can be read. *)
Definition batch_of (r : result pyval) : result (list pyval) :=
  let? response := r in
  let? results := py_get response "results" (PList []) in
  py_iter results.

(** The same, with nothing for a search that failed. *)
Definition items_of (r : result pyval) : list pyval :=
  match batch_of r with
  | Ok items => items
  | Raise _ => []
  end.

(** A result the loop body can store: it has a place identifier that can be
    a key, and the fields the record is built from. *)
Definition well_formed_poi (poi : pyval) : bool :=
  match py_getitem poi "place_id", poi_record poi with
  | Ok place_id, Ok _ => hashable place_id
  | _, _ => false
  end.

(** The result carries the place identifier [id]. *)
Definition has_place_id (id : pyval) (poi : pyval) : bool :=
  match py_getitem poi "place_id" with
  | Ok k => key_eqb id k
  | Raise _ => false
  end.

(** The record built from the first of [items] that carries [id]. *)
Definition record_of_first (id : pyval) (items : list pyval) : option pyval :=
  match find (has_place_id id) items with
  | Some poi => match poi_record poi with
                | Ok record => Some record
                | Raise _ => None
                end
  | None => None
  end.


(** The request sent for one sample point, and what the Places API answers
    to it after the calls in [tr]. *)
Definition search_event (cfg : Config) (location : pyval * pyval) : event :=
  EvPlacesNearby location (POI_SEARCH_RADIUS cfg) (str_join "|" POI_TYPES).

Definition search_answer (env : Env) (cfg : Config) (tr : list event)
    (location : pyval * pyval) : result pyval :=
  env_places env tr location (POI_SEARCH_RADIUS cfg) (str_join "|" POI_TYPES).

(** What the Places API answers to the searches at [sample_points], one
    after the other, when the trace so far is [tr]. *)
Fixpoint answers (env : Env) (cfg : Config)
    (sample_points : list (pyval * pyval)) (tr : list event)
  : list (result pyval) :=
  match sample_points with
  | [] => []
  | location :: rest =>
      search_answer env cfg tr location
      :: answers env cfg rest (tr ++ [search_event cfg location])
  end.

(** What those searches bring, one batch for each point in turn. *)
Definition discoveries (env : Env) (cfg : Config)
    (sample_points : list (pyval * pyval)) (tr : list event)
  : list (list pyval) :=
  map items_of (answers env cfg sample_points tr).

(** The round for an answer ends normally when [found_pois] is what was
    stored before it: the call returned, its ["results"] can be iterated,
    and visiting them raises nothing. *)
Definition round_ends (found_pois : found_dict) (r : result pyval) : bool :=
  match batch_of r with
  | Ok items =>
      match snd (visit_results found_pois items) with
      | None => true
      | Some _ => false
      end
  | Raise _ => false
  end.

(** An answer the loop gets through whatever it has stored before: the call
    returned, its ["results"] can be iterated, and each of them can be
    stored. *)
Definition clean_answer (r : result pyval) : bool :=
  match batch_of r with
  | Ok items => forallb well_formed_poi items
  | Raise _ => false
  end.

(** [found_pois] after the inner loop has run over one batch. *)
Definition absorb (found : found_dict) (items : list pyval) : found_dict :=
  fst (visit_results found items).

(** The entry was built from one of [items]. *)
Definition built_from (items : list pyval) (entry : pyval * pyval) : Prop :=
  exists poi, In poi items /\
              py_getitem poi "place_id" = Ok (fst entry) /\
              poi_record poi = Ok (snd entry).

(** *** A reader for the XML the formatter writes *)

#[warnings="-register-all"]
Inductive xml : Type :=
| XElem (tag : string) (attrs : list (string * string)) (children : list xml)
| XText (text : string).

(** White space, a given character code, and the characters of a name. *)
Definition is_space (c : ascii) : bool :=
  let n := nat_of_ascii c in
  (Nat.eqb n 32 || Nat.eqb n 10 || Nat.eqb n 9 || Nat.eqb n 13)%bool.

Definition is_char (n : nat) (c : ascii) : bool := Nat.eqb (nat_of_ascii c) n.

Definition is_name_char (c : ascii) : bool :=
  let n := nat_of_ascii c in
  (is_upper c || is_lower c || (Nat.leb 48 n && Nat.leb n 57)
   || Nat.eqb n 95 || Nat.eqb n 45 || Nat.eqb n 46 || Nat.eqb n 58)%bool.

Fixpoint all_chars (p : ascii -> bool) (s : string) : bool :=
  match s with
  | EmptyString => true
  | String c rest => p c && all_chars p rest
  end.

(** [s] with [c] at its end. *)
Definition snoc_char (s : string) (c : ascii) : string := s +:+ String c EmptyString.

(** Markup and text pieces: [(true, s)] is what stood between [<] and [>]. *)
Definition cons_opt {A} (x : A) (o : option (list A)) : option (list A) :=
  match o with Some l => Some (x :: l) | None => None end.

Fixpoint split_markup (s : string) (in_tag in_quote : bool) (buf : string)
  : option (list (bool * string)) :=
  match s with
  | EmptyString =>
      if in_tag then None
      else Some (if string_nonempty buf then [(false, buf)] else [])
  | String c rest =>
      if in_tag then
        if in_quote then
          split_markup rest true (negb (is_char 34 c)) (snoc_char buf c)
        else if is_char 34 c then split_markup rest true true (snoc_char buf c)
        else if is_char 62 c then cons_opt (true, buf) (split_markup rest false false EmptyString)
        else if is_char 60 c then None
        else split_markup rest true false (snoc_char buf c)
      else
        if is_char 60 c then
          (if string_nonempty buf
           then cons_opt (false, buf) (split_markup rest true false EmptyString)
           else split_markup rest true false EmptyString)
        else if is_char 38 c then None
        else split_markup rest false false (snoc_char buf c)
  end.

(** Where the reader of attributes stands. *)
Inductive attr_mode : Type :=
| BetweenAttrs (need_space : bool)
| InAttrName (name : string)
| InAttrValue (name value : string).

(** [name="value"] pairs separated by white space. *)
Fixpoint read_attrs (s : string) (m : attr_mode) : option (list (string * string)) :=
  match s with
  | EmptyString => match m with BetweenAttrs _ => Some [] | _ => None end
  | String c rest =>
      match m with
      | BetweenAttrs need_space =>
          if is_space c then read_attrs rest (BetweenAttrs false)
          else if negb need_space && is_name_char c
               then read_attrs rest (InAttrName (String c EmptyString))
          else None
      | InAttrName name =>
          if is_name_char c then read_attrs rest (InAttrName (snoc_char name c))
          else if is_char 61 c then
            match rest with
            | String q rest' =>
                if is_char 34 q then read_attrs rest' (InAttrValue name EmptyString)
                else None
            | EmptyString => None
            end
          else None
      | InAttrValue name value =>
          if is_char 34 c then cons_opt (name, value) (read_attrs rest (BetweenAttrs true))
          else if is_char 60 c || is_char 38 c then None
          else read_attrs rest (InAttrValue name (snoc_char value c))
      end
  end.

(** The tag name at the front of [s] and what follows it. *)
Fixpoint read_name (s : string) (name : string) : string * string :=
  match s with
  | EmptyString => (name, EmptyString)
  | String c rest =>
      if is_name_char c then read_name rest (snoc_char name c) else (name, s)
  end.

(** Tags and text, in the order of the document. *)
Inductive token : Type :=
| TOpen (tag : string) (attrs : list (string * string))
| TClose (tag : string)
| TText (text : string).

(** A name starts with a letter, [_] or [:]. *)
Definition valid_name (name : string) : bool :=
  match name with
  | String c _ => is_upper c || is_lower c || is_char 95 c || is_char 58 c
  | EmptyString => false
  end.

(** No attribute name occurs twice. *)
Fixpoint distinct_attrs (attrs : list (string * string)) : bool :=
  match attrs with
  | [] => true
  | (name, _) :: rest =>
      negb (existsb (fun other => String.eqb name (fst other)) rest)
      && distinct_attrs rest
  end.

(** What stands between [<] and [>]: a closing tag, or an opening tag with
    its attributes. *)
Definition read_tag (s : string) : option token :=
  match s with
  | String c rest =>
      if is_char 47 c then
        let (name, after) := read_name rest EmptyString in
        if valid_name name && all_chars is_space after then Some (TClose name)
        else None
      else
        let (name, after) := read_name s EmptyString in
        if valid_name name then
          match read_attrs after (BetweenAttrs true) with
          | Some attrs =>
              if distinct_attrs attrs then Some (TOpen name attrs) else None
          | None => None
          end
        else None
  | EmptyString => None
  end.

(** White space between tags is dropped. *)
Fixpoint read_tokens (pieces : list (bool * string)) : option (list token) :=
  match pieces with
  | [] => Some []
  | (true, s) :: rest =>
      match read_tag s with
      | Some t => cons_opt t (read_tokens rest)
      | None => None
      end
  | (false, s) :: rest =>
      if all_chars is_space s then read_tokens rest
      else cons_opt (TText s) (read_tokens rest)
  end.

(** Open elements, innermost first, each with the children read so far in
    reverse. *)
Definition open_elems : Type := list (string * list (string * string) * list xml).

(** The trees of a list of tokens, when the tags are balanced. *)
Fixpoint build (toks : list token) (stack : open_elems) (roots : list xml)
  : option (list xml) :=
  match toks with
  | [] => match stack with [] => Some (rev roots) | _ => None end
  | TOpen tag attrs :: rest => build rest ((tag, attrs, []) :: stack) roots
  | TText text :: rest =>
      match stack with
      | (tag, attrs, kids) :: outer =>
          build rest ((tag, attrs, XText text :: kids) :: outer) roots
      | [] => None
      end
  | TClose tag :: rest =>
      match stack with
      | (tag', attrs, kids) :: outer =>
          if String.eqb tag tag' then
            let e := XElem tag attrs (rev kids) in
            match outer with
            | (tag2, attrs2, kids2) :: outer2 =>
                build rest ((tag2, attrs2, e :: kids2) :: outer2) roots
            | [] => build rest [] (e :: roots)
            end
          else None
      | [] => None
      end
  end.

(** The XML declaration at the very start, if any. *)
Definition is_declaration (s : string) : bool :=
  match s with
  | String c _ => is_char 63 c
  | EmptyString => false
  end.

(** A document: an optional declaration, then exactly one element, all tags
    balanced, attribute values quoted. *)
Definition read_xml (s : string) : option xml :=
  match split_markup s false false EmptyString with
  | Some pieces =>
      let body :=
        match pieces with
        | (true, d) :: rest => if is_declaration d then rest else pieces
        | _ => pieces
        end in
      match read_tokens body with
      | Some toks =>
          match build toks [] [] with
          | Some [root] => Some root
          | _ => None
          end
      | None => None
      end
  | None => None
  end.

(** A coordinate of a stream, [[lat, lng]]. *)
Definition pair_item (p : pyval * pyval) : pyval := PList [fst p; snd p].

(** [''.join(parts)]. *)
Definition str_concat (parts : list string) : string :=
  fold_right String.append EmptyString parts.

(** The GPX tree the formatter is to write for [activity_name] and the
    formatted coordinates. *)
Definition gpx_tree (activity_name : string) (points : list (string * string)) : xml :=
  XElem "gpx"
    [("version"%string, "1.1"%string);
     ("creator"%string, "Strava Route Discovery App"%string);
     ("xmlns"%string, "http://www.topografix.com/GPX/1/1"%string)]
    [XElem "trk" []
       [XElem "name" [] [XText activity_name];
        XElem "trkseg" []
          (map (fun p => XElem "trkpt" [("lat"%string, fst p); ("lon"%string, snd p)] [])
               points)]].

(** *** Streams *)

(** The messages of [get_activity_stream_data] in [src/app.py]. *)
Definition msg_no_gps : string := "No GPS data found for this activity".
Definition msg_fetch_failed : string := "Failed to fetch activity data".

(** What the stream view answers, from what the client call gave. *)
Definition stream_answer (r : result pyval) : result response :=
  match r with
  | Ok latlng_stream =>
      if truthy latlng_stream
      then Ok (Resp 200 (PDict [("stream"%string, latlng_stream)]))
      else Ok (Resp 404 (error_body msg_no_gps))
  | Raise StravaAPIError => Ok (Resp 500 (error_body msg_fetch_failed))
  | Raise e => Raise e
  end.

(** The request [get_activity_stream] of [src/strava_client.py] sends. *)
Definition stream_request (activity_id : Z) (access_token : pyval) : event :=
  EvGet (Main.strava_client.stream_url activity_id) access_token
    Main.strava_client.stream_params (Some 15).

Definition not_authenticated : response :=
  jsonify (PDict [("authenticated"%string, PBool false)]).

(** *** Reading the document back

    The characters a formatted coordinate and an activity name may hold for
    the document to read back, and the parts of the document. *)

(** What may stand in an attribute value: anything but the quote, [<]
    and [&]; and in text: anything but [<] and [&]. *)
Definition attr_safe_char (c : ascii) : bool :=
  negb (is_char 34 c || is_char 60 c || is_char 38 c).
Definition text_safe_char (c : ascii) : bool :=
  negb (is_char 60 c || is_char 38 c).

(** The pieces of one [trkpt] line: the white space before it, the opening
    tag with its two attributes, the closing tag. *)
Definition trkpt_tag (lat lon : string) : string :=
  "trkpt lat=" +:+ dq +:+ lat +:+ dq +:+ " lon=" +:+ dq +:+ lon +:+ dq.

Definition trkpt_pieces (buf lat lon : string) : list (bool * string) :=
  [(false, buf +:+ "  "); (true, trkpt_tag lat lon); (true, "/trkpt"%string)].

(** [xs] in front of the list, if there is one. *)
Definition cons_all {A} (xs : list A) (o : option (list A)) : option (list A) :=
  match o with Some l => Some (xs ++ l) | None => None end.

(** Inside a tag and outside its quotes: anything but the quote, [>]
    and [<]. *)
Definition tag_plain_char (c : ascii) : bool :=
  negb (is_char 34 c || is_char 62 c || is_char 60 c).

(** The line written for one coordinate. *)
Definition trkpt_of (py_str : pyval -> string) (p : pyval * pyval) : string :=
  Main.app.trkpt_line py_str (fst p) (snd p).

(** Both numbers of a coordinate are written without quote, [<] or [&]. *)
Definition formats_safely (py_str : pyval -> string) (p : pyval * pyval) : Prop :=
  all_chars attr_safe_char (py_str (fst p)) = true /\
  all_chars attr_safe_char (py_str (snd p)) = true.

(** The two attribute values written for a coordinate. *)
Definition formatted (py_str : pyval -> string) (p : pyval * pyval)
  : string * string :=
  (py_str (fst p), py_str (snd p)).

(** The pieces of all the [trkpt] lines. *)
Definition points_pieces (py_str : pyval -> string)
    (coords : list (pyval * pyval)) : list (bool * string) :=
  concat (map (fun p => trkpt_pieces nl (py_str (fst p)) (py_str (snd p))) coords).

(** The fixed parts of the document: up to the name, between the name and
    the points, and after the points. *)
Definition gpx_head : string :=
  "<?xml version=" +:+ dq +:+ "1.0" +:+ dq +:+ " encoding=" +:+ dq +:+ "UTF-8"
    +:+ dq +:+ "?>" +:+ nl +:+
  "<gpx version=" +:+ dq +:+ "1.1" +:+ dq +:+ " creator=" +:+ dq
    +:+ "Strava Route Discovery App" +:+ dq +:+ " xmlns=" +:+ dq
    +:+ "http://www.topografix.com/GPX/1/1" +:+ dq +:+ ">" +:+ nl +:+
  "  <trk>" +:+ nl +:+
  "    <name>".

Definition gpx_mid : string :=
  "</name>" +:+ nl +:+ "    <trkseg>" +:+ nl.

Definition gpx_foot : string :=
  nl +:+ "    </trkseg>" +:+ nl +:+ "  </trk>" +:+ nl +:+ "</gpx>" +:+ nl.

(** The pieces and the tokens of the fixed parts. *)
Definition pieces_or_nil (o : option (list (bool * string))) : list (bool * string) :=
  match o with Some l => l | None => [] end.

Definition head_pieces : list (bool * string) :=
  Eval vm_compute in pieces_or_nil (split_markup gpx_head false false EmptyString).

Definition mid_pieces : list (bool * string) :=
  Eval vm_compute in
    removelast (pieces_or_nil (split_markup gpx_mid false false EmptyString)).

Definition foot_pieces : list (bool * string) :=
  Eval vm_compute in pieces_or_nil (split_markup gpx_foot false false nl).

Definition tokens_or_nil (o : option (list token)) : list token :=
  match o with Some l => l | None => [] end.

(** The tokens and the element of one [trkpt] line. *)
Definition trkpt_tokens (p : string * string) : list token :=
  [TOpen "trkpt" [("lat"%string, fst p); ("lon"%string, snd p)]; TClose "trkpt"].

Definition head_tokens : list token :=
  Eval vm_compute in tokens_or_nil (read_tokens (tl head_pieces)).
Definition mid_tokens : list token :=
  Eval vm_compute in tokens_or_nil (read_tokens mid_pieces).
Definition foot_tokens : list token :=
  Eval vm_compute in tokens_or_nil (read_tokens foot_pieces).

Definition trkpt_elem (p : string * string) : xml :=
  XElem "trkpt" [("lat"%string, fst p); ("lon"%string, snd p)] [].

(** *** Start-up and configuration *)

(** The variables [validate] asks for, in the order it names them. *)
Definition required_variables : list string :=
  ["STRAVA_CLIENT_ID"; "STRAVA_CLIENT_SECRET"; "GOOGLE_MAPS_API_KEY"]%string.

(** The variable is in the environment with a value that is not empty. *)
Definition is_set (environ : gmap string string) (name : string) : bool :=
  opt_truthy (environ !! name).


(** *** The two clients *)

(** The result of a client method of [src/backend/strava_client.py], with
    the [RequestException] wrapped as [src/strava_client.py] wraps it. *)
Definition as_strava_error {A} (r : result A * world) : result A * world :=
  match r with
  | (Raise RequestException, w) => (Raise StravaAPIError, w)
  | _ => r
  end.

(** A method of [src/strava_client.py] against the method of the same name
    in [src/backend/strava_client.py], both run in world [w] with an
    answer each: the first sent [request] and nothing else, the second
    [backend_request] and nothing else, and, when Strava answers the two
    requests alike, the two methods end alike, a [RequestException] of the
    second being the [StravaAPIError] of the first. *)
Definition wraps_backend_method {A} (env : Env) (w : world)
    (request backend_request : event) (main backend : result A * world) : Prop :=
  snd main = emit request w /\
  snd backend = emit backend_request w /\
  (answer_to env (trace w) request = answer_to env (trace w) backend_request ->
   fst main = fst (as_strava_error backend)).

(** The request for one page of activities. *)
Definition activities_page_request (timeout : option Z) (access_token : pyval)
    (page per_page : Z) : event :=
  EvGet (Main.strava_client.API_URL +:+ "/athlete/activities") access_token
    [("page"%string, PInt page); ("per_page"%string, PInt per_page)] timeout.

(** *** A reader of query strings *)

Definition hex_value (c : ascii) : option nat :=
  let n := nat_of_ascii c in
  if is_digit c then Some (n - 48)%nat
  else if (Nat.leb 65 n && Nat.leb n 70)%bool then Some (n - 55)%nat
  else if (Nat.leb 97 n && Nat.leb n 102)%bool then Some (n - 87)%nat
  else None.

(** [%XX] back to the byte it stands for. *)
Fixpoint unquote (s : string) : string :=
  match s with
  | EmptyString => EmptyString
  | String c rest =>
      if is_char 37 c then
        match rest with
        | String a (String b rest') =>
            match hex_value a, hex_value b with
            | Some x, Some y => String (ascii_of_nat (16 * x + y)%nat) (unquote rest')
            | _, _ => String c (unquote rest)
            end
        | _ => String c (unquote rest)
        end
      else String c (unquote rest)
  end.

(** A [+] stands for a blank. *)
Definition unquote_plus (s : string) : string := unquote (str_replace "+" " " s).

(** The pieces of [s] between the occurrences of [sep]. *)
Fixpoint split_on (sep : ascii) (s buf : string) : list string :=
  match s with
  | EmptyString => [buf]
  | String c rest =>
      if Ascii.eqb c sep then buf :: split_on sep rest EmptyString
      else split_on sep rest (snoc_char buf c)
  end.

(** [s] before and after the first [sep]. *)
Fixpoint cut_at (sep : ascii) (s buf : string) : string * string :=
  match s with
  | EmptyString => (buf, EmptyString)
  | String c rest =>
      if Ascii.eqb c sep then (buf, rest) else cut_at sep rest (snoc_char buf c)
  end.

(** The parameters a query string carries, in order. *)
Definition read_query (s : string) : list (string * string) :=
  map (fun piece =>
         let (k, v) := cut_at "=" piece EmptyString in
         (unquote_plus k, unquote_plus v))
      (split_on "&" s EmptyString).

(** The address and the parameters of a URL. *)
Definition read_url (url : string) : string * list (string * string) :=
  let (address, query) := cut_at "?" url EmptyString in
  (address, read_query query).

(** What [quote_plus] writes for one byte, and for a text byte by byte. *)
Definition quote_plus_char (c : ascii) : string :=
  if always_safe c then String c EmptyString
  else if is_blank c then "+"%string
  else percent_escape c.

Fixpoint quote_plus_chars (s : string) : string :=
  match s with
  | EmptyString => EmptyString
  | String c rest => quote_plus_char c +:+ quote_plus_chars rest
  end.

(** The characters of an escaped text: unreserved ones, [%] and [+]. *)
Definition escaped_char (c : ascii) : bool :=
  always_safe c || is_char 37 c || is_char 43 c.

Definition differs_from (sep : ascii) (c : ascii) : bool := negb (Ascii.eqb c sep).

(** One [key=value] piece of a query string. *)
Definition encoded_pair (kv : string * string) : string :=
  quote_plus (fst kv) +:+ "=" +:+ quote_plus (snd kv).

(** The parameters Strava is to read from the authorization URL. *)
Definition authorization_params (client_id redirect_uri : string)
  : list (string * string) :=
  [("client_id"%string, client_id);
   ("redirect_uri"%string, redirect_uri);
   ("response_type"%string, "code"%string);
   ("approval_prompt"%string, "force"%string);
   ("scope"%string, "read,activity:read_all"%string)].

(** *** Logging in and out *)






(** The bodies of [auth_status] and [logout]. *)
Definition authenticated (b : bool) : response :=
  jsonify (PDict [("authenticated"%string, PBool b)]).


(** Results of the two decorators that differ at most in the text of a
    401. *)
Definition same_but_for_401_text (a b : result response * world) : Prop :=
  snd a = snd b /\
  (fst a = fst b \/
   exists ra rb, fst a = Ok ra /\ fst b = Ok rb /\ status ra = 401 /\ status rb = 401).

(** *** Listing and exporting *)

Definition msg_activities_failed : string := "Failed to fetch activities".

Definition backend_get_activities (env : Env) (cfg : Config) : M response :=
  Backend.app.get_activities env backend_secret_key
    (STRAVA_CLIENT_ID cfg) (STRAVA_CLIENT_SECRET cfg).

(** What Strava answers to the request of the listing view, made after the
    calls in [tr]: to [src/strava_client.py], which waits 10 seconds, and to
    [src/backend/strava_client.py], which waits without limit. *)
Definition activities_answer (env : Env) (tr : list event) (access_token : pyval)
  : http_result :=
  env_get env tr (Main.strava_client.API_URL +:+ "/athlete/activities") access_token
    [("page"%string, PInt 1); ("per_page"%string, PInt 50)] (Some 10).

Definition backend_activities_answer (env : Env) (tr : list event)
    (access_token : pyval) : http_result :=
  env_get env tr (Main.strava_client.API_URL +:+ "/athlete/activities") access_token
    [("page"%string, PInt 1); ("per_page"%string, PInt 50)] None.

(** What Strava answers to the stream request: to [src/strava_client.py],
    which waits 15 seconds, and to [src/backend/strava_client.py]. *)
Definition stream_upstream (env : Env) (tr : list event) (activity_id : Z)
    (access_token : pyval) : http_result :=
  env_get env tr (Main.strava_client.stream_url activity_id) access_token
    Main.strava_client.stream_params (Some 15).

Definition backend_stream_upstream (env : Env) (tr : list event) (activity_id : Z)
    (access_token : pyval) : http_result :=
  env_get env tr (Main.strava_client.stream_url activity_id) access_token
    Main.strava_client.stream_params None.

(** The exceptions that reading a JSON value the wrong way raises. *)
Definition view_error (e : exn) : Prop :=
  e = KeyError \/ e = TypeError \/ e = AttributeError.

(** [data.get('latlng', {}).get('data', [])]. *)
Definition latlng_data (data : pyval) : result pyval :=
  let? latlng := py_get data "latlng" (PDict []) in
  py_get latlng "data" (PList []).

Definition backend_get_activity_gpx (env : Env) (cfg : Config)
    (py_str : pyval -> string) : Z -> M response :=
  Backend.app.get_activity_gpx env backend_secret_key
    (STRAVA_CLIENT_ID cfg) (STRAVA_CLIENT_SECRET cfg) py_str.

Definition backend_msg_no_gps : string :=
  "No latitude/longitude data found for this activity.".
Definition backend_msg_fetch_failed : string := "Failed to fetch activity stream".

Definition gpx_body (doc : string) : pyval := PDict [("gpx"%string, PStr doc)].

(** *** Points of interest *)

Definition msg_route_required : string := "Route data is required".
Definition msg_invalid_coordinate : string := "Invalid route coordinate format".

(** ["|".join(POI_TYPES)] as it goes to the Places API. *)
Definition places_type : string :=
  "cafe|restaurant|bar|tourist_attraction|museum|park|art_gallery|viewpoint".

(** The labels a record can carry as its ["type"]. *)
Definition poi_labels : list string :=
  ["Cafe"; "Restaurant"; "Bar"; "Tourist Attraction"; "Museum"; "Park";
   "Art Gallery"; "Viewpoint"; "Point Of Interest"]%string.

(** [d.get(k, default)] on the items of a dict. *)
Definition assoc_or (k : string) (default : pyval) (kv : list (string * pyval))
  : pyval :=
  match assoc k kv with
  | Some v => v
  | None => default
  end.

(* ===================================================================== *)
(** ** Concrete inputs *)
(* ===================================================================== *)

(** The configuration with the defaults of [src/config.py] for the POI
    settings. *)
Definition sample_cfg : Config :=
  {| STRAVA_CLIENT_ID := "12345";
     STRAVA_CLIENT_SECRET := "s3cr3t";
     GOOGLE_MAPS_API_KEY := Some "AIza-key"%string;
     POI_SEARCH_RADIUS := 100;
     POI_ROUTE_SAMPLING_DISTANCE := 500 |}.

(** A token as the token end point sends it, and a session that holds it. *)
Definition sample_token (access refresh : string) (expires_at : Z) : pyval :=
  PDict [("token_type"%string, PStr "Bearer");
         ("access_token"%string, PStr access);
         ("refresh_token"%string, PStr refresh);
         ("expires_at"%string, PInt expires_at)].

Definition world_with_token (tok : pyval) : world :=
  World {["strava_token"%string := tok]} [].

(** A world in which it is always second 1000, the token end point is down
    and Strava and the Places API have nothing to say. *)
Definition offline_env : Env :=
  {| env_time := fun _ => 1000 # 1;
     env_post := fun _ _ _ _ => NoResponse;
     env_get := fun _ _ _ _ _ => NoResponse;
     env_places := fun _ _ _ _ => Ok (PDict []) |}.

(** The same second, with a token end point that hands out a fresh token and
    a Strava that lists no activity. *)
Definition online_env : Env :=
  {| env_time := fun _ => 1000 # 1;
     env_post := fun _ _ _ _ =>
       Response 200 (sample_token "new-access" "new-refresh" 5000);
     env_get := fun _ _ _ _ _ => Response 200 (PList []);
     env_places := fun _ _ _ _ => Ok (PDict []) |}.


(** A Strava that answers every read with [listing]. *)
Definition listing_env (listing : pyval) : Env :=
  {| env_time := fun _ => 1000 # 1;
     env_post := fun _ _ _ _ => NoResponse;
     env_get := fun _ _ _ _ _ => Response 200 listing;
     env_places := fun _ _ _ _ => Ok (PDict []) |}.

Definition raw_activity (id : Z) (name : string) (polyline : option pyval) : pyval :=
  PDict [("id"%string, PInt id);
         ("name"%string, PStr name);
         ("distance"%string, PInt 5000);
         ("type"%string, PStr "Run");
         ("start_date_local"%string, PStr "2024-05-01T07:30:00Z");
         ("map"%string,
           PDict (("id"%string, PStr "a1") ::
                  match polyline with
                  | Some p => [("summary_polyline"%string, p)]
                  | None => []
                  end))].

(** Bodies of [POST /api/pois]. *)
Definition pois_request (route : list pyval) : pyval :=
  PDict [("route"%string, PList route)].

Definition latlng (lat lng : Q) : pyval := PList [PFloat lat; PFloat lng].

Definition three_point_route : list pyval :=
  [latlng (5150 # 100) (-12 # 100);
   latlng (5151 # 100) (-11 # 100);
   latlng (5152 # 100) (-10 # 100)].

Definition three_point_coords : list (pyval * pyval) :=
  [(PFloat (-12 # 100), PFloat (5150 # 100));
   (PFloat (-11 # 100), PFloat (5151 # 100));
   (PFloat (-10 # 100), PFloat (5152 # 100))].

(** A Places API result. *)
Definition place (place_id name : string) (lat lng : Q) : pyval :=
  PDict [("place_id"%string, PStr place_id);
         ("name"%string, PStr name);
         ("types"%string, PList [PStr "food"; PStr "art_gallery"; PStr "cafe"]);
         ("geometry"%string,
           PDict [("location"%string,
                    PDict [("lat"%string, PFloat lat); ("lng"%string, PFloat lng)])]);
         ("rating"%string, PFloat (45 # 10))].

Definition place_record (name : string) (lat lng : Q) : pyval :=
  PDict [("name"%string, PStr name);
         ("type"%string, PStr "Art Gallery");
         ("coords"%string, PList [PFloat lat; PFloat lng]);
         ("rating"%string, PFloat (45 # 10));
         ("price_level"%string, PNone)].

(** Two sample circles that overlap: the first search finds place [p1], the
    second finds [p1] again, under another name, and [p2]. *)
Definition overlapping_env : Env :=
  {| env_time := fun _ => 1000 # 1;
     env_post := fun _ _ _ _ => NoResponse;
     env_get := fun _ _ _ _ _ => NoResponse;
     env_places := fun tr _ _ _ =>
       match tr with
       | [] => Ok (PDict [("results"%string,
                            PList [place "p1" "Corner Gallery" (5150 # 100) (-12 # 100)])])
       | _ => Ok (PDict [("results"%string,
                           PList [place "p1" "Gallery (renamed)" (5150 # 100) (-12 # 100);
                                  place "p2" "Bridge Cafe" (5151 # 100) (-11 # 100)])])
       end |}.

Definition two_point_coords : list (pyval * pyval) :=
  [(PFloat (-12 # 100), PFloat (5150 # 100));
   (PFloat (-11 # 100), PFloat (5151 # 100))].

(** The coordinates of the formatter's example. *)
Definition example_stream : pyval :=
  PList [PList [PFloat (45 # 1); PFloat (-122 # 1)];
         PList [PFloat (451 # 10); PFloat (-1221 # 10)]].

(** A formatter that writes a float with one decimal digit, which is how
    Python writes the four floats of the example. *)
Definition one_decimal_str (v : pyval) : string :=
  match v with
  | PFloat q =>
      let tenths := Qnum q * 10 / Z.pos (Qden q) in
      (if tenths <? 0 then "-" else "") +:+ str_of_Z (Z.abs tenths / 10)
        +:+ "." +:+ str_of_Z (Z.abs tenths mod 10)
  | PInt z => str_of_Z z
  | PStr s => s
  | _ => EmptyString
  end.


(** A route of numbered points, [(i, 100 + i)] for longitude and latitude. *)
Definition numbered_point (i : Z) : pyval * pyval := (PInt i, PInt (100 + i)).

Definition ten_point_coords : list (pyval * pyval) :=
  map numbered_point [0; 1; 2; 3; 4; 5; 6; 7; 8; 9].

Definition seven_point_coords : list (pyval * pyval) :=
  map numbered_point [0; 1; 2; 3; 4; 5; 6].

(** A Places API that answers every search with [results], one of which may
    come without its ["place_id"]. *)
Definition places_answer (results : list pyval) : pyval :=
  PDict [("status"%string, PStr "OK"); ("results"%string, PList results)].

Definition nameless_place : pyval :=
  PDict [("name"%string, PStr "Kiosk"); ("types"%string, PList [PStr "cafe"])].

Definition places_env (results : list pyval) : Env :=
  {| env_time := fun _ => 1000 # 1;
     env_post := fun _ _ _ _ => NoResponse;
     env_get := fun _ _ _ _ _ => NoResponse;
     env_places := fun _ _ _ _ => Ok (places_answer results) |}.

(** A Strava that answers every read with the stream [data]. *)
Definition stream_env (data : pyval) : Env :=
  listing_env (PDict [("latlng"%string, PDict [("data"%string, data)])]).

(** A record with a polyline and without its ["name"]. *)
Definition nameless_activity : pyval :=
  PDict [("id"%string, PInt 7);
         ("distance"%string, PInt 5000);
         ("type"%string, PStr "Run");
         ("start_date_local"%string, PStr "2024-05-01T07:30:00Z");
         ("map"%string, PDict [("summary_polyline"%string, PStr "_p~iF~ps|U")])].

(** A token end point that answered 200 with an error object, which the
    session then holds as its token. *)
Definition error_object : pyval := PDict [("message"%string, PStr "Bad Request")].

(** A token past its expiry that has no ["refresh_token"]. *)
Definition token_without_refresh : pyval :=
  PDict [("access_token"%string, PStr "old"); ("expires_at"%string, PInt 10)].

(** A reader of decimal numerals, for [int(s)]. *)
Definition decimal_int (s : string) : result Z :=
  match NilZero.int_of_string s with
  | Some i => Ok (Z.of_int i)
  | None => Raise ValueError
  end.

(** An environment that sets one of the three required variables, leaves one
    empty and one out; and the class attributes it gives. *)
Definition partial_environ : gmap string string :=
  {["STRAVA_CLIENT_ID"%string := "12345"%string;
    "GOOGLE_MAPS_API_KEY"%string := ""%string]}.

Definition partial_attributes : config.attributes :=
  {| config.FLASK_SECRET_KEY := "dev-secret-key";
     config.FLASK_DEBUG := false;
     config.STRAVA_CLIENT_ID := Some "12345"%string;
     config.STRAVA_CLIENT_SECRET := None;
     config.GOOGLE_MAPS_API_KEY := Some ""%string;
     config.POI_SEARCH_RADIUS := 100;
     config.POI_ROUTE_SAMPLING_DISTANCE := 500 |}.

(* ===================================================================== *)
(** ** Comparisons and the monad *)
(* ===================================================================== *)

Lemma Qlt_b_true (x y : Q) : Qlt_b x y = true <-> (x < y)%Q.
Proof.
  unfold Qlt_b. rewrite negb_true_iff. split.
  - intros H. apply Qnot_le_lt. intros Hle.
    apply Qle_bool_iff in Hle. congruence.
  - intros H. destruct (Qle_bool y x) eqn:E; [|reflexivity].
    apply Qle_bool_iff in E. exfalso. eapply Qlt_not_le; eauto.
Qed.

Lemma Qlt_b_false (x y : Q) : Qlt_b x y = false <-> (y <= x)%Q.
Proof. unfold Qlt_b. rewrite negb_false_iff. apply Qle_bool_iff. Qed.

Lemma expires_at_of_inv (tok : pyval) (x : Q) :
  expires_at_of tok = Some x ->
  exists e, py_getitem tok "expires_at" = Ok e /\ py_number e = Some x.
Proof.
  unfold expires_at_of. destruct (py_getitem tok "expires_at") as [e|]; [|discriminate].
  eauto.
Qed.

Lemma trace_emit2 (w : world) (a b : event) :
  (trace w ++ [a]) ++ [b] = trace w ++ [a; b].
Proof. by rewrite <- app_assoc. Qed.

(* ===================================================================== *)
(** ** The session gate *)
(* ===================================================================== *)

Section Gate.
Variable env : Env.
Variable cfg : Config.

(** The four ways through [auth_required] of [src/app.py]. *)
Lemma main_gate_no_token (f : M response) (w : world) :
  session w !! "strava_token" = None ->
  Main.app.auth_required env cfg f w =
    (Ok (Resp 401 (error_body Main.app.msg_auth_required)), w).
Proof.
  intros H. unfold Main.app.auth_required, bind, get_session. simpl.
  by rewrite H.
Qed.

Lemma main_gate_live (f : M response) (w : world) (tok : pyval) (x : Q) :
  session w !! "strava_token" = Some tok ->
  expires_at_of tok = Some x ->
  (env_time env (trace w) <= x)%Q ->
  Main.app.auth_required env cfg f w = f (emit EvTime w).
Proof.
  intros Hs He Hx. apply expires_at_of_inv in He as (e & He & Hn).
  apply Qlt_b_false in Hx.
  unfold Main.app.auth_required, bind, get_session, lift, time_time,
    py_lt_float. simpl.
  rewrite Hs, He. simpl. rewrite Hn, Hx. reflexivity.
Qed.

Lemma main_gate_refreshed (f : M response) (w : world) (tok rt : pyval)
    (x : Q) (c : Z) (new_token_info : pyval) :
  session w !! "strava_token" = Some tok ->
  expires_at_of tok = Some x ->
  py_getitem tok "refresh_token" = Ok rt ->
  (x < env_time env (trace w))%Q ->
  refresh_answer env cfg w rt = Response c new_token_info ->
  http_failed (Response c new_token_info) = false ->
  Main.app.auth_required env cfg f w =
    f (World (<["strava_token" := new_token_info]> (session w))
             (trace w ++ [EvTime; token_request cfg rt])).
Proof.
  intros Hs He Hr Hx Ha Hc. apply expires_at_of_inv in He as (e & He & Hn).
  apply Qlt_b_true in Hx. unfold refresh_answer, refresh_answer_with in Ha.
  simpl in Hc.
  unfold Main.app.auth_required, Main.app.strava_refresh_access_token,
    Main.strava_client.refresh_access_token, try_except, bind, get_session,
    lift, time_time, py_lt_float, requests_post, raise_for_status, session_set.
  simpl. rewrite Hs, He. simpl. rewrite Hn, Hx, Hr. simpl.
  rewrite Ha. simpl. rewrite Hc. simpl.
  by rewrite trace_emit2.
Qed.

Lemma main_gate_refresh_failed (f : M response) (w : world) (tok rt : pyval)
    (x : Q) :
  session w !! "strava_token" = Some tok ->
  expires_at_of tok = Some x ->
  py_getitem tok "refresh_token" = Ok rt ->
  (x < env_time env (trace w))%Q ->
  http_failed (refresh_answer env cfg w rt) = true ->
  Main.app.auth_required env cfg f w =
    (Ok (Resp 401 (error_body Main.app.msg_reauthenticate)),
     World ∅ (trace w ++ [EvTime; token_request cfg rt])).
Proof.
  intros Hs He Hr Hx Hc. apply expires_at_of_inv in He as (e & He & Hn).
  apply Qlt_b_true in Hx. unfold refresh_answer, refresh_answer_with in Hc.
  unfold Main.app.auth_required, Main.app.strava_refresh_access_token,
    Main.strava_client.refresh_access_token, try_except, bind, get_session,
    lift, time_time, py_lt_float, requests_post, raise_for_status,
    session_set, session_clear.
  simpl. rewrite Hs, He. simpl. rewrite Hn, Hx, Hr. simpl.
  destruct (env_post env (trace w ++ [EvTime]) _ _ _) as [|c j]; simpl in *.
  - by rewrite trace_emit2.
  - rewrite Hc. simpl. by rewrite trace_emit2.
Qed.

(** The same four ways through [auth_required] of [src/backend/app.py]. *)
Lemma backend_gate_no_token (f : M response) (w : world) :
  session w !! "strava_token" = None ->
  backend_auth_required env cfg f w =
    (Ok (Resp 401 (error_body Backend.app.msg_unauthorized)), w).
Proof.
  intros H. unfold backend_auth_required, Backend.app.auth_required, bind,
    open_session. simpl.
  by rewrite H.
Qed.

Lemma backend_gate_live (f : M response) (w : world) (tok : pyval) (x : Q) :
  session w !! "strava_token" = Some tok ->
  expires_at_of tok = Some x ->
  (env_time env (trace w) <= x)%Q ->
  backend_auth_required env cfg f w = f (emit EvTime w).
Proof.
  intros Hs He Hx. apply expires_at_of_inv in He as (e & He & Hn).
  apply Qlt_b_false in Hx.
  unfold backend_auth_required, Backend.app.auth_required, bind, open_session,
    lift, time_time, py_lt_float. simpl.
  rewrite Hs, He. simpl. rewrite Hn, Hx. reflexivity.
Qed.

Lemma backend_gate_refreshed (f : M response) (w : world) (tok rt : pyval)
    (x : Q) (c : Z) (new_token_info : pyval) :
  session w !! "strava_token" = Some tok ->
  expires_at_of tok = Some x ->
  py_getitem tok "refresh_token" = Ok rt ->
  (x < env_time env (trace w))%Q ->
  backend_refresh_answer env cfg w rt = Response c new_token_info ->
  http_failed (Response c new_token_info) = false ->
  backend_auth_required env cfg f w =
    f (World (<["strava_token" := new_token_info]> (session w))
             (trace w ++ [EvTime; backend_token_request cfg rt])).
Proof.
  intros Hs He Hr Hx Ha Hc. apply expires_at_of_inv in He as (e & He & Hn).
  apply Qlt_b_true in Hx. unfold backend_refresh_answer, refresh_answer_with in Ha.
  simpl in Hc.
  unfold backend_auth_required, Backend.app.auth_required,
    Backend.app.strava_refresh_access_token,
    Backend.strava_client.refresh_access_token, try_except, bind,
    open_session, session_setitem, lift, time_time, py_lt_float, requests_post,
    raise_for_status, session_set.
  simpl. rewrite Hs, He. simpl. rewrite Hn, Hx, Hr. simpl.
  change Backend.strava_client.TOKEN_URL with Main.strava_client.TOKEN_URL.
  change Backend.strava_client.refresh_payload
    with Main.strava_client.refresh_payload.
  rewrite Ha. simpl. rewrite Hc. simpl.
  by rewrite trace_emit2.
Qed.

Lemma backend_gate_refresh_failed (f : M response) (w : world)
    (tok rt : pyval) (x : Q) :
  session w !! "strava_token" = Some tok ->
  expires_at_of tok = Some x ->
  py_getitem tok "refresh_token" = Ok rt ->
  (x < env_time env (trace w))%Q ->
  http_failed (backend_refresh_answer env cfg w rt) = true ->
  backend_auth_required env cfg f w =
    (Ok (Resp 401 (error_body Backend.app.msg_reauthenticate)),
     World ∅ (trace w ++ [EvTime; backend_token_request cfg rt])).
Proof.
  intros Hs He Hr Hx Hc. apply expires_at_of_inv in He as (e & He & Hn).
  apply Qlt_b_true in Hx. unfold backend_refresh_answer, refresh_answer_with in Hc.
  unfold backend_auth_required, Backend.app.auth_required,
    Backend.app.strava_refresh_access_token,
    Backend.strava_client.refresh_access_token, try_except, bind,
    open_session, session_setitem, session_clear_all, lift, time_time,
    py_lt_float, requests_post, raise_for_status, session_set, session_clear.
  simpl. rewrite Hs, He. simpl. rewrite Hn, Hx, Hr. simpl.
  change Backend.strava_client.TOKEN_URL with Main.strava_client.TOKEN_URL.
  change Backend.strava_client.refresh_payload
    with Main.strava_client.refresh_payload.
  destruct (env_post env (trace w ++ [EvTime]) _ _ _) as [|c j]; simpl in *.
  - by rewrite trace_emit2.
  - rewrite Hc. simpl. by rewrite trace_emit2.
Qed.

Lemma auth_status_cleared (t : list event) :
  Main.app.auth_status env (World ∅ t) = (Ok not_authenticated, World ∅ t).
Proof. reflexivity. Qed.
End Gate.

(* ===================================================================== *)
(** ** C1, C2: refresh policy of the gate *)
(* ===================================================================== *)

Lemma count_refresh_token_request (timeout : option Z) (cfg : Config) (rt : pyval) :
  count_refresh [EvTime; token_request_with timeout cfg rt] = 1%nat.
Proof. reflexivity. Qed.

(** C1. A request whose session token has [expires_at] in the past makes the
    gate, in [src/app.py] and in [src/backend/app.py], send exactly one
    refresh request, and the wrapped view is run only after it: when the
    request brings a token, the gate stores it and then hands over to the
    view, whatever the view is; when the request fails, the gate answers 401
    itself and no view is run.  With [expires_at] not in the past the gate
    hands over without any refresh request. *)
Theorem gate_refresh_policy (env : Env) (cfg : Config) (w : world)
    (tok rt : pyval) (x : Q) :
  session w !! "strava_token" = Some tok ->
  expires_at_of tok = Some x ->
  py_getitem tok "refresh_token" = Ok rt ->
  ((x < env_time env (trace w))%Q ->
     (forall c new_token_info,
        refresh_answer env cfg w rt = Response c new_token_info ->
        http_failed (Response c new_token_info) = false ->
        refreshes_once_then_dispatches (Main.app.auth_required env cfg) w
          new_token_info) /\
     (forall c new_token_info,
        backend_refresh_answer env cfg w rt = Response c new_token_info ->
        http_failed (Response c new_token_info) = false ->
        refreshes_once_then_dispatches (backend_auth_required env cfg) w
          new_token_info) /\
     (http_failed (refresh_answer env cfg w rt) = true ->
      refreshes_once_then_rejects (Main.app.auth_required env cfg) w) /\
     (http_failed (backend_refresh_answer env cfg w rt) = true ->
      refreshes_once_then_rejects (backend_auth_required env cfg) w)) /\
  ((env_time env (trace w) <= x)%Q ->
     dispatches_without_refresh (Main.app.auth_required env cfg) w /\
     dispatches_without_refresh (backend_auth_required env cfg) w).
Proof.
  intros Hs He Hr. split.
  - intros Hx. split; [|split; [|split]].
    + intros c new Ha Hf. exists [EvTime; token_request cfg rt].
      split; [apply count_refresh_token_request|]. intros f.
      eapply main_gate_refreshed; eauto.
    + intros c new Ha Hf. exists [EvTime; backend_token_request cfg rt].
      split; [apply count_refresh_token_request|]. intros f.
      eapply backend_gate_refreshed; eauto.
    + intros Hf. exists [EvTime; token_request cfg rt],
        (Resp 401 (error_body Main.app.msg_reauthenticate)).
      split; [apply count_refresh_token_request|]. split; [reflexivity|].
      intros f. eapply main_gate_refresh_failed; eauto.
    + intros Hf. exists [EvTime; backend_token_request cfg rt],
        (Resp 401 (error_body Backend.app.msg_reauthenticate)).
      split; [apply count_refresh_token_request|]. split; [reflexivity|].
      intros f. eapply backend_gate_refresh_failed; eauto.
  - intros Hx.
    split; exists (emit EvTime w), [EvTime];
      (split; [reflexivity | split; [reflexivity | split; [reflexivity | intros f]]]).
    + eapply main_gate_live; eauto.
    + eapply backend_gate_live; eauto.
Qed.

Lemma gate_refresh_policy_witness :
  (refreshes_once_then_dispatches (Main.app.auth_required online_env sample_cfg)
     (world_with_token (sample_token "old" "r1" 10))
     (sample_token "new-access" "new-refresh" 5000) /\
   refreshes_once_then_dispatches (backend_auth_required online_env sample_cfg)
     (world_with_token (sample_token "old" "r1" 10))
     (sample_token "new-access" "new-refresh" 5000)) /\
  (refreshes_once_then_rejects (Main.app.auth_required offline_env sample_cfg)
     (world_with_token (sample_token "old" "r1" 10)) /\
   refreshes_once_then_rejects (backend_auth_required offline_env sample_cfg)
     (world_with_token (sample_token "old" "r1" 10))) /\
  (dispatches_without_refresh (Main.app.auth_required online_env sample_cfg)
     (world_with_token (sample_token "live" "r1" 2000)) /\
   dispatches_without_refresh (backend_auth_required online_env sample_cfg)
     (world_with_token (sample_token "live" "r1" 2000))).
Proof.
  pose proof (proj1 (gate_refresh_policy online_env sample_cfg
                       (world_with_token (sample_token "old" "r1" 10))
                       (sample_token "old" "r1" 10) (PStr "r1") (10 # 1)
                       eq_refl eq_refl eq_refl) eq_refl)
    as (Hmain & Hbackend & _ & _).
  pose proof (proj1 (gate_refresh_policy offline_env sample_cfg
                       (world_with_token (sample_token "old" "r1" 10))
                       (sample_token "old" "r1" 10) (PStr "r1") (10 # 1)
                       eq_refl eq_refl eq_refl) eq_refl)
    as (_ & _ & Hmain' & Hbackend').
  split; [|split].
  - split; [exact (Hmain 200 _ eq_refl eq_refl)|exact (Hbackend 200 _ eq_refl eq_refl)].
  - split; [exact (Hmain' eq_refl)|exact (Hbackend' eq_refl)].
  - apply (proj2 (gate_refresh_policy online_env sample_cfg
                    (world_with_token (sample_token "live" "r1" 2000))
                    (sample_token "live" "r1" 2000) (PStr "r1") (2000 # 1)
                    eq_refl eq_refl eq_refl)).
    discriminate.
Defined.

(** C2. When the refresh request fails, the gate empties the session and
    answers 401 with a message of its own, different from the one for a
    missing token; the answer and the calls made do not depend on the
    wrapped view, which is not run; and [auth_status] on the emptied session
    answers [{authenticated: false}], whenever it is asked.  Each back end
    sends its own request: [src/strava_client.py] waits 10 seconds for the
    answer, [src/backend/strava_client.py] without limit. *)
Theorem refresh_failure_clears_session (env : Env) (cfg : Config) (w : world)
    (tok rt : pyval) (x : Q) :
  session w !! "strava_token" = Some tok ->
  expires_at_of tok = Some x ->
  py_getitem tok "refresh_token" = Ok rt ->
  (x < env_time env (trace w))%Q ->
  let cleared := World ∅ (trace w ++ [EvTime; token_request cfg rt]) in
  let backend_cleared := World ∅ (trace w ++ [EvTime; backend_token_request cfg rt]) in
  (http_failed (refresh_answer env cfg w rt) = true ->
   forall f, Main.app.auth_required env cfg f w =
               (Ok (Resp 401 (error_body Main.app.msg_reauthenticate)), cleared)) /\
  (http_failed (backend_refresh_answer env cfg w rt) = true ->
   forall f, backend_auth_required env cfg f w =
               (Ok (Resp 401 (error_body Backend.app.msg_reauthenticate)),
                backend_cleared)) /\
  Main.app.msg_reauthenticate <> Main.app.msg_auth_required /\
  Backend.app.msg_reauthenticate <> Backend.app.msg_unauthorized /\
  session cleared = ∅ /\
  session backend_cleared = ∅ /\
  (forall later : list event,
     Main.app.auth_status env (World (session cleared) later) =
       (Ok not_authenticated, World (session cleared) later)) /\
  (forall (secret_key : option string) (later : list event),
     Backend.app.auth_status env secret_key (World (session backend_cleared) later) =
       (Ok not_authenticated, World (session backend_cleared) later)).
Proof.
  intros Hs He Hr Hx cleared backend_cleared.
  repeat apply conj.
  - intros Hf f. eapply main_gate_refresh_failed; eauto.
  - intros Hf f. eapply backend_gate_refresh_failed; eauto.
  - discriminate.
  - discriminate.
  - reflexivity.
  - reflexivity.
  - intros later. apply auth_status_cleared.
  - intros secret_key later.
    unfold Backend.app.auth_status, open_session, bind. simpl.
    by destruct (opt_truthy secret_key).
Qed.

Lemma refresh_failure_clears_session_witness :
  Main.app.auth_required offline_env sample_cfg (raise OtherError)
    (world_with_token (sample_token "old" "r1" 10)) =
  (Ok (Resp 401 (error_body Main.app.msg_reauthenticate)),
   World ∅ [EvTime; token_request sample_cfg (PStr "r1")]).
Proof.
  apply (proj1 (refresh_failure_clears_session offline_env sample_cfg
                  (world_with_token (sample_token "old" "r1" 10))
                  (sample_token "old" "r1" 10) (PStr "r1") (10 # 1)
                  eq_refl eq_refl eq_refl eq_refl) eq_refl).
Defined.

(* ===================================================================== *)
(** ** C3: which access token reaches Strava *)
(* ===================================================================== *)

Lemma snd_bind_pure {A B} (m : M A) (k : A -> M B) (w : world) :
  (forall a w', snd (k a w') = w') -> snd (bind m k w) = snd (m w).
Proof.
  intros Hk. unfold bind. destruct (m w) as [[a|e] w']; simpl; auto.
Qed.

Lemma snd_try_pure {A} (m : M A) (c : exn -> bool) (h : exn -> M A) (w : world) :
  (forall e w', snd (h e w') = w') -> snd (try_except m c h w) = snd (m w).
Proof.
  intros Hh. unfold try_except. destruct (m w) as [[a|e] w']; simpl; auto.
  destruct (c e); simpl; auto.
Qed.

Lemma snd_raise_for_status (r : Z * pyval) (w : world) :
  snd (raise_for_status r w) = w.
Proof. unfold raise_for_status. by destruct (_ && _). Qed.

Lemma snd_requests_get (env : Env) (url : string) (b : pyval)
    (ps : list (string * pyval)) (timeout : option Z) (w : world) :
  snd (requests_get env url b ps timeout w) = emit (EvGet url b ps timeout) w.
Proof. unfold requests_get. by destruct (env_get _ _ _ _ _ _). Qed.


Lemma with_access_token {A} (K : pyval -> M A) (w : world) :
  match session w !! "strava_token" with
  | Some tok =>
      match py_getitem tok "access_token" with
      | Ok b => (x <~ Main.app.session_access_token ;; K x) w = K b w
      | Raise e => (x <~ Main.app.session_access_token ;; K x) w = (Raise e, w)
      end
  | None => (x <~ Main.app.session_access_token ;; K x) w = (Raise KeyError, w)
  end.
Proof.
  unfold Main.app.session_access_token, session_get, bind, lift.
  destruct (session w !! "strava_token") as [tok|]; [|reflexivity].
  by destruct (py_getitem tok "access_token").
Qed.

(** With a key set, [src/backend/app.py] reads the session as
    [src/app.py] does. *)
Lemma backend_session_access_token_eq (w : world) :
  Backend.app.session_access_token backend_secret_key w =
  Main.app.session_access_token w.
Proof.
  unfold Backend.app.session_access_token, Main.app.session_access_token,
    session_getitem, open_session, session_get, bind, lift, ret, raise.
  simpl. by destruct (session w !! "strava_token").
Qed.

Lemma with_backend_access_token {A} (K : pyval -> M A) (w : world) :
  (x <~ Backend.app.session_access_token backend_secret_key ;; K x) w =
  (x <~ Main.app.session_access_token ;; K x) w.
Proof. unfold bind. by rewrite backend_session_access_token_eq. Qed.

(** The common shape of the view bodies: read the access token, make one
    client call inside a [try], answer from its result. *)
Lemma body_shape (call : pyval -> M pyval) (k : pyval -> M response)
    (h : exn -> M response) (c : exn -> bool) :
  (forall b w, exists url ps timeout,
      snd (call b w) = emit (EvGet url b ps timeout) w) ->
  (forall v w, snd (k v w) = w) ->
  (forall e w, snd (h e w) = w) ->
  uses_session_token
    (access_token <~ Main.app.session_access_token ;;
     try_except (v <~ call access_token ;; k v) c h).
Proof.
  intros Hcall Hk Hh w.
  pose proof (with_access_token
                (fun a => try_except (v <~ call a ;; k v) c h) w) as H.
  destruct (session w !! "strava_token") as [tok|] eqn:Hs;
    [|rewrite H; simpl; auto].
  destruct (py_getitem tok "access_token") as [b|] eqn:Hb;
    rewrite H; [|simpl; auto].
  rewrite snd_try_pure by assumption.
  rewrite snd_bind_pure by assumption.
  destruct (Hcall b w) as (url & ps & timeout & ->). split; [reflexivity|].
  right. exists tok, b, url, ps, timeout. auto.
Qed.

Lemma backend_body_shape (call : pyval -> M pyval) (k : pyval -> M response)
    (h : exn -> M response) (c : exn -> bool) :
  (forall b w, exists url ps timeout,
      snd (call b w) = emit (EvGet url b ps timeout) w) ->
  (forall v w, snd (k v w) = w) ->
  (forall e w, snd (h e w) = w) ->
  uses_session_token
    (access_token <~ Backend.app.session_access_token backend_secret_key ;;
     try_except (v <~ call access_token ;; k v) c h).
Proof.
  intros Hcall Hk Hh w. rewrite with_backend_access_token.
  by apply body_shape.
Qed.

Section Bodies.
Variable env : Env.
Variable py_str : pyval -> string.
Variable round_float : Q -> Q.

Lemma main_get_activity_stream_world (id : Z) (b : pyval) (w : world) :
  exists url ps timeout,
    snd (Main.strava_client.get_activity_stream env id b w) =
    emit (EvGet url b ps timeout) w.
Proof.
  unfold Main.strava_client.get_activity_stream. do 3 eexists.
  rewrite snd_try_pure by reflexivity.
  rewrite snd_bind_pure, snd_requests_get; [reflexivity|].
  intros a w'. rewrite snd_bind_pure, snd_raise_for_status; [reflexivity|].
  intros _ w''. rewrite snd_bind_pure; [reflexivity|]. reflexivity.
Qed.

Lemma main_get_activities_world (b : pyval) (page per_page : Z) (w : world) :
  exists url ps timeout,
    snd (Main.strava_client.get_activities env b page per_page w) =
    emit (EvGet url b ps timeout) w.
Proof.
  unfold Main.strava_client.get_activities. do 3 eexists.
  rewrite snd_try_pure by reflexivity.
  rewrite snd_bind_pure, snd_requests_get; [reflexivity|].
  intros a w'. rewrite snd_bind_pure, snd_raise_for_status; [reflexivity|].
  reflexivity.
Qed.

Lemma backend_get_activity_stream_world (id : Z) (b : pyval) (w : world) :
  exists url ps timeout,
    snd (Backend.strava_client.get_activity_stream env id b w) =
    emit (EvGet url b ps timeout) w.
Proof.
  unfold Backend.strava_client.get_activity_stream. do 3 eexists.
  rewrite snd_bind_pure, snd_requests_get; [reflexivity|].
  intros a w'. rewrite snd_bind_pure, snd_raise_for_status; [reflexivity|].
  intros _ w''. rewrite snd_bind_pure; [reflexivity|]. reflexivity.
Qed.

Lemma backend_get_activities_world (b : pyval) (page per_page : Z) (w : world) :
  exists url ps timeout,
    snd (Backend.strava_client.get_activities env b page per_page w) =
    emit (EvGet url b ps timeout) w.
Proof.
  unfold Backend.strava_client.get_activities. do 3 eexists.
  rewrite snd_bind_pure, snd_requests_get; [reflexivity|].
  intros a w'. rewrite snd_bind_pure, snd_raise_for_status; [reflexivity|].
  reflexivity.
Qed.

Lemma stream_body_uses_session_token (id : Z) :
  uses_session_token (Main.app.get_activity_stream_data_body env id).
Proof.
  apply body_shape.
  - intros b w. apply main_get_activity_stream_world.
  - intros v w. by destruct (negb (truthy v)).
  - reflexivity.
Qed.

Lemma activities_body_uses_session_token :
  uses_session_token (Main.app.get_activities_body env round_float).
Proof.
  apply body_shape.
  - intros b w. apply main_get_activities_world.
  - intros v w. rewrite snd_bind_pure; [reflexivity|].
    intros a w'. rewrite snd_bind_pure; [reflexivity|]. reflexivity.
  - reflexivity.
Qed.

Lemma gpx_body_uses_session_token (id : Z) :
  uses_session_token (Main.app.get_activity_gpx_body env py_str id).
Proof.
  apply body_shape.
  - intros b w. apply main_get_activity_stream_world.
  - intros v w. destruct (negb (truthy v)); [reflexivity|].
    rewrite snd_bind_pure; [reflexivity|]. reflexivity.
  - reflexivity.
Qed.

Lemma backend_activities_body_uses_session_token :
  uses_session_token (Backend.app.get_activities_body env backend_secret_key).
Proof.
  unfold Backend.app.get_activities_body.
  apply backend_body_shape.
  - intros b w. apply backend_get_activities_world.
  - intros v w. rewrite snd_bind_pure; [reflexivity|].
    intros a w'. rewrite snd_bind_pure; [reflexivity|]. reflexivity.
  - reflexivity.
Qed.

Lemma backend_gpx_body_uses_session_token (id : Z) :
  uses_session_token (Backend.app.get_activity_gpx_body env backend_secret_key py_str id).
Proof.
  unfold Backend.app.get_activity_gpx_body.
  apply backend_body_shape.
  - intros b w. apply backend_get_activity_stream_world.
  - intros v w. destruct (negb (truthy v)); [reflexivity|].
    rewrite snd_bind_pure; [reflexivity|]. reflexivity.
  - reflexivity.
Qed.
End Bodies.


(** What the two decorators have in common, as far as the trace goes; the
    gate gives its refresh request the time-out [timeout]. *)
Section GateAndBody.
Variable env : Env.
Variable cfg : Config.
Variable timeout : option Z.
Variable gate : M response -> M response.

Hypothesis gate_no_token : forall f w,
  session w !! "strava_token" = None ->
  trace (snd (gate f w)) = trace w.
Hypothesis gate_bad_expiry : forall f w tok,
  session w !! "strava_token" = Some tok ->
  expires_at_of tok = None ->
  trace (snd (gate f w)) = trace w \/
  trace (snd (gate f w)) = trace w ++ [EvTime].
Hypothesis gate_no_refresh_token : forall f w tok x e,
  session w !! "strava_token" = Some tok ->
  expires_at_of tok = Some x ->
  (x < env_time env (trace w))%Q ->
  py_getitem tok "refresh_token" = Raise e ->
  trace (snd (gate f w)) = trace w ++ [EvTime].
Hypothesis gate_refresh_failed : forall f w tok rt x,
  session w !! "strava_token" = Some tok ->
  expires_at_of tok = Some x ->
  py_getitem tok "refresh_token" = Ok rt ->
  (x < env_time env (trace w))%Q ->
  http_failed (refresh_answer_with timeout env cfg w rt) = true ->
  exists r, status r = 401 /\
    gate f w = (Ok r, World ∅ (trace w ++ [EvTime; token_request_with timeout cfg rt])).
Hypothesis gate_refreshed : forall f w tok rt x c new_token_info,
  session w !! "strava_token" = Some tok ->
  expires_at_of tok = Some x ->
  py_getitem tok "refresh_token" = Ok rt ->
  (x < env_time env (trace w))%Q ->
  refresh_answer_with timeout env cfg w rt = Response c new_token_info ->
  http_failed (Response c new_token_info) = false ->
  gate f w = f (World (<["strava_token" := new_token_info]> (session w))
                      (trace w ++ [EvTime; token_request_with timeout cfg rt])).
Hypothesis gate_live : forall f w tok x,
  session w !! "strava_token" = Some tok ->
  expires_at_of tok = Some x ->
  (env_time env (trace w) <= x)%Q ->
  gate f w = f (emit EvTime w).


End GateAndBody.

Section GateInstances.
Variable env : Env.
Variable cfg : Config.









Lemma protected_endpoint_inv (py_str : pyval -> string) (round_float : Q -> Q)
    (endpoint : M response) :
  protected_endpoint env cfg py_str round_float endpoint ->
  exists body, uses_session_token body /\
    (endpoint = Main.app.auth_required env cfg body \/
     endpoint = backend_auth_required env cfg body).
Proof.
  intros [id| |id| |id].
  - eexists. split; [apply (stream_body_uses_session_token env id)|by left].
  - eexists. split; [apply (activities_body_uses_session_token env round_float)|by left].
  - eexists. split; [apply (gpx_body_uses_session_token env py_str id)|by left].
  - eexists. split; [apply (backend_activities_body_uses_session_token env)|by right].
  - eexists. split; [apply (backend_gpx_body_uses_session_token env py_str id)|by right].
Qed.
End GateInstances.




(* ===================================================================== *)
(** ** C4: which activities are listed *)
(* ===================================================================== *)

Lemma has_summary_polyline_spec (act : pyval) :
  map_is_dict_or_absent act = true ->
  Main.app.has_summary_polyline act = Ok (has_nonempty_polyline act).
Proof.
  unfold Main.app.has_summary_polyline, has_nonempty_polyline, polyline_of,
    map_is_dict_or_absent.
  destruct act as [| | | | | |kv]; try discriminate.
  simpl. destruct (assoc "map" kv) as [[| | | | | |m]|]; try discriminate; simpl.
  - by destruct (assoc "summary_polyline" m).
  - reflexivity.
Qed.

(** The comprehension, whatever dict it builds for the records it keeps. *)
Section Comprehension.
Variable item_of : pyval -> result pyval.
Variable filtered : list pyval -> result (list pyval).
Hypothesis filtered_nil : filtered [] = Ok [].
Hypothesis filtered_cons : forall act rest,
  filtered (act :: rest) =
    (let? keep := Main.app.has_summary_polyline act in
     if keep : bool then
       let? item := item_of act in
       let? items := filtered rest in
       Ok (item :: items)
     else filtered rest).

Lemma filtered_spec (acts : list pyval) :
  Forall (fun act => map_is_dict_or_absent act = true /\
                     (has_nonempty_polyline act = true ->
                      exists item, item_of act = Ok item)) acts ->
  exists items,
    filtered acts = Ok items /\
    Forall2 (fun act item => item_of act = Ok item)
            (List.filter has_nonempty_polyline acts) items.
Proof.
  induction 1 as [|act rest [Hm Hitem] _ IH].
  - exists []. split; [apply filtered_nil|constructor].
  - destruct IH as (items & Hf & H2).
    rewrite filtered_cons, (has_summary_polyline_spec act Hm). simpl.
    destruct (has_nonempty_polyline act) eqn:Hk.
    + destruct (Hitem eq_refl) as (item & Hi).
      exists (item :: items). rewrite Hi, Hf. simpl. split; [reflexivity|].
      by constructor.
    + exists items. auto.
Qed.
End Comprehension.

(** C4, as the claim states it, fails: a record whose polyline field is
    there but is the empty string is left out of the listing, by both back
    ends. *)
Lemma empty_polyline_is_excluded :
  polyline_of (raw_activity 7 "Treadmill" (Some (PStr ""))) = Some (PStr "") /\
  fst (Main.app.get_activities
         (listing_env (PList [raw_activity 7 "Treadmill" (Some (PStr ""))]))
         sample_cfg (fun q => q)
         (world_with_token (sample_token "live" "r1" 2000)))
    = Ok (Resp 200 (PList [])) /\
  fst (Backend.app.get_activities
         (listing_env (PList [raw_activity 7 "Treadmill" (Some (PStr ""))]))
         backend_secret_key "12345" "s3cr3t"
         (world_with_token (sample_token "live" "r1" 2000)))
    = Ok (Resp 200 (PList [])).
Proof. repeat apply conj; vm_compute; reflexivity. Qed.

(** C4, amended.  The listing holds, in order, the dicts built from exactly
    those raw records whose summary polyline is present and true in Python's
    sense: a record without the key is left out, and so is one whose
    polyline is the empty string. *)
Theorem activities_filtered_by_truthy_polyline (round_float : Q -> Q)
    (acts : list pyval) :
  Forall (fun act => map_is_dict_or_absent act = true) acts ->
  (Forall (fun act => has_nonempty_polyline act = true ->
                      exists item, Main.app.activity_item round_float act = Ok item)
          acts ->
   exists items,
     Main.app.filtered_activities round_float acts = Ok items /\
     Forall2 (fun act item => Main.app.activity_item round_float act = Ok item)
             (List.filter has_nonempty_polyline acts) items) /\
  (Forall (fun act => has_nonempty_polyline act = true ->
                      exists item, Backend.app.activity_item act = Ok item)
          acts ->
   exists items,
     Backend.app.filtered_activities acts = Ok items /\
     Forall2 (fun act item => Backend.app.activity_item act = Ok item)
             (List.filter has_nonempty_polyline acts) items) /\
  (forall act, polyline_of act = None -> has_nonempty_polyline act = false) /\
  (forall act, polyline_of act = Some (PStr "") ->
               has_nonempty_polyline act = false).
Proof.
  intros Hmap. repeat apply conj.
  - intros Hitems.
    apply (filtered_spec (Main.app.activity_item round_float)
             (Main.app.filtered_activities round_float)); [reflexivity..|].
    apply Forall_forall. intros act Hin.
    rewrite Forall_forall in Hmap, Hitems. auto.
  - intros Hitems.
    apply (filtered_spec Backend.app.activity_item
             Backend.app.filtered_activities); [reflexivity..|].
    apply Forall_forall. intros act Hin.
    rewrite Forall_forall in Hmap, Hitems. auto.
  - intros act H. unfold has_nonempty_polyline. by rewrite H.
  - intros act H. unfold has_nonempty_polyline. by rewrite H.
Qed.

Lemma activities_filtered_by_truthy_polyline_witness :
  exists items,
    Main.app.filtered_activities (fun q => q)
      [raw_activity 7 "Treadmill" (Some (PStr ""));
       raw_activity 8 "River loop" (Some (PStr "_p~iF~ps|U"));
       raw_activity 9 "Weights" None] = Ok items /\
    Forall2 (fun act item => Main.app.activity_item (fun q => q) act = Ok item)
      [raw_activity 8 "River loop" (Some (PStr "_p~iF~ps|U"))] items.
Proof.
  apply (proj1 (activities_filtered_by_truthy_polyline (fun q => q)
                  [raw_activity 7 "Treadmill" (Some (PStr ""));
                   raw_activity 8 "River loop" (Some (PStr "_p~iF~ps|U"));
                   raw_activity 9 "Weights" None]
                  ltac:(repeat constructor))).
  repeat constructor; intros _; eexists; reflexivity.
Defined.

(* ===================================================================== *)
(** ** C5: routes with fewer than two points *)
(* ===================================================================== *)

Lemma getitem_route_dict (data route : pyval) :
  py_getitem data "route" = Ok route ->
  truthy data = true /\ py_contains "route" data = Ok true.
Proof.
  destruct data as [| | | | | |kv]; try discriminate. simpl.
  destruct (assoc "route" kv) eqn:E; [|discriminate]. intros _.
  split; [|reflexivity]. destruct kv; [discriminate|reflexivity].
Qed.

Lemma main_short_route (env : Env) (cfg : Config) (data : pyval)
    (items : list pyval) (w : world) :
  py_getitem data "route" = Ok (PList items) ->
  (length items < 2)%nat ->
  Main.app.get_nearby_pois env cfg data w =
    (Ok (Resp 400 (error_body msg_short_route)), w).
Proof.
  intros Hr Hlen. destruct (getitem_route_dict _ _ Hr) as [Ht Hc].
  unfold Main.app.get_nearby_pois, bind, lift, ret.
  rewrite Ht. simpl. rewrite Hc. simpl. rewrite Hr. simpl.
  destruct (Z.ltb_spec (Z.of_nat (length items)) 2); [reflexivity|lia].
Qed.

(** Whatever the route is, [src/backend/app.py] does not answer 400 once the
    body has a ["route"]. *)
Lemma backend_never_400 (osm : list (pyval * pyval) -> M (list pyval))
    (data route : pyval) (w : world) :
  py_getitem data "route" = Ok route ->
  status (fst (flask_call (Backend.app.get_nearby_pois osm data) w)) <> 400.
Proof.
  intros Hr. destruct (getitem_route_dict _ _ Hr) as [Ht Hc].
  unfold flask_call, Backend.app.get_nearby_pois, try_except, bind, lift, ret.
  rewrite Ht. simpl. rewrite Hc. simpl. rewrite Hr.
  destruct (py_iter route) as [items|]; [|discriminate].
  destruct (Main.app.swap_route items) as [coords|]; [|discriminate].
  destruct (Backend.poi_service.get_pois_for_route osm coords w) as [[pois|e] w1];
    simpl; discriminate.
Qed.

Lemma backend_empty_route (osm : list (pyval * pyval) -> M (list pyval))
    (data : pyval) (w : world) :
  py_getitem data "route" = Ok (PList []) ->
  Backend.app.get_nearby_pois osm data w = (Ok (Resp 200 (PList [])), w).
Proof.
  intros Hr. destruct (getitem_route_dict _ _ Hr) as [Ht Hc].
  unfold Backend.app.get_nearby_pois, try_except, bind, lift, ret.
  rewrite Ht. simpl. rewrite Hc. simpl. rewrite Hr. reflexivity.
Qed.

(** C5, as the claim states it, fails for [src/backend/app.py]: a route with
    no point at all is answered 200 with an empty list. *)
Lemma backend_accepts_empty_route :
  Backend.app.get_nearby_pois (fun _ => raise OtherError) (pois_request [])
    (World ∅ []) = (Ok (Resp 200 (PList [])), World ∅ []).
Proof. reflexivity. Qed.

(** C5, amended.  For a route with fewer than 2 points [src/app.py] answers
    400 and leaves the trace as it was, so no call went out;
    [src/backend/app.py] has no check of the length, and answers the empty
    route with 200 and an empty list, again without any call. *)
Theorem short_route_rejected_by_main_only (env : Env) (cfg : Config)
    (osm : list (pyval * pyval) -> M (list pyval))
    (data : pyval) (items : list pyval) (w : world) :
  py_getitem data "route" = Ok (PList items) ->
  (length items < 2)%nat ->
  Main.app.get_nearby_pois env cfg data w =
    (Ok (Resp 400 (error_body msg_short_route)), w) /\
  (items = [] ->
   Backend.app.get_nearby_pois osm data w = (Ok (Resp 200 (PList [])), w)).
Proof.
  intros Hr Hlen. split.
  - by apply main_short_route with (items := items).
  - intros ->. by apply backend_empty_route.
Qed.

Lemma short_route_rejected_by_main_only_witness :
  Main.app.get_nearby_pois offline_env sample_cfg
    (pois_request [latlng (5150 # 100) (-12 # 100)]) (World ∅ []) =
  (Ok (Resp 400 (error_body msg_short_route)), World ∅ []).
Proof.
  apply (proj1 (short_route_rejected_by_main_only offline_env sample_cfg
                  (fun _ => ret []) (pois_request [latlng (5150 # 100) (-12 # 100)])
                  [latlng (5150 # 100) (-12 # 100)] (World ∅ [])
                  eq_refl ltac:(simpl; lia))).
Defined.

(* ===================================================================== *)
(** ** C6: sampling the route *)
(* ===================================================================== *)

(** The inner quotient [len * 100 // sample_distance] is 0 for a route that
    is short against the sampling distance, and the outer division then has
    nothing to divide by. *)
Lemma sample_route_points_slip (route_coords : list (pyval * pyval)) (sd : Z) :
  (2 < length route_coords)%nat ->
  0 <= sd ->
  Z.of_nat (length route_coords) * 100 < sd ->
  Main.poi_service._sample_route_points route_coords sd = Raise ZeroDivisionError.
Proof.
  intros Hlen Hsd Hlt. unfold Main.poi_service._sample_route_points, py_floordiv.
  destruct (Z.leb_spec (Z.of_nat (length route_coords)) 2); [lia|].
  destruct (Z.eqb_spec sd 0); [reflexivity|]. simpl.
  rewrite Z.div_small by lia. reflexivity.
Qed.

Lemma sample_route_points_total (route_coords : list (pyval * pyval)) (sd : Z) :
  0 < sd ->
  (length route_coords <= 2)%nat \/ sd <= Z.of_nat (length route_coords) * 100 ->
  exists sample_points,
    Main.poi_service._sample_route_points route_coords sd = Ok sample_points.
Proof.
  intros Hsd Hlen. unfold Main.poi_service._sample_route_points, py_floordiv.
  destruct (Z.leb_spec (Z.of_nat (length route_coords)) 2); [eauto|].
  destruct Hlen as [Hlen|Hlen]; [lia|].
  destruct (Z.eqb_spec sd 0); [lia|]. simpl.
  destruct (Z.eqb_spec (Z.of_nat (length route_coords) * 100 / sd) 0) as [E|E].
  - apply Z.div_small_iff in E; lia.
  - simpl. eauto.
Qed.

(** With the default sampling distance of 500 the routes that fail are
    exactly those of 3 or 4 points. *)
Lemma sample_route_points_default (route_coords : list (pyval * pyval)) :
  Main.poi_service._sample_route_points route_coords 500 = Raise ZeroDivisionError
  <-> (length route_coords = 3 \/ length route_coords = 4)%nat.
Proof.
  split.
  - intros H.
    destruct (Nat.le_gt_cases (length route_coords) 2) as [Hl|Hl].
    + destruct (sample_route_points_total route_coords 500) as (p & Hp);
        [lia|auto|congruence].
    + destruct (Nat.le_gt_cases 5 (length route_coords)) as [Hl'|Hl']; [|lia].
      destruct (sample_route_points_total route_coords 500) as (p & Hp);
        [lia|right; lia|congruence].
  - intros H. apply sample_route_points_slip; lia.
Qed.

(** C6: the code at a valid three-point route.  The sampling step divides by
    zero, and the request is answered 500, whatever the Places API would
    have said. *)
Theorem three_point_route_divides_by_zero :
  (exists route_coords,
     Main.app.swap_route three_point_route = Ok route_coords /\
     Main.poi_service._sample_route_points route_coords 500
       = Raise ZeroDivisionError) /\
  forall (env : Env) (w : world),
    Main.app.get_nearby_pois env sample_cfg (pois_request three_point_route) w =
      (Ok (Resp 500 (error_body msg_pois_failed)), w).
Proof.
  split.
  - eexists. split; reflexivity.
  - intros env w. reflexivity.
Qed.

(* ===================================================================== *)
(** ** C7, C10: the place dictionary *)
(* ===================================================================== *)

Lemma Qeq_bool_sym (x y : Q) : Qeq_bool x y = Qeq_bool y x.
Proof.
  destruct (Qeq_bool x y) eqn:E1, (Qeq_bool y x) eqn:E2; try reflexivity.
  - apply Qeq_bool_iff in E1. symmetry in E1. apply Qeq_bool_iff in E1. congruence.
  - apply Qeq_bool_iff in E2. symmetry in E2. apply Qeq_bool_iff in E2. congruence.
Qed.

Lemma Qeq_bool_trans (x y z : Q) :
  Qeq_bool x y = true -> Qeq_bool y z = true -> Qeq_bool x z = true.
Proof.
  rewrite !Qeq_bool_iff. intros H1 H2. by rewrite H1.
Qed.

Lemma key_eqb_sym (a b : pyval) : key_eqb a b = key_eqb b a.
Proof.
  destruct a, b; simpl; try reflexivity; try apply Qeq_bool_sym.
  apply String.eqb_sym.
Qed.

Lemma key_eqb_trans (a b c : pyval) :
  key_eqb a b = true -> key_eqb b c = true -> key_eqb a c = true.
Proof.
  destruct a, b; simpl; try discriminate; destruct c; simpl; try discriminate;
    try reflexivity; try apply Qeq_bool_trans.
  intros H1 H2. apply String.eqb_eq in H1, H2. apply String.eqb_eq. congruence.
Qed.

Lemma existsb_key_sym (k : pyval) (d : found_dict) :
  existsb (fun other => key_eqb (fst other) k) d = known k d.
Proof.
  unfold known. induction d as [|x d IH]; simpl; [reflexivity|].
  by rewrite IH, key_eqb_sym.
Qed.

Lemma distinct_ids_snoc (d : found_dict) (k v : pyval) :
  distinct_ids (d ++ [(k, v)]) = distinct_ids d && negb (known k d).
Proof.
  induction d as [|x d IH]; simpl; [reflexivity|].
  rewrite IH, existsb_app. unfold known. simpl.
  rewrite orb_false_r, (key_eqb_sym k (fst x)).
  destruct (key_eqb (fst x) k);
    destruct (existsb (fun other => key_eqb (fst x) (fst other)) d);
    destruct (distinct_ids d);
    destruct (existsb (fun item => key_eqb k (fst item)) d); reflexivity.
Qed.

(** What one visit does: nothing for a known id, one new entry otherwise. *)
Lemma visit_poi_inv (found found' : found_dict) (poi : pyval) :
  visit_poi found poi = Ok found' ->
  exists place_id,
    py_getitem poi "place_id" = Ok place_id /\
    hashable place_id = true /\
    ((known place_id found = true /\ found' = found) \/
     (known place_id found = false /\
      exists record, poi_record poi = Ok record /\
                     found' = found ++ [(place_id, record)])).
Proof.
  unfold visit_poi, dict_contains. fold (known).
  destruct (py_getitem poi "place_id") as [k|]; [|discriminate]. simpl.
  destruct (hashable k) eqn:Hh; [|discriminate]. simpl.
  fold (known k found).
  destruct (known k found) eqn:Hk.
  - intros H. inversion H; subst. exists k. auto.
  - destruct (poi_record poi) as [r|]; [|discriminate]. simpl.
    intros H. inversion H; subst. exists k.
    split; [reflexivity|]. split; [assumption|]. right. eauto.
Qed.

Lemma visit_poi_distinct (found found' : found_dict) (poi : pyval) :
  visit_poi found poi = Ok found' ->
  distinct_ids found = true -> distinct_ids found' = true.
Proof.
  intros H Hd. apply visit_poi_inv in H as (k & _ & _ & [[_ ->]|[Hk (r & _ & ->)]]).
  - assumption.
  - rewrite distinct_ids_snoc, Hd, Hk. reflexivity.
Qed.

Lemma visit_poi_extends (found found' : found_dict) (poi : pyval) :
  visit_poi found poi = Ok found' -> exists extra, found' = found ++ extra.
Proof.
  intros H. apply visit_poi_inv in H as (k & _ & _ & [[_ ->]|[Hk (r & _ & ->)]]).
  - exists []. by rewrite app_nil_r.
  - eauto.
Qed.

Lemma visit_results_distinct (results : list pyval) (found : found_dict) :
  distinct_ids found = true ->
  distinct_ids (fst (visit_results found results)) = true.
Proof.
  revert found. induction results as [|poi rest IH]; intros found Hd; simpl.
  - assumption.
  - destruct (visit_poi found poi) as [found'|e] eqn:Hv; [|assumption].
    apply IH. eapply visit_poi_distinct; eauto.
Qed.

Lemma visit_results_extends (results : list pyval) (found : found_dict) :
  exists extra, fst (visit_results found results) = found ++ extra.
Proof.
  revert found. induction results as [|poi rest IH]; intros found; simpl.
  - exists []. by rewrite app_nil_r.
  - destruct (visit_poi found poi) as [found'|e] eqn:Hv.
    + destruct (visit_poi_extends _ _ _ Hv) as (x1 & ->).
      destruct (IH (found ++ x1)) as (x2 & ->).
      exists (x1 ++ x2). by rewrite app_assoc.
    + exists []. by rewrite app_nil_r.
Qed.

Lemma visit_results_app (a b : list pyval) (found : found_dict) :
  visit_results found (a ++ b) =
    match visit_results found a with
    | (found', None) => visit_results found' b
    | (found', Some e) => (found', Some e)
    end.
Proof.
  revert found. induction a as [|poi a IH]; intros found; simpl; [reflexivity|].
  destruct (visit_poi found poi) as [found'|e]; [apply IH|reflexivity].
Qed.

Lemma dict_lookup_known (k : pyval) (d : found_dict) :
  known k d = match dict_lookup k d with Some _ => true | None => false end.
Proof.
  unfold known, dict_lookup. induction d as [|x d IH]; simpl; [reflexivity|].
  destruct (key_eqb k (fst x)); simpl; [reflexivity|exact IH].
Qed.

Lemma dict_lookup_snoc (id k v : pyval) (d : found_dict) :
  dict_lookup id (d ++ [(k, v)]) =
    match dict_lookup id d with
    | Some r => Some r
    | None => if key_eqb id k then Some v else None
    end.
Proof.
  unfold dict_lookup. induction d as [|x d IH]; simpl.
  - by destruct (key_eqb id k).
  - destruct (key_eqb id (fst x)); [reflexivity|exact IH].
Qed.

Lemma known_trans (id k : pyval) (d : found_dict) :
  key_eqb id k = true -> known k d = true -> known id d = true.
Proof.
  unfold known. intros Hik. rewrite !existsb_exists.
  intros (x & Hin & Hx). exists x. split; [assumption|].
  eapply key_eqb_trans; eauto.
Qed.

Lemma known_app (id : pyval) (d extra : found_dict) :
  known id d = true -> known id (d ++ extra) = true.
Proof. unfold known. rewrite existsb_app. by intros ->. Qed.

Lemma key_eqb_refl (k : pyval) : hashable k = true -> key_eqb k k = true.
Proof.
  destruct k; simpl; try discriminate; intros _; try reflexivity.
  - apply Qeq_bool_iff. reflexivity.
  - apply Qeq_bool_iff. reflexivity.
  - apply Qeq_bool_iff. reflexivity.
  - apply String.eqb_refl.
Qed.

Lemma well_formed_poi_inv (poi : pyval) :
  well_formed_poi poi = true ->
  exists k r, py_getitem poi "place_id" = Ok k /\ hashable k = true /\
              poi_record poi = Ok r.
Proof.
  unfold well_formed_poi.
  destruct (py_getitem poi "place_id") as [k|]; [|discriminate].
  destruct (poi_record poi) as [r|]; [|discriminate]. eauto.
Qed.

Lemma visit_poi_well_formed (found : found_dict) (poi : pyval) :
  well_formed_poi poi = true ->
  exists k r, py_getitem poi "place_id" = Ok k /\ poi_record poi = Ok r /\
    visit_poi found poi = Ok (if known k found then found else found ++ [(k, r)]).
Proof.
  intros H. apply well_formed_poi_inv in H as (k & r & Hk & Hh & Hr).
  exists k, r. split; [assumption|]. split; [assumption|].
  unfold visit_poi, dict_contains. rewrite Hk. simpl. rewrite Hh. simpl.
  fold (known k found). destruct (known k found); [reflexivity|].
  by rewrite Hr.
Qed.

(** Results that can each be stored are all visited. *)
Lemma visit_results_well_formed (items : list pyval) (found : found_dict) :
  Forall (fun poi => well_formed_poi poi = true) items ->
  snd (visit_results found items) = None.
Proof.
  intros Hwf. revert found.
  induction Hwf as [|poi rest Hpoi _ IH]; intros found; simpl; [reflexivity|].
  destruct (visit_poi_well_formed found poi Hpoi) as (k & r & _ & _ & ->).
  apply IH.
Qed.

(** When every result was visited, the record kept for a place identifier
    is the one that was there before, or else the one built from the first
    result that carries the identifier. *)
Lemma visit_results_first_wins (items : list pyval) (found found' : found_dict)
    (id : pyval) :
  visit_results found items = (found', None) ->
  dict_lookup id found' =
    match dict_lookup id found with
    | Some record => Some record
    | None => record_of_first id items
    end.
Proof.
  revert found. induction items as [|poi rest IH]; intros found; simpl.
  - intros H. inversion H; subst. unfold record_of_first. simpl.
    by destruct (dict_lookup id found').
  - destruct (visit_poi found poi) as [found1|e] eqn:Hv; [|discriminate].
    intros H. rewrite (IH found1 H). clear IH H.
    apply visit_poi_inv in Hv as (k & Hk & Hh & Hcase).
    assert (Hhas : has_place_id id poi = key_eqb id k)
      by (unfold has_place_id; by rewrite Hk).
    unfold record_of_first. simpl. rewrite Hhas.
    destruct Hcase as [[Hkn ->]|[Hkn (r & Hr & ->)]].
    + destruct (dict_lookup id found) as [rec|] eqn:Hl; [reflexivity|].
      destruct (key_eqb id k) eqn:Hik; [|reflexivity].
      pose proof (known_trans id k found Hik Hkn) as Hc.
      rewrite dict_lookup_known, Hl in Hc. discriminate.
    + rewrite dict_lookup_snoc.
      destruct (dict_lookup id found) as [rec|] eqn:Hl; [reflexivity|].
      destruct (key_eqb id k) eqn:Hik; [by rewrite Hr|reflexivity].
Qed.

(** Every visited result has its identifier in the dictionary. *)
Lemma visit_results_covers (items : list pyval) (found found' : found_dict) :
  visit_results found items = (found', None) ->
  (forall id, known id found = true -> known id found' = true) /\
  forall poi, In poi items ->
    exists place_id, py_getitem poi "place_id" = Ok place_id /\
                     known place_id found' = true.
Proof.
  revert found. induction items as [|poi rest IH]; intros found; simpl.
  - intros H. inversion H; subst. split; [auto|]. intros poi [].
  - destruct (visit_poi found poi) as [found1|e] eqn:Hv; [|discriminate].
    intros H. destruct (IH found1 H) as [Hmono Hrest].
    apply visit_poi_inv in Hv as (k & Hk & Hh & Hcase).
    assert (Hstep : forall id, known id found = true -> known id found1 = true).
    { intros id Hid. destruct Hcase as [[_ ->]|[_ (r & _ & ->)]];
        [assumption|by apply known_app]. }
    assert (Hk1 : known k found1 = true).
    { destruct Hcase as [[Hkn ->]|[_ (r & _ & ->)]]; [assumption|].
      unfold known. rewrite existsb_app. simpl.
      by rewrite (key_eqb_refl k Hh), orb_true_r. }
    split; [auto|].
    intros poi' [<-|Hin]; [|by apply Hrest].
    exists k. auto.
Qed.

Lemma visit_results_hashable (items : list pyval) (found : found_dict) :
  Forall (fun entry => hashable (fst entry) = true) found ->
  Forall (fun entry => hashable (fst entry) = true) (fst (visit_results found items)).
Proof.
  revert found. induction items as [|poi rest IH]; intros found Hf; simpl.
  - assumption.
  - destruct (visit_poi found poi) as [found1|e] eqn:Hv; [|assumption].
    apply IH. apply visit_poi_inv in Hv as (k & _ & Hh & [[_ ->]|[_ (r & _ & ->)]]);
      [assumption|].
    apply Forall_app. split; [assumption|]. by repeat constructor.
Qed.

(** In a dictionary without equal keys every entry is the one its key looks
    up. *)
Lemma dict_lookup_entry (d : found_dict) (entry : pyval * pyval) :
  distinct_ids d = true ->
  Forall (fun item => hashable (fst item) = true) d ->
  In entry d ->
  dict_lookup (fst entry) d = Some (snd entry).
Proof.
  induction d as [|x d IH]; intros Hd Hh Hin; [destruct Hin|].
  simpl in Hd. apply andb_true_iff in Hd as [Hx Hd].
  apply negb_true_iff in Hx.
  inversion Hh as [|? ? Hhx Hhd]; subst.
  unfold dict_lookup. simpl.
  destruct Hin as [->|Hin].
  - by rewrite (key_eqb_refl _ Hhx).
  - assert (Hne : key_eqb (fst entry) (fst x) = false).
    { rewrite key_eqb_sym. destruct (key_eqb (fst x) (fst entry)) eqn:E; [|reflexivity].
      rewrite <- Hx. symmetry. apply existsb_exists. eauto. }
    rewrite Hne. by apply IH.
Qed.

Section SearchLoop.
Variable env : Env.
Variable cfg : Config.

(** One round: the search is made, and the round ends normally with what
    the results added; when the search or a result raises, the first
    [except] clause raises [AttributeError] in its turn. *)
Lemma search_sample_eq (found : found_dict) (location : pyval * pyval)
    (w : world) :
  search_sample env cfg found location w =
    (if round_ends found (search_answer env cfg (trace w) location)
     then Ok (absorb found (items_of (search_answer env cfg (trace w) location)))
     else Raise AttributeError,
     emit (search_event cfg location) w).
Proof.
  unfold search_sample, except_clauses, googlemaps_ApiError, bind, lift, ret,
    gmaps_places_nearby, round_ends, items_of, batch_of, search_answer,
    search_event, absorb.
  destruct (env_places env (trace w) location _ _) as [resp|e]; simpl;
    [|reflexivity].
  destruct (py_get resp "results" (PList [])) as [results|e]; simpl; [|reflexivity].
  destruct (py_iter results) as [items|e]; simpl; [|reflexivity].
  by destruct (visit_results found items) as [found' [e|]].
Qed.

Lemma search_samples_app (earlier later : list (pyval * pyval))
    (found : found_dict) (w : world) :
  search_samples env cfg found (earlier ++ later) w =
    match search_samples env cfg found earlier w with
    | (Ok found', w') => search_samples env cfg found' later w'
    | (Raise e, w') => (Raise e, w')
    end.
Proof.
  revert found w. induction earlier as [|p rest IH]; intros found w; simpl;
    [reflexivity|].
  unfold bind. destruct (search_sample env cfg found p w) as [[found1|e] w1];
    [apply IH|reflexivity].
Qed.

Lemma answers_app (earlier later : list (pyval * pyval)) (tr : list event) :
  answers env cfg (earlier ++ later) tr =
    answers env cfg earlier tr
    ++ answers env cfg later (tr ++ map (search_event cfg) earlier).
Proof.
  revert tr. induction earlier as [|p rest IH]; intros tr; simpl.
  - by rewrite app_nil_r.
  - rewrite IH. by rewrite <- app_assoc.
Qed.

Lemma discoveries_app (earlier later : list (pyval * pyval)) (tr : list event) :
  discoveries env cfg (earlier ++ later) tr =
    discoveries env cfg earlier tr
    ++ discoveries env cfg later (tr ++ map (search_event cfg) earlier).
Proof. unfold discoveries. by rewrite answers_app, map_app. Qed.

(** The searches all end normally exactly when, one after the other, each
    round does; the dictionary is then what visiting all the results in
    turn gives. *)
Lemma search_samples_ok_inv (sample_points : list (pyval * pyval))
    (found found' : found_dict) (w w' : world) :
  search_samples env cfg found sample_points w = (Ok found', w') ->
  visit_results found (concat (discoveries env cfg sample_points (trace w)))
    = (found', None) /\
  w' = World (session w) (trace w ++ map (search_event cfg) sample_points).
Proof.
  revert found w. induction sample_points as [|location rest IH];
    intros found w; simpl.
  - intros H. inversion H; subst. rewrite app_nil_r. by destruct w'.
  - unfold bind. rewrite search_sample_eq.
    destruct (round_ends found _) eqn:Hr; [|discriminate].
    intros H. apply IH in H as [Hv ->]. simpl in Hv |- *.
    unfold discoveries in *. simpl. rewrite visit_results_app.
    unfold round_ends, items_of in *.
    destruct (batch_of (search_answer env cfg (trace w) location)) as [items|];
      [|discriminate].
    unfold absorb in Hv.
    destruct (visit_results found items) as [found1 [e|]]; [discriminate|].
    simpl in Hv. split; [exact Hv|]. by rewrite <- app_assoc.
Qed.

Lemma search_samples_clean (sample_points : list (pyval * pyval))
    (found : found_dict) (w : world) :
  Forall (fun r => clean_answer r = true) (answers env cfg sample_points (trace w)) ->
  exists found',
    search_samples env cfg found sample_points w =
      (Ok found',
       World (session w) (trace w ++ map (search_event cfg) sample_points)).
Proof.
  revert found w. induction sample_points as [|location rest IH];
    intros found w Hclean; simpl.
  - exists found. rewrite app_nil_r. by destruct w.
  - simpl in Hclean. inversion Hclean as [|? ? Hc Hrest]; subst.
    unfold bind. rewrite search_sample_eq.
    assert (Hr : round_ends found (search_answer env cfg (trace w) location) = true).
    { unfold clean_answer in Hc. unfold round_ends.
      destruct (batch_of _) as [items|]; [|discriminate].
      rewrite visit_results_well_formed; [reflexivity|].
      apply Forall_forall. intros poi Hin. apply list_elem_of_In in Hin.
      rewrite forallb_forall in Hc. auto. }
    rewrite Hr.
    destruct (IH (absorb found (items_of (search_answer env cfg (trace w) location)))
                (emit (search_event cfg location) w) Hrest) as (found' & ->).
    exists found'. simpl. by rewrite <- app_assoc.
Qed.

(** The searches are made in order, up to and including the first whose
    round does not end normally. *)
Lemma search_samples_outcome (sample_points : list (pyval * pyval))
    (found : found_dict) (w : world) :
  exists searched unsearched r,
    sample_points = searched ++ unsearched /\
    search_samples env cfg found sample_points w =
      (r, World (session w) (trace w ++ map (search_event cfg) searched)) /\
    ((exists found', r = Ok found') /\ unsearched = [] \/
     r = Raise AttributeError /\ searched <> []).
Proof.
  revert found w. induction sample_points as [|location rest IH];
    intros found w; simpl.
  - exists [], [], (Ok found). split; [reflexivity|].
    split; [simpl; rewrite app_nil_r; by destruct w|]. left. eauto.
  - unfold bind. rewrite search_sample_eq.
    destruct (round_ends found _).
    + destruct (IH (absorb found (items_of (search_answer env cfg (trace w) location)))
                  (emit (search_event cfg location) w))
        as (searched & unsearched & r & -> & Hrun & Hr).
      exists (location :: searched), unsearched, r.
      split; [reflexivity|]. split.
      * rewrite Hrun. simpl. by rewrite <- app_assoc.
      * destruct Hr as [Hr|[Hr _]]; [by left|right]. split; [assumption|discriminate].
    + exists [location], rest, (Raise AttributeError).
      split; [reflexivity|]. split; [reflexivity|]. right. split; [reflexivity|discriminate].
Qed.

(** The searches stop at the first round that does not end normally. *)
Lemma search_samples_stop (before after : list (pyval * pyval))
    (location : pyval * pyval) (found found1 : found_dict) (w w1 : world) :
  search_samples env cfg found before w = (Ok found1, w1) ->
  round_ends found1 (search_answer env cfg (trace w1) location) = false ->
  search_samples env cfg found (before ++ location :: after) w =
    (Raise AttributeError,
     World (session w) (trace w ++ map (search_event cfg) (before ++ [location]))).
Proof.
  intros Hb Hr. rewrite search_samples_app, Hb. simpl.
  unfold bind. rewrite search_sample_eq, Hr.
  apply search_samples_ok_inv in Hb as [_ ->]. simpl.
  by rewrite map_app, app_assoc.
Qed.
End SearchLoop.

Section ResolverFacts.
Variable env : Env.
Variable cfg : Config.

(** The ways through [get_pois_for_route]. *)
Lemma get_pois_for_route_idle (route_coords : list (pyval * pyval)) (w : world) :
  list_nonempty route_coords = false \/ gmaps cfg = false ->
  get_pois_for_route env cfg route_coords w = (Ok [], w).
Proof.
  unfold get_pois_for_route. intros [H|H]; rewrite H; simpl; [reflexivity|].
  by destruct (list_nonempty route_coords).
Qed.

Lemma get_pois_for_route_raises (route_coords : list (pyval * pyval))
    (e : exn) (w : world) :
  list_nonempty route_coords = true ->
  gmaps cfg = true ->
  _sample_route_points route_coords (POI_ROUTE_SAMPLING_DISTANCE cfg) = Raise e ->
  get_pois_for_route env cfg route_coords w = (Raise e, w).
Proof.
  intros H1 H2 H3. unfold get_pois_for_route, bind, lift.
  by rewrite H1, H2, H3.
Qed.

Lemma get_pois_for_route_searches (route_coords sample_points : list (pyval * pyval))
    (w : world) :
  list_nonempty route_coords = true ->
  gmaps cfg = true ->
  _sample_route_points route_coords (POI_ROUTE_SAMPLING_DISTANCE cfg)
    = Ok sample_points ->
  get_pois_for_route env cfg route_coords w =
    match search_samples env cfg [] sample_points w with
    | (Ok found, w') => (Ok (map snd found), w')
    | (Raise e, w') => (Raise e, w')
    end.
Proof.
  intros H1 H2 H3. unfold get_pois_for_route, bind, lift, ret.
  rewrite H1, H2, H3. simpl.
  by destruct (search_samples env cfg [] sample_points w) as [[found|e] w'].
Qed.

Lemma sample_route_points_raises_only_zero_division
    (route_coords : list (pyval * pyval)) (sd : Z) (e : exn) :
  _sample_route_points route_coords sd = Raise e -> e = ZeroDivisionError.
Proof.
  unfold _sample_route_points, py_floordiv.
  destruct (_ <=? 2); [discriminate|].
  destruct (sd =? 0); simpl; [congruence|].
  destruct (_ =? 0); simpl; [congruence|discriminate].
Qed.

(** What [get_pois_for_route] can do: return a list, fail in the sampling
    step before any search, or fail with the [AttributeError] of the first
    [except] clause after at least one search.  It never touches the
    session. *)
Lemma get_pois_for_route_outcome (route_coords : list (pyval * pyval)) (w : world) :
  (exists pois w', get_pois_for_route env cfg route_coords w = (Ok pois, w') /\
                   session w' = session w) \/
  get_pois_for_route env cfg route_coords w = (Raise ZeroDivisionError, w) \/
  (exists searched,
     searched <> [] /\
     get_pois_for_route env cfg route_coords w =
       (Raise AttributeError,
        World (session w) (trace w ++ map (search_event cfg) searched))).
Proof.
  destruct (list_nonempty route_coords) eqn:H1.
  2:{ left. exists [], w. split; [|reflexivity].
      apply get_pois_for_route_idle. by left. }
  destruct (gmaps cfg) eqn:H2.
  2:{ left. exists [], w. split; [|reflexivity].
      apply get_pois_for_route_idle. by right. }
  destruct (_sample_route_points route_coords (POI_ROUTE_SAMPLING_DISTANCE cfg))
    as [pts|e] eqn:H3.
  - rewrite (get_pois_for_route_searches route_coords pts w H1 H2 H3).
    destruct (search_samples_outcome env cfg pts [] w)
      as (searched & unsearched & r & _ & -> & [[(found & ->) _]|[-> Hne]]).
    + left. do 2 eexists. split; reflexivity.
    + right. right. exists searched. auto.
  - right. left. pose proof (sample_route_points_raises_only_zero_division _ _ _ H3).
    subst e. by apply get_pois_for_route_raises.
Qed.
End ResolverFacts.

Lemma built_from_mono (items items' : list pyval) (entry : pyval * pyval) :
  (forall poi, In poi items -> In poi items') ->
  built_from items entry -> built_from items' entry.
Proof. intros Hsub (poi & Hin & H). exists poi. auto. Qed.

Lemma visit_results_provenance (items : list pyval) (found : found_dict)
    (entry : pyval * pyval) :
  In entry (fst (visit_results found items)) ->
  In entry found \/ built_from items entry.
Proof.
  revert found. induction items as [|poi rest IH]; intros found Hin; simpl in *.
  - by left.
  - destruct (visit_poi found poi) as [found'|e] eqn:Hv; [|by left].
    apply IH in Hin as [Hin|Hb].
    + apply visit_poi_inv in Hv
        as (k & Hk & _ & [[_ ->]|[_ (r & Hr & ->)]]); [by left|].
      apply in_app_or in Hin as [Hin|[<-|[]]]; [by left|].
      right. exists poi. simpl. auto.
    + right. eapply built_from_mono; [|exact Hb]. simpl. auto.
Qed.

(** What holds of the dictionary whenever the searches all end normally. *)
Lemma resolution_facts (env : Env) (cfg : Config)
    (sample_points : list (pyval * pyval)) (found : found_dict) (w w' : world) :
  search_samples env cfg [] sample_points w = (Ok found, w') ->
  let items := concat (discoveries env cfg sample_points (trace w)) in
  distinct_ids found = true /\
  Forall (built_from items) found /\
  (forall place_id, dict_lookup place_id found = record_of_first place_id items) /\
  Forall (fun entry => record_of_first (fst entry) items = Some (snd entry)) found /\
  (forall poi, In poi items ->
     exists place_id, py_getitem poi "place_id" = Ok place_id /\
                      known place_id found = true).
Proof.
  intros Hrun items. apply search_samples_ok_inv in Hrun as [Hv _].
  fold items in Hv.
  assert (Hfst : found = fst (visit_results [] items)) by (by rewrite Hv).
  assert (Hd : distinct_ids found = true)
    by (rewrite Hfst; by apply visit_results_distinct).
  assert (Hh : Forall (fun entry => hashable (fst entry) = true) found)
    by (rewrite Hfst; apply visit_results_hashable; constructor).
  assert (Hl : forall place_id,
             dict_lookup place_id found = record_of_first place_id items)
    by (intros id; by rewrite (visit_results_first_wins items [] found id Hv)).
  repeat apply conj; try assumption.
  - apply Forall_forall. intros entry Hin. apply list_elem_of_In in Hin.
    rewrite Hfst in Hin. apply visit_results_provenance in Hin as [[]|Hb]. exact Hb.
  - apply Forall_forall. intros entry Hin. apply list_elem_of_In in Hin.
    rewrite <- Hl. by apply dict_lookup_entry.
  - apply (visit_results_covers items [] found Hv).
Qed.

(** C7: the code at a valid three-point route and everywhere else.  With the
    default sampling distance the three-point route gets no result set at
    all, because the sampling step divides by zero.  A run also ends without
    a result set, after at least one search, when a search raises or brings
    a result that cannot be stored: the first [except] clause of the loop
    then raises [AttributeError].  Every other run returns the values of
    the dictionary that the searches built, whose place identifiers are
    pairwise different and each of whose records was built from a result
    carrying its identifier. *)
Theorem resolver_dedup_except_sampling_slip :
  (forall (env : Env) (w : world),
     get_pois_for_route env sample_cfg three_point_coords w
       = (Raise ZeroDivisionError, w)) /\
  (forall (env : Env) (cfg : Config) (route_coords : list (pyval * pyval))
          (w : world),
     get_pois_for_route env cfg route_coords w = (Raise ZeroDivisionError, w) \/
     (exists searched,
        searched <> [] /\
        get_pois_for_route env cfg route_coords w =
          (Raise AttributeError,
           World (session w) (trace w ++ map (search_event cfg) searched))) \/
     exists sample_points found w',
       (list_nonempty route_coords = true -> gmaps cfg = true ->
        _sample_route_points route_coords (POI_ROUTE_SAMPLING_DISTANCE cfg)
          = Ok sample_points) /\
       search_samples env cfg [] sample_points w = (Ok found, w') /\
       get_pois_for_route env cfg route_coords w = (Ok (map snd found), w') /\
       distinct_ids found = true /\
       Forall (built_from (concat (discoveries env cfg sample_points (trace w))))
              found).
Proof.
  split; [reflexivity|].
  intros env cfg route_coords w.
  destruct (list_nonempty route_coords) eqn:H1.
  2:{ right. right. exists [], [], w. repeat apply conj; try reflexivity.
      - discriminate.
      - rewrite get_pois_for_route_idle; [reflexivity|by left].
      - constructor. }
  destruct (gmaps cfg) eqn:H2.
  2:{ right. right. exists [], [], w. repeat apply conj; try reflexivity.
      - discriminate.
      - rewrite get_pois_for_route_idle; [reflexivity|by right].
      - constructor. }
  destruct (_sample_route_points route_coords (POI_ROUTE_SAMPLING_DISTANCE cfg))
    as [pts|e] eqn:H3.
  - rewrite (get_pois_for_route_searches env cfg route_coords pts w H1 H2 H3).
    destruct (search_samples_outcome env cfg pts [] w)
      as (searched & unsearched & r & _ & Hrun & [[(found & ->) _]|[-> Hne]]).
    + right. right. exists pts, found. eexists.
      rewrite Hrun. split; [auto|]. split; [reflexivity|]. split; [reflexivity|].
      destruct (resolution_facts env cfg pts found w _ Hrun) as (Hd & Hb & _).
      auto.
    + right. left. exists searched. rewrite Hrun. auto.
  - left. pose proof (sample_route_points_raises_only_zero_division _ _ _ H3).
    subst e. by apply get_pois_for_route_raises.
Qed.

(** The test of the specification: two overlapping sample circles that both
    return place [p1] yield one record for it. *)
Lemma two_circles_one_record :
  fst (get_pois_for_route overlapping_env sample_cfg two_point_coords (World ∅ []))
  = Ok [place_record "Corner Gallery" (5150 # 100) (-12 # 100);
        place_record "Bridge Cafe" (5151 # 100) (-11 # 100)].
Proof. vm_compute. reflexivity. Qed.

(** C10. A resolution returns when every search answers with results that
    can be stored.  Whenever it returns, it returns the records of a
    dictionary in which no place identifier occurs twice, in which every
    identifier that any search returned occurs, and in which the record of
    an identifier is the one built from the first result, in sample-point
    order, that carries it: a later result with the same identifier adds
    nothing and changes nothing.  The dictionary built up to any sample
    point is a prefix of the final one. *)
Theorem first_discovery_wins (env : Env) (cfg : Config)
    (route_coords sample_points : list (pyval * pyval)) (w : world) :
  list_nonempty route_coords = true ->
  gmaps cfg = true ->
  _sample_route_points route_coords (POI_ROUTE_SAMPLING_DISTANCE cfg)
    = Ok sample_points ->
  let items := concat (discoveries env cfg sample_points (trace w)) in
  (Forall (fun r => clean_answer r = true)
          (answers env cfg sample_points (trace w)) ->
   exists pois w', get_pois_for_route env cfg route_coords w = (Ok pois, w')) /\
  (forall pois w',
     get_pois_for_route env cfg route_coords w = (Ok pois, w') ->
     exists found,
       pois = map snd found /\
       search_samples env cfg [] sample_points w = (Ok found, w') /\
       distinct_ids found = true /\
       Forall (fun entry => record_of_first (fst entry) items = Some (snd entry))
              found /\
       (forall poi, In poi items ->
          exists place_id, py_getitem poi "place_id" = Ok place_id /\
                           known place_id found = true) /\
       (forall place_id,
          dict_lookup place_id found = record_of_first place_id items) /\
       (forall earlier later,
          sample_points = earlier ++ later ->
          exists found_so_far w1 extra,
            search_samples env cfg [] earlier w = (Ok found_so_far, w1) /\
            found = found_so_far ++ extra)).
Proof.
  intros H1 H2 H3 items.
  rewrite (get_pois_for_route_searches env cfg route_coords sample_points w H1 H2 H3).
  split.
  - intros Hclean.
    destruct (search_samples_clean env cfg sample_points [] w Hclean) as (found & ->).
    eauto.
  - intros pois w' Hrun.
    destruct (search_samples env cfg [] sample_points w) as [[found|e] w1] eqn:Hs;
      [|discriminate].
    inversion Hrun; subst pois w1. exists found.
    destruct (resolution_facts env cfg sample_points found w w' Hs)
      as (Hd & _ & Hl & Hfirst & Hcov).
    repeat apply conj; try assumption; try reflexivity.
    intros earlier later ->.
    rewrite search_samples_app in Hs.
    destruct (search_samples env cfg [] earlier w) as [[found0|e] w0] eqn:H0;
      [|discriminate].
    exists found0, w0.
    apply search_samples_ok_inv in Hs as [Hv _].
    destruct (visit_results_extends
                (concat (discoveries env cfg later (trace w0))) found0)
      as (extra & Hx).
    rewrite Hv in Hx. simpl in Hx. eauto.
Qed.

Lemma first_discovery_wins_witness :
  exists found,
    fst (get_pois_for_route overlapping_env sample_cfg two_point_coords (World ∅ []))
      = Ok (map snd found) /\
    distinct_ids found = true /\
    dict_lookup (PStr "p1") found
      = Some (place_record "Corner Gallery" (5150 # 100) (-12 # 100)).
Proof.
  destruct (proj2 (first_discovery_wins overlapping_env sample_cfg two_point_coords
                     [(PFloat (5150 # 100), PFloat (-12 # 100));
                      (PFloat (5151 # 100), PFloat (-11 # 100))] (World ∅ [])
                     eq_refl eq_refl eq_refl)
              _ _ eq_refl)
    as (found & Hp & _ & Hd & _ & _ & Hfirst & _).
  exists found. split; [by rewrite <- Hp|]. split; [exact Hd|].
  rewrite Hfirst. vm_compute. reflexivity.
Defined.

(** *** Valid routes outside the sampling failure *)

Lemma swap_route_total (route : list pyval) :
  Forall (fun coord => is_coordinate coord = true) route ->
  exists route_coords,
    Main.app.swap_route route = Ok route_coords /\
    length route_coords = length route.
Proof.
  induction 1 as [|coord rest Hc _ (coords & Hs & Hl)].
  - exists []. auto.
  - destruct coord as [| | | | |[|lat [|lng more]]|]; try discriminate.
    exists ((lng, lat) :: coords). simpl. rewrite Hs. simpl. auto.
Qed.

Lemma visit_results_nothing (found : found_dict) (batches : list (list pyval)) :
  Forall (fun items => items = []) batches ->
  visit_results found (concat batches) = (found, None).
Proof. induction 1 as [|b rest -> _ IH]; simpl; auto. Qed.

(** Apart from the routes on which the sampling step fails, a valid route is
    answered 200 when every search answers with results that can be stored,
    and with an empty list when no search brings anything. *)
Lemma nearby_pois_answered_outside_slip (env : Env) (cfg : Config)
    (route : list pyval) (w : world) :
  Forall (fun coord => is_coordinate coord = true) route ->
  (2 <= length route)%nat ->
  gmaps cfg = true ->
  0 < POI_ROUTE_SAMPLING_DISTANCE cfg ->
  (length route <= 2)%nat \/
    POI_ROUTE_SAMPLING_DISTANCE cfg <= Z.of_nat (length route) * 100 ->
  (forall tr location, clean_answer (search_answer env cfg tr location) = true) ->
  exists pois w',
    Main.app.get_nearby_pois env cfg (pois_request route) w =
      (Ok (Resp 200 (PList pois)), w') /\
    ((forall tr location, items_of (search_answer env cfg tr location) = []) ->
     pois = []).
Proof.
  intros Hcoords Hlen Hg Hsd Hok Hclean.
  destruct (swap_route_total route Hcoords) as (coords & Hswap & Hl).
  destruct (sample_route_points_total coords (POI_ROUTE_SAMPLING_DISTANCE cfg))
    as (pts & Hpts); [assumption|by rewrite Hl|].
  assert (Hne : list_nonempty coords = true).
  { destruct coords; [simpl in Hl; lia|reflexivity]. }
  assert (Hall : forall tr, Forall (fun r => clean_answer r = true)
                              (answers env cfg pts tr)).
  { clear -Hclean. induction pts as [|p pts IH]; intros tr; simpl;
      constructor; auto. }
  destruct (search_samples_clean env cfg pts [] w (Hall _)) as (found & Hrun).
  exists (map snd found). eexists. split.
  - unfold Main.app.get_nearby_pois, try_except2, try_except, bind, lift, ret.
    simpl.
    destruct (Z.ltb_spec (Z.of_nat (length route)) 2) as [H|H]; [lia|].
    rewrite Hswap.
    rewrite (get_pois_for_route_searches env cfg coords pts w Hne Hg Hpts), Hrun.
    reflexivity.
  - intros Hnone. apply search_samples_ok_inv in Hrun as [Hv _].
    rewrite visit_results_nothing in Hv; [by inversion Hv|].
    unfold discoveries. clear -Hnone. generalize (trace w).
    induction pts as [|p pts IH]; intros tr; simpl; constructor; auto.
Qed.

(* ===================================================================== *)
(** ** C8: no GPS data against an upstream failure *)
(* ===================================================================== *)

Section Streams.
Variable env : Env.
Variable cfg : Config.

Lemma get_activity_stream_no_gps (id : Z) (access_token : pyval) (w : world)
    (c : Z) (kv : list (string * pyval)) :
  env_get env (trace w) (Main.strava_client.stream_url id) access_token
    Main.strava_client.stream_params (Some 15) = Response c (PDict kv) ->
  http_failed (Response c (PDict kv)) = false ->
  assoc "latlng" kv = None ->
  Main.strava_client.get_activity_stream env id access_token w =
    (Ok (PList []), emit (stream_request id access_token) w).
Proof.
  intros Ha Hc Hl. simpl in Hc.
  unfold Main.strava_client.get_activity_stream,
    Main.strava_client.get_api_headers, try_except, bind,
    requests_get, raise_for_status, lift.
  rewrite Ha. simpl. rewrite Hc. simpl. rewrite Hl. reflexivity.
Qed.

Lemma get_activity_stream_failure (id : Z) (access_token : pyval) (w : world) :
  http_failed (env_get env (trace w) (Main.strava_client.stream_url id)
                 access_token Main.strava_client.stream_params (Some 15)) = true ->
  Main.strava_client.get_activity_stream env id access_token w =
    (Raise StravaAPIError, emit (stream_request id access_token) w).
Proof.
  intros Hc.
  unfold Main.strava_client.get_activity_stream,
    Main.strava_client.get_api_headers, try_except, bind,
    requests_get, raise_for_status, lift.
  destruct (env_get env (trace w) _ _ _ _) as [|c j]; simpl in *; [reflexivity|].
  rewrite Hc. reflexivity.
Qed.

Lemma stream_body_answer (id : Z) (access_token tok : pyval) (w : world) :
  session w !! "strava_token" = Some tok ->
  py_getitem tok "access_token" = Ok access_token ->
  fst (Main.app.get_activity_stream_data_body env id w) =
    stream_answer
      (fst (Main.strava_client.get_activity_stream env id access_token w)).
Proof.
  intros Hs Ha.
  pose proof (with_access_token
    (fun a => try_except
       (latlng_stream <~ Main.app.strava_get_activity_stream env id a ;;
        if negb (truthy latlng_stream) then
          ret (jsonify_with (error_body "No GPS data found for this activity") 404)
        else ret (jsonify (PDict [("stream"%string, latlng_stream)])))
       except_StravaAPIError
       (fun _ => ret (jsonify_with (error_body "Failed to fetch activity data") 500)))
    w) as H.
  rewrite Hs, Ha in H. unfold Main.app.get_activity_stream_data_body.
  rewrite H. unfold try_except, bind, Main.app.strava_get_activity_stream.
  destruct (Main.strava_client.get_activity_stream env id access_token w)
    as [[v|e] w']; simpl.
  - by destruct (truthy v).
  - by destruct e.
Qed.

Lemma stream_answer_404 (r : result pyval) (resp : response) :
  stream_answer r = Ok resp -> status resp = 404 ->
  exists latlng_stream, r = Ok latlng_stream /\ truthy latlng_stream = false.
Proof.
  destruct r as [v|e]; simpl.
  - destruct (truthy v) eqn:Ht; intros H; inversion H; subst; simpl; [discriminate|].
    eauto.
  - destruct e; intros H; inversion H; subst; simpl; discriminate.
Qed.

Lemma stream_answer_500 (r : result pyval) (resp : response) :
  stream_answer r = Ok resp -> status resp = 500 -> r = Raise StravaAPIError.
Proof.
  destruct r as [v|e]; simpl.
  - destruct (truthy v); intros H; inversion H; subst; simpl; discriminate.
  - destruct e; intros H; inversion H; subst; simpl; try discriminate. reflexivity.
Qed.
End Streams.

(** C8. For a request with a live token: when Strava answers the stream
    request without a [latlng] stream, [get_activity_stream] returns the
    empty list and raises nothing; when the request fails it raises
    [StravaAPIError].  The view answers 404 in the first case and 500 in the
    second, and the other way round a 404 comes only from an empty stream
    that was fetched, a 500 only from the upstream failure. *)
Theorem no_gps_is_404_upstream_failure_is_500 (env : Env) (cfg : Config)
    (activity_id : Z) (w : world) (tok access_token : pyval) (x : Q) :
  session w !! "strava_token" = Some tok ->
  expires_at_of tok = Some x ->
  (env_time env (trace w) <= x)%Q ->
  py_getitem tok "access_token" = Ok access_token ->
  let w1 := emit EvTime w in
  let fetched :=
    fst (Main.strava_client.get_activity_stream env activity_id access_token w1) in
  let upstream :=
    env_get env (trace w1) (Main.strava_client.stream_url activity_id)
      access_token Main.strava_client.stream_params (Some 15) in
  let answered := fst (Main.app.get_activity_stream_data env cfg activity_id w) in
  (forall c kv,
     upstream = Response c (PDict kv) -> http_failed upstream = false ->
     assoc "latlng" kv = None ->
     fetched = Ok (PList []) /\
     answered = Ok (Resp 404 (error_body msg_no_gps))) /\
  (http_failed upstream = true ->
     fetched = Raise StravaAPIError /\
     answered = Ok (Resp 500 (error_body msg_fetch_failed))) /\
  answered = stream_answer fetched /\
  (forall resp, answered = Ok resp -> status resp = 404 ->
     exists latlng_stream, fetched = Ok latlng_stream /\
                           truthy latlng_stream = false) /\
  (forall resp, answered = Ok resp -> status resp = 500 ->
     fetched = Raise StravaAPIError).
Proof.
  intros Hs He Hx Ha w1 fetched upstream answered.
  assert (Hans : answered = stream_answer fetched).
  { subst answered fetched. unfold Main.app.get_activity_stream_data.
    rewrite (main_gate_live env cfg _ w tok x Hs He Hx).
    by apply stream_body_answer with (tok := tok). }
  repeat apply conj.
  - intros c kv Hu Hf Hl. subst upstream. rewrite Hu in Hf.
    assert (Hfetch : fetched = Ok (PList [])).
    { subst fetched.
      by rewrite (get_activity_stream_no_gps env activity_id access_token w1 c kv). }
    split; [assumption|]. by rewrite Hans, Hfetch.
  - intros Hf.
    assert (Hfetch : fetched = Raise StravaAPIError).
    { subst fetched. by rewrite get_activity_stream_failure. }
    split; [assumption|]. by rewrite Hans, Hfetch.
  - exact Hans.
  - intros resp Hr H404. rewrite Hans in Hr. by eapply stream_answer_404.
  - intros resp Hr H500. rewrite Hans in Hr. by eapply stream_answer_500.
Qed.

Lemma no_gps_is_404_upstream_failure_is_500_witness :
  fst (Main.app.get_activity_stream_data
         (listing_env (PDict [("distance"%string, PDict [("data"%string, PList [])])]))
         sample_cfg 42 (world_with_token (sample_token "live" "r1" 2000)))
    = Ok (Resp 404 (error_body msg_no_gps)) /\
  fst (Main.app.get_activity_stream_data offline_env sample_cfg 42
         (world_with_token (sample_token "live" "r1" 2000)))
    = Ok (Resp 500 (error_body msg_fetch_failed)).
Proof.
  split.
  - apply (proj1 (no_gps_is_404_upstream_failure_is_500
                    (listing_env (PDict [("distance"%string,
                                           PDict [("data"%string, PList [])])]))
                    sample_cfg 42 (world_with_token (sample_token "live" "r1" 2000))
                    (sample_token "live" "r1" 2000) (PStr "live") (2000 # 1)
                    eq_refl eq_refl ltac:(discriminate) eq_refl)
            200 [("distance"%string, PDict [("data"%string, PList [])])]
            eq_refl eq_refl eq_refl).
  - apply (proj1 (proj2 (no_gps_is_404_upstream_failure_is_500
                    offline_env sample_cfg 42
                    (world_with_token (sample_token "live" "r1" 2000))
                    (sample_token "live" "r1" 2000) (PStr "live") (2000 # 1)
                    eq_refl eq_refl ltac:(discriminate) eq_refl))
            eq_refl).
Defined.

(* ===================================================================== *)
(** ** C9: the GPX formatter *)
(* ===================================================================== *)

Lemma append_assoc (a b c : string) : (a +:+ b) +:+ c = a +:+ b +:+ c.
Proof.
  induction a as [|x a IH]; [reflexivity|].
  change (String x ((a +:+ b) +:+ c) = String x (a +:+ b +:+ c)).
  by rewrite IH.
Qed.

Lemma append_nil_r (a : string) : a +:+ EmptyString = a.
Proof.
  induction a as [|x a IH]; [reflexivity|].
  change (String x (a +:+ EmptyString) = String x a).
  by rewrite IH.
Qed.

Section Formatter.
Variable py_str : pyval -> string.

(** The loop appends one line for each coordinate, in the order of the
    input. *)
Lemma gpx_points_loop_spec (coords : list (pyval * pyval)) (gpx_points : string) :
  Main.app.gpx_points_loop py_str gpx_points (map pair_item coords) =
    Ok (gpx_points +:+ str_concat (map (trkpt_of py_str) coords)).
Proof.
  revert gpx_points. induction coords as [|[lat lng] rest IH];
    intros gpx_points; simpl.
  - by rewrite append_nil_r.
  - rewrite IH. unfold trkpt_of at 2. simpl. by rewrite append_assoc.
Qed.

Lemma create_gpx_string_spec (activity_name : string)
    (coords : list (pyval * pyval)) :
  Main.app.create_gpx_string py_str activity_name (PList (map pair_item coords)) =
    Ok (Main.app.gpx_document activity_name (str_concat (map (trkpt_of py_str) coords))).
Proof.
  unfold Main.app.create_gpx_string. simpl.
  by rewrite gpx_points_loop_spec.
Qed.
End Formatter.

Lemma snoc_char_append (buf : string) (c : ascii) (s : string) :
  snoc_char buf c +:+ s = buf +:+ String c s.
Proof. unfold snoc_char. by rewrite append_assoc. Qed.

(** Text up to the next tag is gathered as it is. *)
Lemma split_markup_text (t rest buf : string) :
  all_chars text_safe_char t = true ->
  split_markup (t +:+ rest) false false buf =
    split_markup rest false false (buf +:+ t).
Proof.
  revert buf. induction t as [|c t IH]; intros buf Hsafe.
  - by rewrite append_nil_r.
  - simpl in Hsafe. apply andb_true_iff in Hsafe as [Hc Ht].
    unfold text_safe_char in Hc. apply negb_true_iff, orb_false_iff in Hc as [H1 H2].
    change (String c t +:+ rest) with (String c (t +:+ rest)).
    simpl. rewrite H1, H2, IH by assumption.
    by rewrite snoc_char_append.
Qed.

(** Inside a quoted attribute value everything but the quote is gathered. *)
Lemma split_markup_value (v rest buf : string) :
  all_chars attr_safe_char v = true ->
  split_markup (v +:+ rest) true true buf =
    split_markup rest true true (buf +:+ v).
Proof.
  revert buf. induction v as [|c v IH]; intros buf Hsafe.
  - by rewrite append_nil_r.
  - simpl in Hsafe. apply andb_true_iff in Hsafe as [Hc Hv].
    unfold attr_safe_char in Hc.
    apply negb_true_iff, orb_false_iff in Hc as [Hc H3].
    apply orb_false_iff in Hc as [H1 H2].
    change (String c v +:+ rest) with (String c (v +:+ rest)).
    simpl. rewrite H1. simpl. rewrite IH by assumption.
    by rewrite snoc_char_append.
Qed.

Lemma read_attrs_value (v rest name value : string) :
  all_chars attr_safe_char v = true ->
  read_attrs (v +:+ String (ascii_of_nat 34) rest) (InAttrValue name value) =
    cons_opt (name, value +:+ v) (read_attrs rest (BetweenAttrs true)).
Proof.
  revert value. induction v as [|c v IH]; intros value Hsafe.
  - by rewrite append_nil_r.
  - simpl in Hsafe. apply andb_true_iff in Hsafe as [Hc Hv].
    unfold attr_safe_char in Hc.
    apply negb_true_iff, orb_false_iff in Hc as [Hc H3].
    apply orb_false_iff in Hc as [H1 H2].
    change (String c v +:+ String (ascii_of_nat 34) rest)
      with (String c (v +:+ String (ascii_of_nat 34) rest)).
    simpl. rewrite H1, H2, H3. simpl. rewrite IH by assumption.
    by rewrite snoc_char_append.
Qed.

Lemma str_app_cons (c : ascii) (s t : string) : String c s +:+ t = String c (s +:+ t).
Proof. reflexivity. Qed.

Lemma str_app_nil (t : string) : EmptyString +:+ t = t.
Proof. reflexivity. Qed.

Lemma string_nonempty_app_r (a b : string) :
  string_nonempty b = true -> string_nonempty (a +:+ b) = true.
Proof. destruct a; [by rewrite str_app_nil|reflexivity]. Qed.

Lemma split_markup_open (rest buf : string) :
  split_markup (String "<" rest) false false buf =
    if string_nonempty buf
    then cons_opt (false, buf) (split_markup rest true false EmptyString)
    else split_markup rest true false EmptyString.
Proof. reflexivity. Qed.

Lemma split_markup_close (rest buf : string) :
  split_markup (String ">" rest) true false buf =
    cons_opt (true, buf) (split_markup rest false false EmptyString).
Proof. reflexivity. Qed.

Lemma split_markup_quote (rest buf : string) (in_quote : bool) :
  split_markup (String (ascii_of_nat 34) rest) true in_quote buf =
    split_markup rest true (negb in_quote) (snoc_char buf (ascii_of_nat 34)).
Proof. by destruct in_quote. Qed.

(** Inside a tag and outside quotes, plain characters are gathered. *)
Lemma split_markup_tag_run (u rest buf : string) :
  all_chars tag_plain_char u = true ->
  split_markup (u +:+ rest) true false buf =
    split_markup rest true false (buf +:+ u).
Proof.
  revert buf. induction u as [|c u IH]; intros buf Hsafe.
  - by rewrite append_nil_r.
  - simpl in Hsafe. apply andb_true_iff in Hsafe as [Hc Hu].
    unfold tag_plain_char in Hc.
    apply negb_true_iff, orb_false_iff in Hc as [Hc H3].
    apply orb_false_iff in Hc as [H1 H2].
    rewrite str_app_cons. simpl. rewrite H1, H2, H3, IH by assumption.
    by rewrite snoc_char_append.
Qed.

Lemma cons_opt_cons_all {A} (x : A) (xs : list A) (o : option (list A)) :
  cons_opt x (cons_all xs o) = cons_all (x :: xs) o.
Proof. by destruct o. Qed.

Lemma cons_opt_as_cons_all {A} (x : A) (o : option (list A)) :
  cons_opt x o = cons_all [x] o.
Proof. by destruct o. Qed.

Lemma split_markup_trkpt (py_str : pyval -> string) (lat lng : pyval)
    (rest buf : string) :
  all_chars attr_safe_char (py_str lat) = true ->
  all_chars attr_safe_char (py_str lng) = true ->
  split_markup (Main.app.trkpt_line py_str lat lng +:+ rest) false false buf =
    cons_all (trkpt_pieces buf (py_str lat) (py_str lng))
      (split_markup rest false false nl).
Proof.
  intros Ha Hb. unfold Main.app.trkpt_line.
  rewrite !append_assoc.
  change ("  <trkpt lat=" +:+ dq +:+ py_str lat +:+ dq +:+ " lon=" +:+ dq
            +:+ py_str lng +:+ dq +:+ "></trkpt>" +:+ nl +:+ rest)
    with ("  " +:+ String "<" ("trkpt lat=" +:+ String (ascii_of_nat 34)
            (py_str lat +:+ String (ascii_of_nat 34) (" lon=" +:+
               String (ascii_of_nat 34) (py_str lng +:+
                 String (ascii_of_nat 34) (String ">" (String "<"
                   ("/trkpt" +:+ String ">" (nl +:+ rest))))))))).
  rewrite split_markup_text by reflexivity.
  rewrite split_markup_open, string_nonempty_app_r by reflexivity.
  rewrite split_markup_tag_run by reflexivity.
  rewrite split_markup_quote, split_markup_value by assumption.
  rewrite split_markup_quote. simpl negb.
  rewrite split_markup_tag_run by reflexivity.
  rewrite split_markup_quote, split_markup_value by assumption.
  rewrite split_markup_quote. simpl negb.
  rewrite split_markup_close, split_markup_open. simpl string_nonempty. cbv iota.
  rewrite split_markup_tag_run by reflexivity.
  rewrite split_markup_close.
  rewrite split_markup_text by reflexivity.
  rewrite ?str_app_nil.
  rewrite (cons_opt_as_cons_all (true, _) (split_markup rest _ _ _)),
    !cons_opt_cons_all.
  unfold trkpt_pieces, trkpt_tag, snoc_char.
  rewrite ?append_assoc, ?str_app_nil. reflexivity.
Qed.

Section Points.
Variable py_str : pyval -> string.

Lemma cons_all_app {A} (xs ys : list A) (o : option (list A)) :
  cons_all xs (cons_all ys o) = cons_all (xs ++ ys) o.
Proof. destruct o; simpl; [|reflexivity]. by rewrite app_assoc. Qed.

Lemma str_concat_cons (x : string) (l : list string) :
  str_concat (x :: l) = x +:+ str_concat l.
Proof. reflexivity. Qed.

Lemma split_markup_points (coords : list (pyval * pyval)) (rest : string) :
  Forall (formats_safely py_str) coords ->
  split_markup (str_concat (map (trkpt_of py_str) coords) +:+ rest) false false nl =
    cons_all (points_pieces py_str coords) (split_markup rest false false nl).
Proof.
  induction 1 as [|p coords [Ha Hb] _ IH].
  - simpl. rewrite str_app_nil. by destruct (split_markup rest false false nl).
  - cbn [map]. rewrite str_concat_cons, append_assoc. unfold trkpt_of at 1.
    rewrite split_markup_trkpt by assumption.
    rewrite IH, cons_all_app. reflexivity.
Qed.
End Points.

Lemma gpx_document_parts (activity_name gpx_points : string) :
  Main.app.gpx_document activity_name gpx_points =
    gpx_head +:+ activity_name +:+ gpx_mid +:+ gpx_points +:+ gpx_foot.
Proof. reflexivity. Qed.

Lemma split_markup_head (rest : string) :
  split_markup (gpx_head +:+ rest) false false EmptyString =
    cons_all head_pieces (split_markup rest false false EmptyString).
Proof.
  unfold gpx_head, dq, nl.
  repeat (rewrite str_app_cons || rewrite str_app_nil).
  simpl split_markup.
  rewrite (cons_opt_as_cons_all (true, _) (split_markup rest _ _ _)),
    !cons_opt_cons_all.
  f_equal.
Qed.

Lemma split_markup_mid (rest buf : string) :
  string_nonempty buf = true ->
  split_markup (gpx_mid +:+ rest) false false buf =
    cons_all ((false, buf) :: mid_pieces) (split_markup rest false false nl).
Proof.
  intros Hbuf. unfold gpx_mid, dq, nl.
  repeat (rewrite str_app_cons || rewrite str_app_nil).
  rewrite split_markup_open, Hbuf.
  simpl split_markup.
  change (snoc_char "" (ascii_of_nat 10)) with (String (ascii_of_nat 10) "").
  rewrite (cons_opt_as_cons_all (true, _) (split_markup rest _ _ _)),
    !cons_opt_cons_all.
  f_equal.
Qed.

Lemma split_markup_foot :
  split_markup gpx_foot false false nl = Some foot_pieces.
Proof. vm_compute. reflexivity. Qed.

Section Doc.
Variable py_str : pyval -> string.

Lemma all_space_nonempty (s : string) :
  all_chars is_space s = false -> string_nonempty s = true.
Proof. by destruct s. Qed.

Lemma split_markup_document (activity_name : string)
    (coords : list (pyval * pyval)) :
  all_chars text_safe_char activity_name = true ->
  all_chars is_space activity_name = false ->
  Forall (formats_safely py_str) coords ->
  split_markup
    (Main.app.gpx_document activity_name
       (str_concat (map (trkpt_of py_str) coords))) false false EmptyString
  = Some (head_pieces ++ (false, activity_name) :: mid_pieces
          ++ points_pieces py_str coords ++ foot_pieces).
Proof.
  intros Hsafe Hblank Hcoords.
  rewrite gpx_document_parts, split_markup_head.
  rewrite split_markup_text, str_app_nil by assumption.
  rewrite split_markup_mid by (by apply all_space_nonempty).
  rewrite split_markup_points by assumption.
  rewrite split_markup_foot. simpl. reflexivity.
Qed.
End Doc.

Lemma read_tag_trkpt (lat lon : string) :
  all_chars attr_safe_char lat = true ->
  all_chars attr_safe_char lon = true ->
  read_tag (trkpt_tag lat lon) =
    Some (TOpen "trkpt" [("lat"%string, lat); ("lon"%string, lon)]).
Proof.
  intros Ha Hb. unfold trkpt_tag, dq.
  repeat (rewrite str_app_cons || rewrite str_app_nil).
  unfold read_tag. simpl.
  rewrite read_attrs_value by assumption.
  simpl.
  rewrite read_attrs_value by assumption.
  simpl. reflexivity.
Qed.

Lemma read_tokens_app (a b : list (bool * string)) :
  read_tokens (a ++ b) =
    match read_tokens a, read_tokens b with
    | Some x, Some y => Some (x ++ y)
    | _, _ => None
    end.
Proof.
  induction a as [|[[] s] a IH]; simpl.
  - by destruct (read_tokens b).
  - destruct (read_tag s); [|reflexivity]. rewrite IH.
    by destruct (read_tokens a), (read_tokens b).
  - destruct (all_chars is_space s); [exact IH|]. rewrite IH.
    by destruct (read_tokens a), (read_tokens b).
Qed.

Section Tokens.
Variable py_str : pyval -> string.

Lemma read_tokens_points (coords : list (pyval * pyval)) :
  Forall (formats_safely py_str) coords ->
  read_tokens (points_pieces py_str coords) =
    Some (concat (map trkpt_tokens (map (formatted py_str) coords))).
Proof.
  induction 1 as [|p coords [Ha Hb] _ IH]; [reflexivity|].
  unfold points_pieces. cbn [map concat].
  fold (points_pieces py_str coords).
  rewrite read_tokens_app, IH.
  unfold trkpt_pieces. cbn [read_tokens].
  rewrite read_tag_trkpt by assumption.
  reflexivity.
Qed.
End Tokens.

Lemma build_points (points : list (string * string)) (rest : list token)
    (tag : string) (attrs : list (string * string)) (kids : list xml)
    (outer : open_elems) (roots : list xml) :
  build (concat (map trkpt_tokens points) ++ rest)
        ((tag, attrs, kids) :: outer) roots =
  build rest ((tag, attrs, rev (map trkpt_elem points) ++ kids) :: outer) roots.
Proof.
  revert kids. induction points as [|p points IH]; intros kids; [reflexivity|].
  cbn [map concat trkpt_tokens app build]. simpl String.eqb. cbv iota.
  rewrite IH. cbn [rev map]. rewrite <- app_assoc. reflexivity.
Qed.

Section Reading.
Variable py_str : pyval -> string.

Lemma read_gpx_document (activity_name : string)
    (coords : list (pyval * pyval)) :
  all_chars text_safe_char activity_name = true ->
  all_chars is_space activity_name = false ->
  Forall (formats_safely py_str) coords ->
  read_xml (Main.app.gpx_document activity_name
              (str_concat (map (trkpt_of py_str) coords))) =
    Some (gpx_tree activity_name (map (formatted py_str) coords)).
Proof.
  intros Hsafe Hblank Hcoords. unfold read_xml.
  rewrite split_markup_document by assumption.
  change (head_pieces ++ ?l) with (hd (true, EmptyString) head_pieces :: (tl head_pieces ++ l)).
  cbn [hd head_pieces is_declaration].
  change (is_char 63 "?") with true. cbv iota.
  rewrite read_tokens_app.
  change (read_tokens (tl head_pieces)) with (Some head_tokens).
  cbn [read_tokens]. rewrite Hblank.
  rewrite read_tokens_app.
  change (read_tokens mid_pieces) with (Some mid_tokens).
  rewrite read_tokens_app, read_tokens_points by assumption.
  change (read_tokens foot_pieces) with (Some foot_tokens).
  cbn [cons_opt].
  unfold head_tokens, mid_tokens. cbn [app build]. simpl String.eqb. cbv iota.
  rewrite build_points.
  unfold foot_tokens. cbn [build]. simpl String.eqb. cbv iota.
  cbn [rev app]. rewrite app_nil_r, rev_involutive.
  reflexivity.
Qed.
End Reading.

(** C9. The formatter touches nothing outside: it is a function of its two
    arguments.  For every list of coordinate pairs it returns the document
    with one [trkpt] line for each pair, in the order of the input, and that
    document reads back as GPX 1.1 with one track, one segment and one
    [trkpt] element for each pair, in that order, whenever the name and the
    formatted numbers hold no markup characters.  For the example of the
    specification, with the four floats written the way Python writes them,
    the two points carry [lat="45.0" lon="-122.0"] and
    [lat="45.1" lon="-122.1"].  [src/backend/app.py] has the same text. *)
Theorem gpx_formatter_one_trkpt_per_coordinate (py_str : pyval -> string) :
  py_str (PFloat (45 # 1)) = "45.0"%string ->
  py_str (PFloat (-122 # 1)) = "-122.0"%string ->
  py_str (PFloat (451 # 10)) = "45.1"%string ->
  py_str (PFloat (-1221 # 10)) = "-122.1"%string ->
  (forall activity_name coords,
     Main.app.create_gpx_string py_str activity_name (PList (map pair_item coords)) =
       Ok (Main.app.gpx_document activity_name
             (str_concat (map (trkpt_of py_str) coords))) /\
     Backend.app.create_gpx_string py_str activity_name (PList (map pair_item coords)) =
       Main.app.create_gpx_string py_str activity_name (PList (map pair_item coords))) /\
  (forall activity_name coords,
     all_chars text_safe_char activity_name = true ->
     all_chars is_space activity_name = false ->
     Forall (formats_safely py_str) coords ->
     exists doc,
       Main.app.create_gpx_string py_str activity_name (PList (map pair_item coords))
         = Ok doc /\
       read_xml doc = Some (gpx_tree activity_name (map (formatted py_str) coords))) /\
  exists doc,
    Main.app.create_gpx_string py_str "Activity 123" example_stream = Ok doc /\
    Backend.app.create_gpx_string py_str "Activity 123" example_stream = Ok doc /\
    read_xml doc =
      Some (gpx_tree "Activity 123"
              [("45.0"%string, "-122.0"%string); ("45.1"%string, "-122.1"%string)]).
Proof.
  intros H1 H2 H3 H4.
  assert (Hgeneral : forall activity_name coords,
     all_chars text_safe_char activity_name = true ->
     all_chars is_space activity_name = false ->
     Forall (formats_safely py_str) coords ->
     exists doc,
       Main.app.create_gpx_string py_str activity_name (PList (map pair_item coords))
         = Ok doc /\
       read_xml doc = Some (gpx_tree activity_name (map (formatted py_str) coords))).
  { intros activity_name coords Hname Hblank Hcoords. eexists.
    split; [apply create_gpx_string_spec|]. by apply read_gpx_document. }
  repeat apply conj.
  - intros activity_name coords.
    split; [apply create_gpx_string_spec | reflexivity].
  - exact Hgeneral.
  - destruct (Hgeneral "Activity 123"%string
                [(PFloat (45 # 1), PFloat (-122 # 1));
                 (PFloat (451 # 10), PFloat (-1221 # 10))])
      as (doc & Hdoc & Hread); [reflexivity | reflexivity | |].
    + repeat constructor; simpl; rewrite ?H1, ?H2, ?H3, ?H4; reflexivity.
    + exists doc. repeat apply conj; [exact Hdoc | exact Hdoc |].
      rewrite Hread. unfold formatted. simpl. by rewrite H1, H2, H3, H4.
Qed.

Lemma gpx_formatter_one_trkpt_per_coordinate_witness :
  exists doc,
    Main.app.create_gpx_string one_decimal_str "Activity 123" example_stream = Ok doc /\
    read_xml doc =
      Some (gpx_tree "Activity 123"
              [("45.0"%string, "-122.0"%string); ("45.1"%string, "-122.1"%string)]).
Proof.
  destruct (proj2 (proj2 (gpx_formatter_one_trkpt_per_coordinate one_decimal_str
                            eq_refl eq_refl eq_refl eq_refl)))
    as (doc & Hmain & _ & Hxml).
  exists doc. split; assumption.
Defined.

(* ===================================================================== *)
(** ** X1, X2: configuration and start-up *)
(* ===================================================================== *)

Lemma class_body_inv (py_int : string -> result Z) (environ : gmap string string)
    (cls : config.attributes) :
  config.class_body py_int environ = Ok cls ->
  config.STRAVA_CLIENT_ID cls = environ !! "STRAVA_CLIENT_ID" /\
  config.STRAVA_CLIENT_SECRET cls = environ !! "STRAVA_CLIENT_SECRET" /\
  config.GOOGLE_MAPS_API_KEY cls = environ !! "GOOGLE_MAPS_API_KEY".
Proof.
  unfold config.class_body, config.getenv.
  destruct (py_int _) as [radius|]; [|discriminate]. simpl.
  destruct (py_int _) as [sampling|]; [|discriminate]. simpl.
  intros H. inversion H. auto.
Qed.

(** X1. Once the class body of [src/config.py] has run, the list [missing]
    that [Config.validate] builds holds exactly those of
    [STRAVA_CLIENT_ID], [STRAVA_CLIENT_SECRET] and [GOOGLE_MAPS_API_KEY]
    that the environment leaves unset or sets to the empty string, in that
    order; [validate] returns when all three are set and raises
    [ValueError], with at least one name to report, otherwise. *)
Theorem validate_names_exactly_the_unset_variables
    (py_int : string -> result Z) (environ : gmap string string)
    (cls : config.attributes) :
  config.class_body py_int environ = Ok cls ->
  config.missing cls =
    List.filter (fun name => negb (is_set environ name)) required_variables /\
  (config.validate cls = Ok tt <->
   Forall (fun name => is_set environ name = true) required_variables) /\
  (config.validate cls = Ok tt \/
   config.validate cls = Raise ValueError /\
   exists first others, config.missing cls = first :: others).
Proof.
  intros H. apply class_body_inv in H as (H1 & H2 & H3).
  unfold config.validate, config.missing, is_set, required_variables.
  rewrite H1, H2, H3. simpl.
  destruct (opt_truthy (environ !! "STRAVA_CLIENT_ID")) eqn:Ea;
    destruct (opt_truthy (environ !! "STRAVA_CLIENT_SECRET")) eqn:Eb;
    destruct (opt_truthy (environ !! "GOOGLE_MAPS_API_KEY")) eqn:Ec; simpl;
    (split; [reflexivity|]); (split; [|eauto]); split; intros H;
    try discriminate; try reflexivity;
    try (repeat constructor; assumption);
    repeat match goal with
           | H : Forall _ (_ :: _) |- _ => inversion_clear H
           end;
    congruence.
Qed.

Lemma validate_names_exactly_the_unset_variables_witness :
  config.missing partial_attributes =
    ["STRAVA_CLIENT_SECRET"; "GOOGLE_MAPS_API_KEY"]%string.
Proof.
  rewrite (proj1 (validate_names_exactly_the_unset_variables decimal_int
                    partial_environ partial_attributes
                    ltac:(vm_compute; reflexivity))).
  vm_compute. reflexivity.
Defined.







(** Every sample list of a route starts with the first point of the
    route. *)
Lemma every_nth_nth {A} (step : nat) (l : list A) (skip i : nat) :
  (1 <= step)%nat ->
  nth_error (every_nth step skip l) i = nth_error l (skip + i * step).
Proof.
  intros Hstep. revert skip i. induction l as [|x rest IH]; intros skip i.
  - simpl. by destruct i, (skip + _)%nat.
  - destruct skip as [|k]; simpl.
    + destruct i as [|j]; simpl; [reflexivity|].
      rewrite IH. replace (step + j * step)%nat with (S (step - 1 + j * step)) by lia.
      reflexivity.
    + apply IH.
Qed.

Lemma every_nth_skip_all {A} (step skip : nat) (l : list A) :
  (length l <= skip)%nat -> every_nth step skip l = [].
Proof.
  revert skip. induction l as [|x rest IH]; intros skip H; [reflexivity|].
  simpl in *. destruct skip as [|k]; [lia|]. apply IH. lia.
Qed.

(** The step of the slice: at least 1, and at least [sample_distance // 100]
    on a route of more than two points. *)
Lemma sample_route_points_step (route_coords pts : list (pyval * pyval)) (sd : Z) :
  _sample_route_points route_coords sd = Ok pts ->
  exists step : nat,
    (1 <= step)%nat /\
    pts = map swap_pair (slice_step route_coords step) /\
    ((length route_coords <= 2)%nat -> step = 1%nat) /\
    (0 < sd -> (2 < length route_coords)%nat -> sd / 100 <= Z.of_nat step).
Proof.
  unfold _sample_route_points, py_floordiv.
  destruct (Z.leb_spec (Z.of_nat (length route_coords)) 2) as [Hl|Hl].
  - intros H. inversion H. exists 1%nat. repeat apply conj; try lia.
    f_equal. unfold slice_step. clear. induction route_coords; simpl; congruence.
  - destruct (Z.eqb_spec sd 0) as [|Hsd]; [discriminate|]. simpl.
    destruct (Z.eqb_spec (Z.of_nat (length route_coords) * 100 / sd) 0) as [|Hper];
      [discriminate|]. simpl.
    intros H. inversion H.
    exists (Z.to_nat (Z.max 1 (Z.of_nat (length route_coords) /
                                (Z.of_nat (length route_coords) * 100 / sd)))).
    repeat apply conj; try lia; [reflexivity|].
    intros Hpos _. rewrite Z2Nat.id by lia.
    set (len := Z.of_nat (length route_coords)) in *.
    assert (Hper0 : 0 <= len * 100 / sd) by (apply Z.div_pos; lia).
    assert (Hmul : sd * (len * 100 / sd) <= len * 100)
      by (apply Z.mul_div_le; lia).
    assert (Hsd100 : 100 * (sd / 100) <= sd) by (apply Z.mul_div_le; lia).
    assert (0 <= sd / 100) by (apply Z.div_pos; lia).
    assert (sd / 100 <= len / (len * 100 / sd)).
    { apply Z.div_le_lower_bound; [lia|]. nia. }
    lia.
Qed.

Lemma sample_route_points_head (p : pyval * pyval)
    (rest pts : list (pyval * pyval)) (sd : Z) :
  _sample_route_points (p :: rest) sd = Ok pts ->
  exists later, pts = swap_pair p :: later.
Proof.
  intros H. apply sample_route_points_step in H as (step & _ & -> & _).
  unfold slice_step. simpl. eauto.
Qed.

(** With a Google Maps client, a route with at least one point whose
    sampling succeeds is searched from its first point on, in the order of
    the sample points, and the run ends with a list after the last sample
    point or with [AttributeError] at an earlier one. *)
Lemma get_pois_for_route_run (env : Env) (cfg : Config) (p : pyval * pyval)
    (rest pts : list (pyval * pyval)) (w : world) :
  gmaps cfg = true ->
  _sample_route_points (p :: rest) (POI_ROUTE_SAMPLING_DISTANCE cfg) = Ok pts ->
  exists later unsearched r,
    pts = (swap_pair p :: later) ++ unsearched /\
    get_pois_for_route env cfg (p :: rest) w =
      (r, World (session w)
            (trace w ++ map (search_event cfg) (swap_pair p :: later))) /\
    ((exists pois, r = Ok pois) /\ unsearched = [] \/ r = Raise AttributeError).
Proof.
  intros Hg Hp.
  destruct (sample_route_points_head _ _ _ _ Hp) as (tail & Hpts).
  rewrite (get_pois_for_route_searches env cfg (p :: rest) pts w eq_refl Hg Hp).
  destruct (search_samples_outcome env cfg pts [] w)
    as (searched & unsearched & r & Hsplit & -> & Hr).
  destruct searched as [|q later].
  - destruct Hr as [[_ ->]|[_ Hne]]; [|by destruct Hne].
    simpl in Hsplit. congruence.
  - assert (q = swap_pair p) by (rewrite Hpts in Hsplit; simpl in Hsplit; congruence).
    subst q. exists later, unsearched.
    destruct Hr as [[(found & ->) ->]|[-> _]].
    + exists (Ok (map snd found)). split; [assumption|]. split; [reflexivity|].
      left. eauto.
    + exists (Raise AttributeError). split; [assumption|]. split; [reflexivity|].
      by right.
Qed.


(* ===================================================================== *)
(** ** X3, X4: the Strava clients *)
(* ===================================================================== *)

Lemma py_get_raises (v : pyval) (k : string) (d : pyval) (e : exn) :
  py_get v k d = Raise e -> e = AttributeError.
Proof. destruct v; simpl; congruence. Qed.

Lemma py_getitem_raises (v : pyval) (k : string) (e : exn) :
  py_getitem v k = Raise e -> e = KeyError \/ e = TypeError.
Proof.
  destruct v; simpl; try (intros H; inversion H; auto; fail).
  destruct (assoc k kv); intros H; inversion H; auto.
Qed.

Lemma py_iter_raises (v : pyval) (e : exn) : py_iter v = Raise e -> e = TypeError.
Proof. destruct v; simpl; congruence. Qed.

(** X3. Each method of the client of [src/strava_client.py] sends the
    request that the method of the same name in
    [src/backend/strava_client.py] sends, to the same address and with the
    same payload, but gives up after 10 seconds (15 for a stream) where the
    other waits without limit; [get_activities] first caps [per_page] at
    200.  Each of the two makes this one request and nothing else.  When
    Strava answers the two requests alike, the two methods end alike, except
    that a [RequestException] comes out of [src/strava_client.py] as
    [StravaAPIError].  So no method of [src/strava_client.py] lets a
    [RequestException] out, whatever Strava answers. *)
Theorem main_client_wraps_what_backend_client_raises (env : Env)
    (client_id client_secret : string) (w : world) :
  (forall code,
     let payload := Main.strava_client.exchange_payload client_id client_secret code in
     wraps_backend_method env w
       (EvPost Main.strava_client.TOKEN_URL payload (Some 10))
       (EvPost Backend.strava_client.TOKEN_URL payload None)
       (Main.strava_client.exchange_code_for_token env client_id client_secret code w)
       (Backend.strava_client.exchange_code_for_token env client_id client_secret
          code w)) /\
  (forall refresh_token,
     let payload :=
       Main.strava_client.refresh_payload client_id client_secret refresh_token in
     wraps_backend_method env w
       (EvPost Main.strava_client.TOKEN_URL payload (Some 10))
       (EvPost Backend.strava_client.TOKEN_URL payload None)
       (Main.strava_client.refresh_access_token env client_id client_secret
          refresh_token w)
       (Backend.strava_client.refresh_access_token env client_id client_secret
          refresh_token w)) /\
  (forall access_token page per_page,
     wraps_backend_method env w
       (activities_page_request (Some 10) access_token page (Z.min per_page 200))
       (activities_page_request None access_token page (Z.min per_page 200))
       (Main.strava_client.get_activities env access_token page per_page w)
       (Backend.strava_client.get_activities env access_token page
          (Z.min per_page 200) w)) /\
  (forall activity_id access_token,
     wraps_backend_method env w
       (EvGet (Main.strava_client.stream_url activity_id) access_token
          Main.strava_client.stream_params (Some 15))
       (EvGet (Backend.strava_client.stream_url activity_id) access_token
          Backend.strava_client.stream_params None)
       (Main.strava_client.get_activity_stream env activity_id access_token w)
       (Backend.strava_client.get_activity_stream env activity_id access_token w)) /\
  (forall code refresh_token access_token page per_page activity_id,
     fst (Main.strava_client.exchange_code_for_token env client_id client_secret
            code w) <> Raise RequestException /\
     fst (Main.strava_client.refresh_access_token env client_id client_secret
            refresh_token w) <> Raise RequestException /\
     fst (Main.strava_client.get_activities env access_token page per_page w)
       <> Raise RequestException /\
     fst (Main.strava_client.get_activity_stream env activity_id access_token w)
       <> Raise RequestException).
Proof.
  assert (Hpost : forall (payload : list (string * pyval)),
    wraps_backend_method env w
      (EvPost Main.strava_client.TOKEN_URL payload (Some 10))
      (EvPost Backend.strava_client.TOKEN_URL payload None)
      (try_except
         (response <~ requests_post env Main.strava_client.TOKEN_URL payload
                        (Some 10) ;;
          raise_for_status response ;;; ret (snd response))
         except_RequestException (fun _ => raise StravaAPIError) w)
      ((response <~ requests_post env Backend.strava_client.TOKEN_URL payload None ;;
        raise_for_status response ;;; ret (snd response)) w)).
  { intros payload.
    unfold wraps_backend_method, answer_to, try_except, bind, requests_post,
      raise_for_status, ret, raise.
    change Backend.strava_client.TOKEN_URL with Main.strava_client.TOKEN_URL.
    repeat apply conj.
    - destruct (env_post env (trace w) _ _ _) as [|c j]; simpl; [reflexivity|].
      by destruct ((400 <=? c) && (c <? 600)).
    - destruct (env_post env (trace w) _ _ None) as [|c j]; simpl; [reflexivity|].
      by destruct ((400 <=? c) && (c <? 600)).
    - intros ->.
      destruct (env_post env (trace w) _ _ _) as [|c j]; simpl; [reflexivity|].
      by destruct ((400 <=? c) && (c <? 600)). }
  assert (Hpost_no : forall (payload : list (string * pyval)),
    fst (try_except
           (response <~ requests_post env Main.strava_client.TOKEN_URL payload
                          (Some 10) ;;
            raise_for_status response ;;; ret (snd response))
           except_RequestException (fun _ => raise StravaAPIError) w)
      <> Raise RequestException).
  { intros payload.
    unfold try_except, bind, requests_post, raise_for_status, ret, raise.
    destruct (env_post env (trace w) _ _ _) as [|c j]; simpl; [discriminate|].
    destruct ((400 <=? c) && (c <? 600)); discriminate. }
  repeat apply conj.
  - intros code. apply Hpost.
  - intros rt. apply Hpost.
  - intros access_token page per_page.
    unfold wraps_backend_method, activities_page_request, answer_to,
      Main.strava_client.get_activities,
      Backend.strava_client.get_activities, try_except, bind, requests_get,
      raise_for_status, ret, raise.
    change Backend.strava_client.API_URL with Main.strava_client.API_URL.
    unfold Main.strava_client.get_api_headers, Backend.strava_client.get_api_headers.
    repeat apply conj.
    + destruct (env_get env (trace w) _ _ _ _) as [|c j]; simpl; [reflexivity|].
      by destruct ((400 <=? c) && (c <? 600)).
    + destruct (env_get env (trace w) _ _ _ None) as [|c j]; simpl; [reflexivity|].
      by destruct ((400 <=? c) && (c <? 600)).
    + intros ->.
      destruct (env_get env (trace w) _ _ _ _) as [|c j]; simpl; [reflexivity|].
      by destruct ((400 <=? c) && (c <? 600)).
  - intros activity_id access_token.
    unfold wraps_backend_method, answer_to, Main.strava_client.get_activity_stream,
      Backend.strava_client.get_activity_stream, try_except, bind, requests_get,
      raise_for_status, ret, raise, lift.
    change (Backend.strava_client.stream_url activity_id)
      with (Main.strava_client.stream_url activity_id).
    change Backend.strava_client.stream_params with Main.strava_client.stream_params.
    unfold Main.strava_client.get_api_headers, Backend.strava_client.get_api_headers.
    repeat apply conj.
    + destruct (env_get env (trace w) _ _ _ _) as [|c j]; simpl; [reflexivity|].
      destruct ((400 <=? c) && (c <? 600)); simpl; [reflexivity|].
      destruct (py_get j "latlng" (PDict [])) as [latlng|e] eqn:H1; simpl.
      * destruct (py_get latlng "data" (PList [])) as [v|e] eqn:H2; simpl;
          [reflexivity|].
        by rewrite (py_get_raises _ _ _ _ H2).
      * by rewrite (py_get_raises _ _ _ _ H1).
    + destruct (env_get env (trace w) _ _ _ None) as [|c j]; simpl; [reflexivity|].
      destruct ((400 <=? c) && (c <? 600)); simpl; [reflexivity|].
      destruct (py_get j "latlng" (PDict [])) as [latlng|e]; simpl; [|reflexivity].
      by destruct (py_get latlng "data" (PList [])).
    + intros ->.
      destruct (env_get env (trace w) _ _ _ _) as [|c j]; simpl; [reflexivity|].
      destruct ((400 <=? c) && (c <? 600)); simpl; [reflexivity|].
      destruct (py_get j "latlng" (PDict [])) as [latlng|e] eqn:H1; simpl.
      * destruct (py_get latlng "data" (PList [])) as [v|e] eqn:H2; simpl;
          [reflexivity|].
        by rewrite (py_get_raises _ _ _ _ H2).
      * by rewrite (py_get_raises _ _ _ _ H1).
  - intros code rt tok page per_page id. repeat apply conj.
    + apply Hpost_no.
    + apply Hpost_no.
    + unfold Main.strava_client.get_activities, try_except, bind, requests_get,
        raise_for_status, ret, raise.
      destruct (env_get env (trace w) _ _ _ _) as [|c j]; simpl; [discriminate|].
      destruct ((400 <=? c) && (c <? 600)); discriminate.
    + unfold Main.strava_client.get_activity_stream, try_except, bind, requests_get,
        raise_for_status, ret, raise, lift.
      destruct (env_get env (trace w) _ _ _ _) as [|c j]; simpl; [discriminate|].
      destruct ((400 <=? c) && (c <? 600)); simpl; [discriminate|].
      destruct (py_get j "latlng" (PDict [])) as [latlng|e] eqn:H1; simpl.
      * destruct (py_get latlng "data" (PList [])) as [v|e] eqn:H2; simpl;
          [discriminate|].
        by rewrite (py_get_raises _ _ _ _ H2).
      * by rewrite (py_get_raises _ _ _ _ H1).
Qed.

(** *** The authorization URL *)

Lemma str_replace_app (a b : ascii) (x y : string) :
  str_replace a b (x +:+ y) = str_replace a b x +:+ str_replace a b y.
Proof.
  induction x as [|c x IH]; [reflexivity|].
  rewrite str_app_cons. simpl. rewrite IH. reflexivity.
Qed.

Lemma quote_blank_chars (s : string) :
  str_replace " " "+" (quote is_blank s) = quote_plus_chars s.
Proof.
  induction s as [|c s IH]; [reflexivity|].
  simpl. rewrite str_replace_app, IH. f_equal.
  destruct c as [[] [] [] [] [] [] [] []]; vm_compute; reflexivity.
Qed.

Lemma quote_no_blank (s : string) :
  has_blank s = false -> quote (fun _ => false) s = quote_plus_chars s.
Proof.
  induction s as [|c s IH]; [reflexivity|].
  simpl. intros H. apply orb_false_iff in H as [Hc Hs]. rewrite IH by assumption.
  f_equal. unfold quote_plus_char. rewrite Hc, orb_false_r. reflexivity.
Qed.

Lemma quote_plus_as_chars (s : string) : quote_plus s = quote_plus_chars s.
Proof.
  unfold quote_plus. destruct (has_blank s) eqn:H.
  - apply quote_blank_chars.
  - by apply quote_no_blank.
Qed.

Lemma all_chars_app (p : ascii -> bool) (a b : string) :
  all_chars p (a +:+ b) = all_chars p a && all_chars p b.
Proof.
  induction a as [|c a IH]; [reflexivity|].
  rewrite str_app_cons. simpl. by rewrite IH, andb_assoc.
Qed.

Lemma quote_plus_escaped (s : string) : all_chars escaped_char (quote_plus s) = true.
Proof.
  rewrite quote_plus_as_chars. induction s as [|c s IH]; [reflexivity|].
  simpl. rewrite all_chars_app, IH, andb_true_r.
  destruct c as [[] [] [] [] [] [] [] []]; vm_compute; reflexivity.
Qed.

Lemma unquote_plus_char (c : ascii) (rest : string) :
  unquote_plus (quote_plus_char c +:+ rest) = String c (unquote_plus rest).
Proof.
  unfold unquote_plus.
  destruct c as [[] [] [] [] [] [] [] []]; reflexivity.
Qed.

Lemma unquote_plus_quote_plus (s : string) : unquote_plus (quote_plus s) = s.
Proof.
  rewrite quote_plus_as_chars. induction s as [|c s IH]; [reflexivity|].
  simpl. by rewrite unquote_plus_char, IH.
Qed.

Lemma split_on_run (sep : ascii) (a rest buf : string) :
  all_chars (differs_from sep) a = true ->
  split_on sep (a +:+ rest) buf = split_on sep rest (buf +:+ a).
Proof.
  revert buf. induction a as [|c a IH]; intros buf H.
  - by rewrite append_nil_r.
  - simpl in H. apply andb_true_iff in H as [Hc Ha].
    rewrite str_app_cons. simpl.
    unfold differs_from in Hc. apply negb_true_iff in Hc. rewrite Hc.
    rewrite IH by assumption. by rewrite snoc_char_append.
Qed.

Lemma split_on_sep (sep : ascii) (rest buf : string) :
  split_on sep (String sep rest) buf = buf :: split_on sep rest EmptyString.
Proof. simpl. by rewrite Ascii.eqb_refl. Qed.

Lemma cut_at_run (sep : ascii) (a rest buf : string) :
  all_chars (differs_from sep) a = true ->
  cut_at sep (a +:+ rest) buf = cut_at sep rest (buf +:+ a).
Proof.
  revert buf. induction a as [|c a IH]; intros buf H.
  - by rewrite append_nil_r.
  - simpl in H. apply andb_true_iff in H as [Hc Ha].
    rewrite str_app_cons. simpl.
    unfold differs_from in Hc. apply negb_true_iff in Hc. rewrite Hc.
    rewrite IH by assumption. by rewrite snoc_char_append.
Qed.

Lemma cut_at_sep (sep : ascii) (rest buf : string) :
  cut_at sep (String sep rest) buf = (buf, rest).
Proof. simpl. by rewrite Ascii.eqb_refl. Qed.

Lemma all_chars_impl (p q : ascii -> bool) (s : string) :
  (forall c, p c = true -> q c = true) ->
  all_chars p s = true -> all_chars q s = true.
Proof.
  intros Hpq. induction s as [|c s IH]; [reflexivity|]. simpl.
  intros H. apply andb_true_iff in H as [Hc Hs]. by rewrite Hpq, IH.
Qed.

Lemma quote_plus_differs (sep : ascii) (s : string) :
  escaped_char sep = false ->
  all_chars (differs_from sep) (quote_plus s) = true.
Proof.
  intros Hsep. eapply all_chars_impl; [|apply quote_plus_escaped].
  intros c Hc. unfold differs_from. apply negb_true_iff.
  destruct (Ascii.eqb_spec c sep); [congruence|reflexivity].
Qed.

Lemma encoded_pair_differs (kv : string * string) :
  all_chars (differs_from "&") (encoded_pair kv) = true.
Proof.
  unfold encoded_pair. rewrite !all_chars_app.
  rewrite !quote_plus_differs by reflexivity. reflexivity.
Qed.

Lemma cut_encoded_pair (kv : string * string) :
  cut_at "=" (encoded_pair kv) EmptyString = (quote_plus (fst kv), quote_plus (snd kv)).
Proof.
  unfold encoded_pair.
  rewrite cut_at_run by (by apply quote_plus_differs).
  change ("=" +:+ ?x) with (String "=" x). by rewrite cut_at_sep, str_app_nil.
Qed.

Lemma read_query_urlencode (kv : string * string) (query : list (string * string)) :
  read_query (urlencode (kv :: query)) = kv :: query.
Proof.
  unfold read_query, urlencode. fold encoded_pair.
  revert kv. induction query as [|kv' query IH]; intros kv.
  - change (str_join "&" (map encoded_pair [kv])) with (encoded_pair kv).
    rewrite <- (append_nil_r (encoded_pair kv)) at 1.
    rewrite split_on_run by apply encoded_pair_differs.
    simpl. rewrite str_app_nil, cut_encoded_pair, !unquote_plus_quote_plus.
    by destruct kv.
  - change (str_join "&" (map encoded_pair (kv :: kv' :: query)))
      with (encoded_pair kv +:+ "&" +:+ str_join "&" (map encoded_pair (kv' :: query))).
    rewrite split_on_run by apply encoded_pair_differs.
    change ("&" +:+ ?x) with (String "&" x). rewrite split_on_sep.
    rewrite map_cons, IH.
    rewrite str_app_nil, cut_encoded_pair, !unquote_plus_quote_plus. by destruct kv.
Qed.

(** X4. Whatever bytes the client id and the redirect URI hold (blanks,
    [&], [=], [?], [#], [%], bytes of non-ASCII characters), the URL that
    [get_authorization_url] builds reads back as the authorize address of
    Strava followed by exactly its five parameters, in the order of the
    dict, with the values as they were given: no value can add to or change
    the parameters.  Both clients build the same URL, and [strava_auth]
    redirects to it and touches nothing else.  In general an escaped text
    holds only unreserved characters, [%] and [+], and unescapes to the
    text. *)
Theorem authorization_url_reads_back (cfg : Config) (redirect_uri : string)
    (w : world) :
  let client_id := STRAVA_CLIENT_ID cfg in
  let url := Main.strava_client.get_authorization_url client_id redirect_uri in
  read_url url =
    (Main.strava_client.AUTHORIZE_URL, authorization_params client_id redirect_uri) /\
  Backend.strava_client.get_authorization_url client_id redirect_uri = url /\
  Main.app.strava_auth cfg redirect_uri w = (Ok (Redirect url), w) /\
  Backend.app.strava_auth client_id redirect_uri w = (Ok (Redirect url), w) /\
  reply_status (Redirect url) = 302 /\
  (forall s, unquote_plus (quote_plus s) = s /\
             all_chars escaped_char (quote_plus s) = true).
Proof.
  intros client_id url. repeat apply conj; try reflexivity.
  - subst url. unfold read_url, Main.strava_client.get_authorization_url. cbv zeta.
    rewrite cut_at_run by reflexivity.
    change ("?" +:+ ?x) with (String "?" x). rewrite cut_at_sep.
    by rewrite read_query_urlencode.
  - intros s. split; [apply unquote_plus_quote_plus|apply quote_plus_escaped].
Qed.

(* ===================================================================== *)
(** ** X5 to X12: logging in, the session, logging out *)
(* ===================================================================== *)

Section Callback.
Variable env : Env.
Variable cfg : Config.









Lemma auth_status_answer (w : world) (tok : pyval) (x : Q) :
  session w !! "strava_token" = Some tok ->
  expires_at_of tok = Some x ->
  Main.app.auth_status env w =
    (Ok (authenticated (Qlt_b (env_time env (trace w)) x)), emit EvTime w).
Proof.
  intros Hs He. apply expires_at_of_inv in He as (e & He & Hn).
  unfold Main.app.auth_status, bind, get_session, lift, time_time, py_gt_float, ret.
  simpl. rewrite Hs, He. simpl. rewrite Hn.
  by destruct (Qlt_b _ _).
Qed.

Lemma gates_dispatch_live (w : world) (tok : pyval) (x : Q) :
  session w !! "strava_token" = Some tok ->
  expires_at_of tok = Some x ->
  (env_time env (trace w) <= x)%Q ->
  dispatches_without_refresh (Main.app.auth_required env cfg) w /\
  dispatches_without_refresh (backend_auth_required env cfg) w.
Proof.
  intros Hs He Hx. split; exists (emit EvTime w), [EvTime];
    repeat apply conj; try reflexivity; intros f.
  - by apply main_gate_live with (tok := tok) (x := x).
  - by apply backend_gate_live with (tok := tok) (x := x).
Qed.

(** Without a numeric [expires_at] the comparison with the clock raises, in
    the two decorators and in [auth_status] alike, before the wrapped view
    is looked at. *)
Lemma bad_expiry_raises (w : world) (tok : pyval) :
  session w !! "strava_token" = Some tok ->
  expires_at_of tok = None ->
  exists e w',
    (e = KeyError \/ e = TypeError) /\
    session w' = session w /\
    (trace w' = trace w \/ trace w' = trace w ++ [EvTime]) /\
    (forall f, Main.app.auth_required env cfg f w = (Raise e, w')) /\
    (forall f, backend_auth_required env cfg f w = (Raise e, w')) /\
    Main.app.auth_status env w = (Raise e, w').
Proof.
  intros Hs He. unfold expires_at_of in He.
  destruct (py_getitem tok "expires_at") as [v|e] eqn:Hg.
  - exists TypeError, (emit EvTime w). repeat apply conj; auto; try intros f;
      unfold backend_auth_required, Backend.app.auth_required, open_session,
        Main.app.auth_required, Main.app.auth_status, bind, get_session, lift,
        time_time, py_lt_float, py_gt_float;
      simpl; rewrite Hs, Hg; simpl; by rewrite He.
  - exists e, w. repeat apply conj; auto; try intros f;
      try (unfold backend_auth_required, Backend.app.auth_required, open_session,
             Main.app.auth_required, Main.app.auth_status, bind, get_session, lift;
           simpl; by rewrite Hs, Hg).
    by apply py_getitem_raises in Hg.
Qed.
End Callback.





(** X7. For a session token with a numeric [expires_at], [auth_status]
    reads the clock once, leaves the session alone and answers
    authenticated exactly when the clock is strictly before [expires_at];
    whenever it answers authenticated, both decorators let a request through
    without a refresh.  The two comparisons do not meet at the boundary: at
    the instant [expires_at] itself, [auth_status] answers not
    authenticated, while both decorators still let the request through
    without a refresh. *)
Theorem status_is_strict_where_the_gate_is_not (env : Env) (cfg : Config)
    (w : world) (tok : pyval) (x : Q) :
  session w !! "strava_token" = Some tok ->
  expires_at_of tok = Some x ->
  let now := env_time env (trace w) in
  (exists b,
     Main.app.auth_status env w = (Ok (authenticated b), emit EvTime w) /\
     (b = true <-> (now < x)%Q)) /\
  ((now < x)%Q ->
   dispatches_without_refresh (Main.app.auth_required env cfg) w /\
   dispatches_without_refresh (backend_auth_required env cfg) w) /\
  ((now == x)%Q ->
   Main.app.auth_status env w = (Ok (authenticated false), emit EvTime w) /\
   dispatches_without_refresh (Main.app.auth_required env cfg) w /\
   dispatches_without_refresh (backend_auth_required env cfg) w).
Proof.
  intros Hs He now. split; [|split].
  - eexists. split; [by apply auth_status_answer with (tok := tok)|].
    apply Qlt_b_true.
  - intros Hlt. apply gates_dispatch_live with (tok := tok) (x := x); auto.
    by apply Qlt_le_weak.
  - intros Heq.
    assert (Hle : (x <= now)%Q) by (rewrite Heq; apply Qle_refl).
    assert (Hge : (now <= x)%Q) by (rewrite Heq; apply Qle_refl).
    split.
    + rewrite (auth_status_answer env w tok x Hs He).
      apply Qlt_b_false in Hle. subst now. by rewrite Hle.
    + by apply (gates_dispatch_live env cfg w tok x Hs He).
Qed.

Lemma status_is_strict_where_the_gate_is_not_witness :
  Main.app.auth_status offline_env
    (world_with_token (sample_token "live" "r1" 1000)) =
    (Ok (authenticated false),
     emit EvTime (world_with_token (sample_token "live" "r1" 1000))) /\
  dispatches_without_refresh (Main.app.auth_required offline_env sample_cfg)
    (world_with_token (sample_token "live" "r1" 1000)) /\
  dispatches_without_refresh (backend_auth_required offline_env sample_cfg)
    (world_with_token (sample_token "live" "r1" 1000)).
Proof.
  apply (proj2 (proj2 (status_is_strict_where_the_gate_is_not offline_env sample_cfg
                         (world_with_token (sample_token "live" "r1" 1000))
                         (sample_token "live" "r1" 1000) (1000 # 1)
                         eq_refl eq_refl))).
  reflexivity.
Defined.




(** X9. A session whose token has no numeric [expires_at] (the callback
    stores whatever JSON the token end point sent with a good status) blocks
    every protected end point: the comparison with the clock raises
    [KeyError] or [TypeError] outside any [try], Flask answers 500, the
    wrapped view is not run, Strava is not called, and the session keeps the
    token, so the next request fails the same way; [auth_status] raises the
    same exception. *)
Theorem token_without_expiry_blocks_every_request (env : Env) (cfg : Config)
    (py_str : pyval -> string) (round_float : Q -> Q)
    (endpoint : M response) (w : world) (tok : pyval) :
  protected_endpoint env cfg py_str round_float endpoint ->
  session w !! "strava_token" = Some tok ->
  expires_at_of tok = None ->
  exists e w',
    (e = KeyError \/ e = TypeError) /\
    endpoint w = (Raise e, w') /\
    flask_call endpoint w = (internal_server_error, w') /\
    Main.app.auth_status env w = (Raise e, w') /\
    session w' = session w /\
    (trace w' = trace w \/ trace w' = trace w ++ [EvTime]).
Proof.
  intros Hp Hs He.
  destruct (bad_expiry_raises env cfg w tok Hs He)
    as (e & w' & He' & Hsess & Htr & Hm & Hb & Hst).
  exists e, w'.
  assert (Hend : endpoint w = (Raise e, w')).
  { destruct (protected_endpoint_inv env cfg py_str round_float endpoint Hp)
      as (body & _ & [-> | ->]); [apply Hm|apply Hb]. }
  repeat apply conj; try assumption.
  unfold flask_call. by rewrite Hend.
Qed.

Lemma token_without_expiry_blocks_every_request_witness :
  exists w',
    flask_call (Main.app.get_activities online_env sample_cfg (fun q => q))
      (world_with_token error_object) = (internal_server_error, w') /\
    session w' = session (world_with_token error_object).
Proof.
  destruct (token_without_expiry_blocks_every_request online_env sample_cfg
              one_decimal_str (fun q => q)
              (Main.app.get_activities online_env sample_cfg (fun q => q))
              (world_with_token error_object) error_object
              (protected_activities _ _ _ _) eq_refl eq_refl)
    as (e & w' & _ & _ & Hf & _ & Hs & _).
  exists w'. split; assumption.
Defined.

(** X10. When the session token is past its expiry and has no
    ["refresh_token"], the two decorators part: in [src/app.py] the
    [KeyError] is not a [StravaAPIError], so it leaves the decorator and the
    session stays as it is; in [src/backend/app.py] it is caught with
    everything else, the session is cleared and the answer is 401.  Neither
    sends a request, and neither runs the wrapped view. *)
Theorem expired_token_without_refresh_token (env : Env) (cfg : Config)
    (w : world) (tok : pyval) (x : Q) :
  session w !! "strava_token" = Some tok ->
  expires_at_of tok = Some x ->
  (x < env_time env (trace w))%Q ->
  py_getitem tok "refresh_token" = Raise KeyError ->
  (forall f, Main.app.auth_required env cfg f w =
               (Raise KeyError, World (session w) (trace w ++ [EvTime]))) /\
  (forall f, backend_auth_required env cfg f w =
               (Ok (Resp 401 (error_body Backend.app.msg_reauthenticate)),
                World ∅ (trace w ++ [EvTime]))).
Proof.
  intros Hs He Hx Hr. apply expires_at_of_inv in He as (v & He & Hn).
  apply Qlt_b_true in Hx. split; intros f.
  - unfold Main.app.auth_required, try_except, bind, get_session, lift,
      time_time, py_lt_float.
    simpl. rewrite Hs, He. simpl. rewrite Hn, Hx, Hr. reflexivity.
  - unfold backend_auth_required, Backend.app.auth_required, try_except, bind,
      open_session, session_clear_all, session_clear, lift, time_time, py_lt_float.
    simpl. rewrite Hs, He. simpl. rewrite Hn, Hx, Hr. reflexivity.
Qed.

Lemma expired_token_without_refresh_token_witness :
  Main.app.get_activities online_env sample_cfg (fun q => q)
    (world_with_token token_without_refresh) =
    (Raise KeyError,
     World {["strava_token"%string := token_without_refresh]} [EvTime]).
Proof.
  apply (proj1 (expired_token_without_refresh_token online_env sample_cfg
                  (world_with_token token_without_refresh)
                  token_without_refresh (10 # 1)
                  eq_refl eq_refl eq_refl eq_refl)).
Defined.

(** X11. As long as no refresh is due (the session holds no token, or a
    token without a numeric [expires_at], or a token that the clock has not
    passed), the two decorators are one: for every wrapped view they leave
    the same session and the same trace, and they return the same result,
    or two 401 answers that differ in their text only.  When a refresh is
    due they send different requests, [src/app.py] with a time-out of 10
    seconds and [src/backend/app.py] without one. *)
Theorem gates_differ_only_in_their_401_text (env : Env) (cfg : Config)
    (f : M response) (w : world) :
  (forall tok x,
     session w !! "strava_token" = Some tok ->
     expires_at_of tok = Some x ->
     (env_time env (trace w) <= x)%Q) ->
  same_but_for_401_text (Main.app.auth_required env cfg f w)
                        (backend_auth_required env cfg f w) /\
  forall rt, token_request cfg rt <> backend_token_request cfg rt.
Proof.
  intros Hlive. split; [|discriminate]. unfold same_but_for_401_text.
  destruct (session w !! "strava_token") as [tok|] eqn:Hs.
  2:{ rewrite main_gate_no_token, backend_gate_no_token by assumption.
      split; [reflexivity|]. right. do 2 eexists. repeat split; reflexivity. }
  destruct (expires_at_of tok) as [x|] eqn:He.
  2:{ destruct (bad_expiry_raises env cfg w tok Hs He)
        as (e & w' & _ & _ & _ & Hm & Hb & _).
      rewrite Hm, Hb. auto. }
  pose proof (Hlive tok x eq_refl He) as Hx.
  rewrite (main_gate_live env cfg f w tok x),
    (backend_gate_live env cfg f w tok x) by assumption. auto.
Qed.

Lemma gates_differ_only_in_their_401_text_witness :
  same_but_for_401_text
    (Main.app.auth_required offline_env sample_cfg (ret (Resp 200 PNone))
       (world_with_token (sample_token "live" "r1" 2000)))
    (backend_auth_required offline_env sample_cfg (ret (Resp 200 PNone))
       (world_with_token (sample_token "live" "r1" 2000))).
Proof.
  apply (proj1 (gates_differ_only_in_their_401_text offline_env sample_cfg
           (ret (Resp 200 PNone)) (world_with_token (sample_token "live" "r1" 2000))
           ltac:(intros tok x Hs He; vm_compute in Hs; inversion Hs; subst tok;
                 vm_compute in He; inversion He; discriminate))).
Defined.

Lemma count_refresh_app (a b : list event) :
  count_refresh (a ++ b) = (count_refresh a + count_refresh b)%nat.
Proof. unfold count_refresh. by rewrite filter_app, length_app. Qed.

(** X12. What a refresh stores serves the next request: after a request to
    a protected view whose decorator refreshed an expired token, the session
    holds the new token and the trace one more refresh request; when the
    clock has not passed the new token at the next request, the decorator
    lets that request through without another refresh.  Both decorators,
    each with the answer to its own refresh request. *)
Theorem refreshed_token_serves_the_next_request (env : Env) (cfg : Config)
    (body : M response) (w : world) (tok rt new_token_info : pyval)
    (x x' : Q) (c : Z) :
  uses_session_token body ->
  session w !! "strava_token" = Some tok ->
  expires_at_of tok = Some x ->
  py_getitem tok "refresh_token" = Ok rt ->
  (x < env_time env (trace w))%Q ->
  http_failed (Response c new_token_info) = false ->
  expires_at_of new_token_info = Some x' ->
  (refresh_answer env cfg w rt = Response c new_token_info ->
   forall w1,
     w1 = snd (Main.app.auth_required env cfg body w) ->
     (env_time env (trace w1) <= x')%Q ->
     session w1 !! "strava_token" = Some new_token_info /\
     count_refresh (trace w1) = S (count_refresh (trace w)) /\
     forall f, Main.app.auth_required env cfg f w1 = f (emit EvTime w1)) /\
  (backend_refresh_answer env cfg w rt = Response c new_token_info ->
   forall w1,
     w1 = snd (backend_auth_required env cfg body w) ->
     (env_time env (trace w1) <= x')%Q ->
     session w1 !! "strava_token" = Some new_token_info /\
     count_refresh (trace w1) = S (count_refresh (trace w)) /\
     forall f, backend_auth_required env cfg f w1 = f (emit EvTime w1)).
Proof.
  intros Hbody Hs He Hr Hx Hf He'.
  assert (Hw0 : forall timeout w1,
            w1 = snd (body (World (<["strava_token" := new_token_info]> (session w))
                              (trace w ++ [EvTime; token_request_with timeout cfg rt]))) ->
            session w1 !! "strava_token" = Some new_token_info /\
            count_refresh (trace w1) = S (count_refresh (trace w))).
  { intros timeout w1 ->.
    set (w0 := World (<["strava_token" := new_token_info]> (session w))
                     (trace w ++ [EvTime; token_request_with timeout cfg rt])).
    destruct (Hbody w0) as [Hsess Htr]. split.
    - rewrite Hsess. apply lookup_insert_eq.
    - assert (H0 : count_refresh (trace w0) = S (count_refresh (trace w))).
      { unfold w0. simpl. rewrite count_refresh_app.
        rewrite count_refresh_token_request. lia. }
      destruct Htr as [-> | (tok' & b & url & ps & t & _ & _ & ->)]; [exact H0|].
      rewrite count_refresh_app, H0.
      change (count_refresh [EvGet url b ps t]) with 0%nat. lia. }
  split; intros Ha w1 Hw1 Hlive.
  - rewrite (main_gate_refreshed env cfg body w tok rt x c new_token_info) in Hw1
      by assumption.
    destruct (Hw0 (Some 10) w1 Hw1) as [H1 H2]. repeat apply conj; try assumption.
    intros f. by apply main_gate_live with (tok := new_token_info) (x := x').
  - rewrite (backend_gate_refreshed env cfg body w tok rt x c new_token_info) in Hw1
      by assumption.
    destruct (Hw0 None w1 Hw1) as [H1 H2]. repeat apply conj; try assumption.
    intros f. by apply backend_gate_live with (tok := new_token_info) (x := x').
Qed.

Lemma refreshed_token_serves_the_next_request_witness :
  Main.app.auth_required online_env sample_cfg (ret (Resp 200 PNone))
    (snd (Main.app.get_activities online_env sample_cfg (fun q => q)
            (world_with_token (sample_token "old" "r1" 10)))) =
  (Ok (Resp 200 PNone),
   emit EvTime
     (snd (Main.app.get_activities online_env sample_cfg (fun q => q)
             (world_with_token (sample_token "old" "r1" 10))))).
Proof.
  apply (proj2 (proj2
           (proj1 (refreshed_token_serves_the_next_request online_env sample_cfg
                     (Main.app.get_activities_body online_env (fun q => q))
                     (world_with_token (sample_token "old" "r1" 10))
                     (sample_token "old" "r1" 10) (PStr "r1")
                     (sample_token "new-access" "new-refresh" 5000)
                     (10 # 1) (5000 # 1) 200
                     (activities_body_uses_session_token online_env (fun q => q))
                     eq_refl eq_refl eq_refl eq_refl eq_refl eq_refl)
                  eq_refl _ eq_refl ltac:(discriminate)))
           (ret (Resp 200 PNone))).
Defined.

(* ===================================================================== *)
(** ** X13 to X16: what the listing and the GPX export answer *)
(* ===================================================================== *)

Lemma has_summary_polyline_raises (act : pyval) (e : exn) :
  Main.app.has_summary_polyline act = Raise e -> view_error e.
Proof.
  unfold Main.app.has_summary_polyline, view_error.
  destruct (py_get act "map" (PDict [])) as [m|e1] eqn:H1; simpl.
  - destruct (py_get m "summary_polyline" PNone) as [p|e2] eqn:H2; simpl;
      [discriminate|].
    intros H; inversion H; subst. apply py_get_raises in H2. auto.
  - intros H; inversion H; subst. apply py_get_raises in H1. auto.
Qed.

Ltac getitem_step H :=
  match goal with
  | |- context [py_getitem ?v ?k] =>
      let E := fresh "E" in
      destruct (py_getitem v k) eqn:E; simpl;
      [|intros H; inversion H; subst;
        apply py_getitem_raises in E; unfold view_error; tauto]
  end.

Lemma main_activity_item_raises (round_float : Q -> Q) (act : pyval) (e : exn) :
  Main.app.activity_item round_float act = Raise e -> view_error e.
Proof.
  unfold Main.app.activity_item.
  getitem_step H. getitem_step H. getitem_step H.
  destruct (Main.app.py_round2 round_float a1) as [r|e1] eqn:Hr; simpl.
  - getitem_step H. getitem_step H. discriminate.
  - intros H; inversion H; subst. unfold view_error.
    destruct a1; simpl in Hr; inversion Hr; auto.
Qed.

Lemma main_filtered_raises (round_float : Q -> Q) (acts : list pyval) (e : exn) :
  Main.app.filtered_activities round_float acts = Raise e -> view_error e.
Proof.
  induction acts as [|act rest IH]; simpl; [discriminate|].
  destruct (Main.app.has_summary_polyline act) as [keep|e1] eqn:Hk; simpl.
  - destruct keep; [|exact IH].
    destruct (Main.app.activity_item round_float act) as [item|e2] eqn:Hi; simpl.
    + destruct (Main.app.filtered_activities round_float rest); simpl;
        [discriminate|].
      intros H; inversion H; subst. by apply IH.
    + intros H; inversion H; subst. by eapply main_activity_item_raises.
  - intros H; inversion H; subst. by eapply has_summary_polyline_raises.
Qed.

Lemma view_error_not_caught (e : exn) :
  view_error e -> except_StravaAPIError e = false.
Proof. intros [-> | [-> | ->]]; reflexivity. Qed.

Section ActivityBodies.
Variable env : Env.
Variable round_float : Q -> Q.

Lemma main_get_activities_eq (access_token : pyval) (page per_page : Z) (w : world) :
  Main.strava_client.get_activities env access_token page per_page w =
    (match answer_to env (trace w)
             (activities_page_request (Some 10) access_token page
                (Z.min per_page 200)) with
     | NoResponse => Raise StravaAPIError
     | Response c data =>
         if http_failed (Response c data) then Raise StravaAPIError else Ok data
     end,
     emit (activities_page_request (Some 10) access_token page (Z.min per_page 200))
          w).
Proof.
  unfold Main.strava_client.get_activities, activities_page_request, answer_to,
    Main.strava_client.get_api_headers, try_except, bind,
    requests_get, raise_for_status, lift, ret.
  destruct (env_get env (trace w) _ _ _ _) as [|c data]; simpl; [reflexivity|].
  by destruct ((400 <=? c) && (c <? 600)).
Qed.

Lemma backend_get_activities_eq (access_token : pyval) (page per_page : Z) (w : world) :
  Backend.strava_client.get_activities env access_token page per_page w =
    (match answer_to env (trace w)
             (activities_page_request None access_token page per_page) with
     | NoResponse => Raise RequestException
     | Response c data =>
         if http_failed (Response c data) then Raise RequestException else Ok data
     end,
     emit (activities_page_request None access_token page per_page) w).
Proof.
  unfold Backend.strava_client.get_activities, activities_page_request, answer_to,
    Backend.strava_client.get_api_headers, bind,
    requests_get, raise_for_status, lift, ret.
  change Backend.strava_client.API_URL with Main.strava_client.API_URL.
  destruct (env_get env (trace w) _ _ _ _) as [|c data]; simpl; [reflexivity|].
  by destruct ((400 <=? c) && (c <? 600)).
Qed.

Lemma main_activities_body_eq (w : world) (tok access_token : pyval) :
  session w !! "strava_token" = Some tok ->
  py_getitem tok "access_token" = Ok access_token ->
  fst (Main.app.get_activities_body env round_float w) =
    match activities_answer env (trace w) access_token with
    | NoResponse => Ok (Resp 500 (error_body msg_activities_failed))
    | Response c data =>
        if http_failed (Response c data)
        then Ok (Resp 500 (error_body msg_activities_failed))
        else
          match (let? acts := py_iter data in
                 Main.app.filtered_activities round_float acts) with
          | Ok items => Ok (Resp 200 (PList items))
          | Raise e => Raise e
          end
    end.
Proof.
  intros Hs Ha.
  pose proof (with_access_token
    (fun a => try_except
       (activities <~ Main.strava_client.get_activities env a 1 50 ;;
        acts <~ lift (py_iter activities) ;;
        filtered <~ lift (Main.app.filtered_activities round_float acts) ;;
        ret (jsonify (PList filtered)))
       except_StravaAPIError
       (fun _ => ret (jsonify_with (error_body "Failed to fetch activities") 500)))
    w) as H.
  rewrite Hs, Ha in H. unfold Main.app.get_activities_body.
  rewrite H. unfold try_except, bind, lift, ret.
  rewrite main_get_activities_eq.
  unfold activities_answer, activities_page_request, answer_to.
  change (Z.min 50 200) with 50.
  destruct (env_get env (trace w) _ _ _ _) as [|c data]; simpl; [reflexivity|].
  destruct ((400 <=? c) && (c <? 600)); simpl; [reflexivity|].
  destruct (py_iter data) as [acts|e] eqn:Hi; simpl.
  - destruct (Main.app.filtered_activities round_float acts) as [items|e] eqn:Hf;
      simpl; [reflexivity|].
    by rewrite (view_error_not_caught e (main_filtered_raises _ _ _ Hf)).
  - by rewrite (py_iter_raises _ _ Hi).
Qed.

Lemma backend_activities_body_eq (w : world) (tok access_token : pyval) :
  session w !! "strava_token" = Some tok ->
  py_getitem tok "access_token" = Ok access_token ->
  fst (Backend.app.get_activities_body env backend_secret_key w) =
    match backend_activities_answer env (trace w) access_token with
    | NoResponse => Ok (Resp 500 (error_body msg_activities_failed))
    | Response c data =>
        if http_failed (Response c data)
        then Ok (Resp 500 (error_body msg_activities_failed))
        else
          match (let? acts := py_iter data in
                 Backend.app.filtered_activities acts) with
          | Ok items => Ok (Resp 200 (PList items))
          | Raise _ => Ok (Resp 500 (error_body msg_activities_failed))
          end
    end.
Proof.
  intros Hs Ha.
  pose proof (with_access_token
    (fun a => try_except
       (activities <~ Backend.strava_client.get_activities env a 1 50 ;;
        acts <~ lift (py_iter activities) ;;
        filtered <~ lift (Backend.app.filtered_activities acts) ;;
        ret (jsonify (PList filtered)))
       except_Exception
       (fun _ => ret (jsonify_with (error_body "Failed to fetch activities") 500)))
    w) as H.
  rewrite Hs, Ha in H. unfold Backend.app.get_activities_body.
  rewrite with_backend_access_token.
  rewrite H. unfold try_except, bind, lift, ret.
  rewrite backend_get_activities_eq.
  unfold backend_activities_answer, activities_page_request, answer_to.
  destruct (env_get env (trace w) _ _ _ _) as [|c data]; simpl; [reflexivity|].
  destruct ((400 <=? c) && (c <? 600)); simpl; [reflexivity|].
  destruct (py_iter data) as [acts|e] eqn:Hi; simpl; [|reflexivity].
  by destruct (Backend.app.filtered_activities acts).
Qed.
End ActivityBodies.

(** X13. [get_activities] behind a live token, each back end with the
    answer to its own request (that of [src/app.py] has a time-out of 10
    seconds, that of [src/backend/app.py] none).  A failed request to Strava
    is answered 500 by both back ends.  When Strava sends a list, the
    answer is 200 with the simplified records if the comprehension goes
    through; if it raises (a kept record lacks a field, a record is not an
    object, a distance cannot be rounded), then in [src/app.py] the
    exception, a [KeyError], [TypeError] or [AttributeError] and so not the
    [StravaAPIError] the view catches, leaves the view, while
    [src/backend/app.py] catches it and answers 500. *)
Theorem activities_view_outcomes (env : Env) (cfg : Config) (round_float : Q -> Q)
    (w : world) (tok access_token : pyval) (x : Q) :
  session w !! "strava_token" = Some tok ->
  expires_at_of tok = Some x ->
  (env_time env (trace w) <= x)%Q ->
  py_getitem tok "access_token" = Ok access_token ->
  let upstream := activities_answer env (trace w ++ [EvTime]) access_token in
  let backend_upstream :=
    backend_activities_answer env (trace w ++ [EvTime]) access_token in
  let main := fst (Main.app.get_activities env cfg round_float w) in
  let backend := fst (backend_get_activities env cfg w) in
  (http_failed upstream = true ->
   main = Ok (Resp 500 (error_body msg_activities_failed))) /\
  (http_failed backend_upstream = true ->
   backend = Ok (Resp 500 (error_body msg_activities_failed))) /\
  (forall c acts,
     upstream = Response c (PList acts) -> http_failed upstream = false ->
     (forall items,
        Main.app.filtered_activities round_float acts = Ok items ->
        main = Ok (Resp 200 (PList items))) /\
     (forall e,
        Main.app.filtered_activities round_float acts = Raise e ->
        main = Raise e /\ (e = KeyError \/ e = TypeError \/ e = AttributeError))) /\
  (forall c acts,
     backend_upstream = Response c (PList acts) ->
     http_failed backend_upstream = false ->
     (forall items,
        Backend.app.filtered_activities acts = Ok items ->
        backend = Ok (Resp 200 (PList items))) /\
     (forall e,
        Backend.app.filtered_activities acts = Raise e ->
        backend = Ok (Resp 500 (error_body msg_activities_failed)))).
Proof.
  intros Hs He Hx Ha upstream backend_upstream main backend.
  assert (Hm : main = _)
    by (subst main; unfold Main.app.get_activities;
        rewrite (main_gate_live env cfg _ w tok x Hs He Hx);
        exact (main_activities_body_eq env round_float (emit EvTime w) tok
                 access_token Hs Ha)).
  assert (Hb : backend = _)
    by (subst backend; unfold backend_get_activities, Backend.app.get_activities;
        pose proof (backend_gate_live env cfg
                      (Backend.app.get_activities_body env backend_secret_key)
                      w tok x Hs He Hx) as Hg;
        unfold backend_auth_required in Hg; rewrite Hg;
        exact (backend_activities_body_eq env (emit EvTime w) tok access_token Hs Ha)).
  simpl in Hm, Hb. fold upstream in Hm. fold backend_upstream in Hb.
  clearbody upstream backend_upstream main backend. subst main backend.
  split; [|split; [|split]].
  - intros Hf. destruct upstream as [|c data]; [auto|]. simpl in Hf. by rewrite Hf.
  - intros Hf. destruct backend_upstream as [|c data]; [auto|]. simpl in Hf.
    by rewrite Hf.
  - intros c acts -> Hf. simpl in Hf. rewrite Hf. simpl. split.
    + intros items ->. reflexivity.
    + intros e H. rewrite H. split; [reflexivity|].
      exact (main_filtered_raises _ _ _ H).
  - intros c acts -> Hf. simpl in Hf. rewrite Hf. simpl. split.
    + intros items ->. reflexivity.
    + intros e ->. reflexivity.
Qed.

Lemma activities_view_outcomes_witness :
  fst (Main.app.get_activities (listing_env (PList [nameless_activity])) sample_cfg
         (fun q => q) (world_with_token (sample_token "live" "r1" 2000))) =
    Raise KeyError /\
  fst (backend_get_activities (listing_env (PList [nameless_activity])) sample_cfg
         (world_with_token (sample_token "live" "r1" 2000))) =
    Ok (Resp 500 (error_body msg_activities_failed)).
Proof.
  split.
  - apply (proj1 (proj2 (proj1 (proj2 (proj2
             (activities_view_outcomes (listing_env (PList [nameless_activity]))
                sample_cfg (fun q => q)
                (world_with_token (sample_token "live" "r1" 2000))
                (sample_token "live" "r1" 2000) (PStr "live") (2000 # 1)
                eq_refl eq_refl ltac:(discriminate) eq_refl)))
             200 [nameless_activity] eq_refl eq_refl) KeyError eq_refl)).
  - apply (proj2 (proj2 (proj2 (proj2
             (activities_view_outcomes (listing_env (PList [nameless_activity]))
                sample_cfg (fun q => q)
                (world_with_token (sample_token "live" "r1" 2000))
                (sample_token "live" "r1" 2000) (PStr "live") (2000 # 1)
                eq_refl eq_refl ltac:(discriminate) eq_refl)))
             200 [nameless_activity] eq_refl eq_refl) KeyError eq_refl).
Defined.

(** *** The GPX export *)

Lemma string_of_uint_chars (p : ascii -> bool) (d : Decimal.uint) :
  (forall c, In c ["0"; "1"; "2"; "3"; "4"; "5"; "6"; "7"; "8"; "9"]%char -> p c = true) ->
  all_chars p (NilEmpty.string_of_uint d) = true.
Proof.
  intros Hp. induction d; simpl; [reflexivity|..];
    rewrite IHd, Hp; simpl; tauto.
Qed.

Lemma str_of_Z_text_safe (z : Z) : all_chars text_safe_char (str_of_Z z) = true.
Proof.
  assert (Hd : forall c,
             In c ["0"; "1"; "2"; "3"; "4"; "5"; "6"; "7"; "8"; "9"]%char ->
             text_safe_char c = true).
  { intros c Hc. simpl in Hc.
    repeat (destruct Hc as [<-|Hc]; [reflexivity|]). destruct Hc. }
  assert (Hu : forall d, all_chars text_safe_char (NilZero.string_of_uint d) = true).
  { intros d. destruct d; try reflexivity;
      apply (string_of_uint_chars text_safe_char _ Hd). }
  unfold str_of_Z. destruct (Z.to_int z) as [d|d]; simpl.
  - apply Hu.
  - apply Hu.
Qed.

(** The name the view gives the track holds no markup, whatever the
    number. *)
Lemma activity_name_safe (id : Z) :
  all_chars text_safe_char ("Activity " +:+ str_of_Z id) = true /\
  all_chars is_space ("Activity " +:+ str_of_Z id) = false.
Proof.
  split.
  - by rewrite all_chars_app, str_of_Z_text_safe.
  - reflexivity.
Qed.

Lemma latlng_data_raises (data : pyval) (e : exn) :
  latlng_data data = Raise e -> e = AttributeError.
Proof.
  unfold latlng_data. destruct data; simpl; try congruence.
  destruct (match assoc "latlng" kv with Some x => x | None => PDict [] end);
    simpl; congruence.
Qed.

Section Loop.
Variable py_str : pyval -> string.

Lemma gpx_points_loop_ok (items : list pyval) (acc : string) :
  (exists s, Main.app.gpx_points_loop py_str acc items = Ok s) <->
  Forall (fun c => exists a b, py_iter c = Ok [a; b]) items.
Proof.
  revert acc. induction items as [|c items IH]; intros acc; simpl.
  - split; [constructor|eauto].
  - unfold unpack2. destruct (py_iter c) as [[|a [|b [|x l]]]|e] eqn:Hc; simpl.
    + split; [intros (s & H); discriminate|].
      intros H. inversion H as [|? ? (a & b & Hab) _]. congruence.
    + split; [intros (s & H); discriminate|].
      intros H. inversion H as [|? ? (a' & b & Hab) _]. congruence.
    + rewrite IH. split.
      * intros H. constructor; eauto.
      * intros H. by inversion H.
    + split; [intros (s & H); discriminate|].
      intros H. inversion H as [|? ? (a' & b' & Hab) _]. congruence.
    + split; [intros (s & H); discriminate|].
      intros H. inversion H as [|? ? (a' & b' & Hab) _]. congruence.
Qed.

Lemma gpx_points_loop_raises (items : list pyval) (acc : string) (e : exn) :
  Main.app.gpx_points_loop py_str acc items = Raise e ->
  e = ValueError \/ e = TypeError.
Proof.
  revert acc. induction items as [|c items IH]; intros acc; simpl; [discriminate|].
  unfold unpack2. destruct (py_iter c) as [[|a [|b [|x l]]]|e'] eqn:Hc; simpl;
    try (intros H; inversion H; auto; fail).
  - apply IH.
  - intros H. inversion H; subst. right. by eapply py_iter_raises.
Qed.

Lemma create_gpx_string_raises (name : string) (coords : pyval) (e : exn) :
  Main.app.create_gpx_string py_str name coords = Raise e ->
  e = ValueError \/ e = TypeError.
Proof.
  unfold Main.app.create_gpx_string.
  destruct (py_iter coords) as [items|e'] eqn:Hi; simpl.
  - destruct (Main.app.gpx_points_loop py_str EmptyString items) as [s|e'] eqn:Hl; simpl;
      [discriminate|].
    intros H. inversion H; subst. by eapply gpx_points_loop_raises.
  - intros H. inversion H; subst. right. by eapply py_iter_raises.
Qed.
End Loop.

Section GpxBodies.
Variable env : Env.
Variable py_str : pyval -> string.

(** What [get_activity_stream] gives, from the answer of Strava. *)
Lemma main_get_activity_stream_eq (id : Z) (access_token : pyval) (w : world) :
  Main.strava_client.get_activity_stream env id access_token w =
    (match stream_upstream env (trace w) id access_token with
     | NoResponse => Raise StravaAPIError
     | Response c data =>
         if http_failed (Response c data) then Raise StravaAPIError
         else latlng_data data
     end,
     emit (stream_request id access_token) w).
Proof.
  unfold Main.strava_client.get_activity_stream, stream_upstream,
    Main.strava_client.get_api_headers, try_except, bind,
    requests_get, raise_for_status, lift, latlng_data, stream_request.
  destruct (env_get env (trace w) _ _ _ _) as [|c data]; simpl; [reflexivity|].
  destruct ((400 <=? c) && (c <? 600)); simpl; [reflexivity|].
  destruct (py_get data "latlng" (PDict [])) as [latlng|e] eqn:H1; simpl.
  - destruct (py_get latlng "data" (PList [])) as [v|e] eqn:H2; simpl; [reflexivity|].
    by rewrite (py_get_raises _ _ _ _ H2).
  - by rewrite (py_get_raises _ _ _ _ H1).
Qed.

Lemma backend_get_activity_stream_eq (id : Z) (access_token : pyval) (w : world) :
  Backend.strava_client.get_activity_stream env id access_token w =
    (match backend_stream_upstream env (trace w) id access_token with
     | NoResponse => Raise RequestException
     | Response c data =>
         if http_failed (Response c data) then Raise RequestException
         else latlng_data data
     end,
     emit (EvGet (Main.strava_client.stream_url id) access_token
             Main.strava_client.stream_params None) w).
Proof.
  unfold Backend.strava_client.get_activity_stream, backend_stream_upstream,
    Backend.strava_client.get_api_headers, bind,
    requests_get, raise_for_status, lift, latlng_data.
  change (Backend.strava_client.stream_url id) with (Main.strava_client.stream_url id).
  change Backend.strava_client.stream_params with Main.strava_client.stream_params.
  destruct (env_get env (trace w) _ _ _ _) as [|c data]; simpl; [reflexivity|].
  destruct ((400 <=? c) && (c <? 600)); simpl; [reflexivity|].
  destruct (py_get data "latlng" (PDict [])) as [latlng|e] eqn:H1; simpl; reflexivity.
Qed.

Lemma main_gpx_body_eq (id : Z) (w : world) (tok access_token : pyval) :
  session w !! "strava_token" = Some tok ->
  py_getitem tok "access_token" = Ok access_token ->
  fst (Main.app.get_activity_gpx_body env py_str id w) =
    match fst (Main.strava_client.get_activity_stream env id access_token w) with
    | Ok stream =>
        if truthy stream then
          match Main.app.create_gpx_string py_str ("Activity " +:+ str_of_Z id) stream with
          | Ok doc => Ok (Resp 200 (gpx_body doc))
          | Raise e => Raise e
          end
        else Ok (Resp 404 (error_body msg_no_gps))
    | Raise StravaAPIError => Ok (Resp 500 (error_body msg_fetch_failed))
    | Raise e => Raise e
    end.
Proof.
  intros Hs Ha.
  pose proof (with_access_token
    (fun a => try_except
       (latlng_stream <~ Main.app.strava_get_activity_stream env id a ;;
        if negb (truthy latlng_stream) then
          ret (jsonify_with (error_body "No GPS data found for this activity") 404)
        else
          gpx_data <~ lift (Main.app.create_gpx_string py_str
                              ("Activity " +:+ str_of_Z id) latlng_stream) ;;
          ret (jsonify (PDict [("gpx"%string, PStr gpx_data)])))
       except_StravaAPIError
       (fun _ => ret (jsonify_with (error_body "Failed to fetch activity data") 500)))
    w) as H.
  rewrite Hs, Ha in H. unfold Main.app.get_activity_gpx_body.
  rewrite H. unfold try_except, bind, Main.app.strava_get_activity_stream, lift, ret.
  destruct (Main.strava_client.get_activity_stream env id access_token w)
    as [[v|e] w']; simpl.
  - destruct (truthy v); simpl; [|reflexivity].
    destruct (Main.app.create_gpx_string py_str _ v) as [doc|e] eqn:Hd; simpl;
      [reflexivity|].
    destruct (create_gpx_string_raises py_str _ _ _ Hd) as [-> | ->]; reflexivity.
  - by destruct e.
Qed.

Lemma backend_gpx_body_eq (id : Z) (w : world) (tok access_token : pyval) :
  session w !! "strava_token" = Some tok ->
  py_getitem tok "access_token" = Ok access_token ->
  fst (Backend.app.get_activity_gpx_body env backend_secret_key py_str id w) =
    match fst (Backend.strava_client.get_activity_stream env id access_token w) with
    | Ok stream =>
        if truthy stream then
          match Main.app.create_gpx_string py_str ("Activity " +:+ str_of_Z id) stream with
          | Ok doc => Ok (Resp 200 (gpx_body doc))
          | Raise _ => Ok (Resp 500 (error_body backend_msg_fetch_failed))
          end
        else Ok (Resp 404 (error_body backend_msg_no_gps))
    | Raise _ => Ok (Resp 500 (error_body backend_msg_fetch_failed))
    end.
Proof.
  intros Hs Ha.
  pose proof (with_access_token
    (fun a => try_except
       (latlng_stream <~ Backend.strava_client.get_activity_stream env id a ;;
        if negb (truthy latlng_stream) then
          ret (jsonify_with
                 (error_body "No latitude/longitude data found for this activity.") 404)
        else
          gpx_data <~ lift (Backend.app.create_gpx_string py_str
                              ("Activity " +:+ str_of_Z id) latlng_stream) ;;
          ret (jsonify (PDict [("gpx"%string, PStr gpx_data)])))
       except_Exception
       (fun _ => ret (jsonify_with (error_body "Failed to fetch activity stream") 500)))
    w) as H.
  rewrite Hs, Ha in H. unfold Backend.app.get_activity_gpx_body.
  rewrite with_backend_access_token.
  rewrite H. unfold try_except, bind, lift, ret, Backend.app.create_gpx_string.
  destruct (Backend.strava_client.get_activity_stream env id access_token w)
    as [[v|e] w']; simpl; [|reflexivity].
  destruct (truthy v); simpl; [|reflexivity].
  by destruct (Main.app.create_gpx_string py_str _ v).
Qed.
End GpxBodies.

(** The two GPX views behind a live token, each from the answer of Strava
    to its request. *)
Lemma gpx_views_eq (env : Env) (cfg : Config) (py_str : pyval -> string)
    (activity_id : Z) (w : world) (tok access_token : pyval) (x : Q) :
  session w !! "strava_token" = Some tok ->
  expires_at_of tok = Some x ->
  (env_time env (trace w) <= x)%Q ->
  py_getitem tok "access_token" = Ok access_token ->
  let upstream :=
    stream_upstream env (trace w ++ [EvTime]) activity_id access_token in
  let backend_upstream :=
    backend_stream_upstream env (trace w ++ [EvTime]) activity_id access_token in
  let document stream :=
    Main.app.create_gpx_string py_str ("Activity " +:+ str_of_Z activity_id) stream in
  fst (Main.app.get_activity_gpx env cfg py_str activity_id w) =
    match upstream with
    | NoResponse => Ok (Resp 500 (error_body msg_fetch_failed))
    | Response c data =>
        if http_failed upstream then Ok (Resp 500 (error_body msg_fetch_failed))
        else
          match latlng_data data with
          | Ok stream =>
              if truthy stream then
                match document stream with
                | Ok doc => Ok (Resp 200 (gpx_body doc))
                | Raise e => Raise e
                end
              else Ok (Resp 404 (error_body msg_no_gps))
          | Raise e => Raise e
          end
    end /\
  fst (backend_get_activity_gpx env cfg py_str activity_id w) =
    match backend_upstream with
    | NoResponse => Ok (Resp 500 (error_body backend_msg_fetch_failed))
    | Response c data =>
        if http_failed backend_upstream
        then Ok (Resp 500 (error_body backend_msg_fetch_failed))
        else
          match latlng_data data with
          | Ok stream =>
              if truthy stream then
                match document stream with
                | Ok doc => Ok (Resp 200 (gpx_body doc))
                | Raise _ => Ok (Resp 500 (error_body backend_msg_fetch_failed))
                end
              else Ok (Resp 404 (error_body backend_msg_no_gps))
          | Raise _ => Ok (Resp 500 (error_body backend_msg_fetch_failed))
          end
    end.
Proof.
  intros Hs He Hx Ha upstream backend_upstream document. split.
  - unfold Main.app.get_activity_gpx.
    rewrite (main_gate_live env cfg _ w tok x Hs He Hx).
    rewrite (main_gpx_body_eq env py_str activity_id (emit EvTime w) tok access_token Hs Ha).
    rewrite main_get_activity_stream_eq. simpl. fold upstream. clearbody upstream.
    destruct upstream as [|c data]; [reflexivity|]. simpl.
    destruct ((400 <=? c) && (c <? 600)); [reflexivity|].
    destruct (latlng_data data) as [stream|e] eqn:Hl; [reflexivity|].
    by rewrite (latlng_data_raises _ _ Hl).
  - unfold backend_get_activity_gpx, Backend.app.get_activity_gpx.
    pose proof (backend_gate_live env cfg
                  (Backend.app.get_activity_gpx_body env backend_secret_key py_str
                     activity_id)
                  w tok x Hs He Hx) as Hg.
    unfold backend_auth_required in Hg. rewrite Hg.
    rewrite (backend_gpx_body_eq env py_str activity_id (emit EvTime w) tok access_token Hs Ha).
    rewrite backend_get_activity_stream_eq. simpl. fold backend_upstream.
    clearbody backend_upstream.
    destruct backend_upstream as [|c data]; [reflexivity|]. simpl.
    by destruct ((400 <=? c) && (c <? 600)).
Qed.

(** X14. [get_activity_gpx] behind a live token, each back end with the
    answer to its own request (that of [src/app.py] has a time-out of 15
    seconds, that of [src/backend/app.py] none).  A failed request to
    Strava is answered 500 and a stream that is empty or missing 404, by
    both back ends, each with its own text; a stream the formatter accepts
    is answered 200 with the same document by both.  When the answer of
    Strava cannot be read as a stream of pairs (a coordinate without exactly
    two components, a body that is not an object), the exception leaves the
    view in [src/app.py], which catches [StravaAPIError] only, and is
    answered 500 by [src/backend/app.py]. *)
Theorem gpx_view_outcomes (env : Env) (cfg : Config) (py_str : pyval -> string)
    (activity_id : Z) (w : world) (tok access_token : pyval) (x : Q) :
  session w !! "strava_token" = Some tok ->
  expires_at_of tok = Some x ->
  (env_time env (trace w) <= x)%Q ->
  py_getitem tok "access_token" = Ok access_token ->
  let upstream :=
    stream_upstream env (trace w ++ [EvTime]) activity_id access_token in
  let backend_upstream :=
    backend_stream_upstream env (trace w ++ [EvTime]) activity_id access_token in
  let main := fst (Main.app.get_activity_gpx env cfg py_str activity_id w) in
  let backend := fst (backend_get_activity_gpx env cfg py_str activity_id w) in
  let document stream :=
    Main.app.create_gpx_string py_str ("Activity " +:+ str_of_Z activity_id) stream in
  (http_failed upstream = true ->
   main = Ok (Resp 500 (error_body msg_fetch_failed))) /\
  (http_failed backend_upstream = true ->
   backend = Ok (Resp 500 (error_body backend_msg_fetch_failed))) /\
  (forall c data,
     upstream = Response c data -> http_failed upstream = false ->
     (forall stream,
        latlng_data data = Ok stream -> truthy stream = false ->
        main = Ok (Resp 404 (error_body msg_no_gps))) /\
     (forall stream doc,
        latlng_data data = Ok stream -> truthy stream = true ->
        document stream = Ok doc ->
        main = Ok (Resp 200 (gpx_body doc))) /\
     (forall stream e,
        latlng_data data = Ok stream -> truthy stream = true ->
        document stream = Raise e ->
        main = Raise e) /\
     (forall e, latlng_data data = Raise e -> main = Raise e)) /\
  (forall c data,
     backend_upstream = Response c data -> http_failed backend_upstream = false ->
     (forall stream,
        latlng_data data = Ok stream -> truthy stream = false ->
        backend = Ok (Resp 404 (error_body backend_msg_no_gps))) /\
     (forall stream doc,
        latlng_data data = Ok stream -> truthy stream = true ->
        document stream = Ok doc ->
        backend = Ok (Resp 200 (gpx_body doc))) /\
     (forall stream e,
        latlng_data data = Ok stream -> truthy stream = true ->
        document stream = Raise e ->
        backend = Ok (Resp 500 (error_body backend_msg_fetch_failed))) /\
     (forall e,
        latlng_data data = Raise e ->
        backend = Ok (Resp 500 (error_body backend_msg_fetch_failed)))).
Proof.
  intros Hs He Hx Ha upstream backend_upstream main backend document.
  destruct (gpx_views_eq env cfg py_str activity_id w tok access_token x Hs He Hx Ha)
    as [Hm Hb].
  fold upstream document in Hm. fold backend_upstream document in Hb.
  fold main in Hm. fold backend in Hb.
  clearbody upstream backend_upstream main backend. subst main backend.
  split; [|split; [|split]].
  - intros Hf. destruct upstream as [|c data]; [auto|]. by rewrite Hf.
  - intros Hf. destruct backend_upstream as [|c data]; [auto|]. by rewrite Hf.
  - intros c data -> Hf. rewrite Hf. subst document. cbv beta.
    split; [|split; [|split]].
    + intros stream -> ->. auto.
    + intros stream doc -> -> ->. auto.
    + intros stream e -> -> ->. auto.
    + intros e ->. auto.
  - intros c data -> Hf. rewrite Hf. subst document. cbv beta.
    split; [|split; [|split]].
    + intros stream -> ->. auto.
    + intros stream doc -> -> ->. auto.
    + intros stream e -> -> ->. auto.
    + intros e ->. auto.
Qed.

Lemma gpx_view_outcomes_witness :
  fst (Main.app.get_activity_gpx (stream_env (PList [PList [PFloat (45 # 1)]]))
         sample_cfg one_decimal_str 42
         (world_with_token (sample_token "live" "r1" 2000))) = Raise ValueError /\
  fst (backend_get_activity_gpx (stream_env (PList [PList [PFloat (45 # 1)]]))
         sample_cfg one_decimal_str 42
         (world_with_token (sample_token "live" "r1" 2000))) =
    Ok (Resp 500 (error_body backend_msg_fetch_failed)).
Proof.
  split.
  - apply (proj1 (proj2 (proj2
             (proj1 (proj2 (proj2
                (gpx_view_outcomes (stream_env (PList [PList [PFloat (45 # 1)]]))
                   sample_cfg one_decimal_str 42
                   (world_with_token (sample_token "live" "r1" 2000))
                   (sample_token "live" "r1" 2000) (PStr "live") (2000 # 1)
                   eq_refl eq_refl ltac:(discriminate) eq_refl)))
                200 (PDict [("latlng"%string,
                              PDict [("data"%string, PList [PList [PFloat (45 # 1)]])])])
                eq_refl eq_refl)))
           (PList [PList [PFloat (45 # 1)]]) ValueError eq_refl eq_refl eq_refl).
  - apply (proj1 (proj2 (proj2
             (proj2 (proj2 (proj2
                (gpx_view_outcomes (stream_env (PList [PList [PFloat (45 # 1)]]))
                   sample_cfg one_decimal_str 42
                   (world_with_token (sample_token "live" "r1" 2000))
                   (sample_token "live" "r1" 2000) (PStr "live") (2000 # 1)
                   eq_refl eq_refl ltac:(discriminate) eq_refl)))
                200 (PDict [("latlng"%string,
                              PDict [("data"%string, PList [PList [PFloat (45 # 1)]])])])
                eq_refl eq_refl)))
           (PList [PList [PFloat (45 # 1)]]) ValueError eq_refl eq_refl eq_refl).
Defined.

(** X15. The document the GPX views send is well formed whatever the
    activity number: the track name is ["Activity "] followed by the
    decimal digits of the number (with a sign, if any), which hold no markup
    character.  For a stream of coordinate pairs whose numbers are written
    without quote, [<] or [&], a view to whose request Strava sends that
    stream answers 200, both views with the same document, and it reads back
    as GPX 1.1 with that name and one [trkpt] for each pair, in the order of
    the stream. *)
Theorem gpx_view_document_is_well_formed (env : Env) (cfg : Config)
    (py_str : pyval -> string) (activity_id : Z) (w : world)
    (tok access_token : pyval) (x : Q) (c : Z) (data : pyval)
    (coords : list (pyval * pyval)) :
  session w !! "strava_token" = Some tok ->
  expires_at_of tok = Some x ->
  (env_time env (trace w) <= x)%Q ->
  py_getitem tok "access_token" = Ok access_token ->
  http_failed (Response c data) = false ->
  latlng_data data = Ok (PList (map pair_item coords)) ->
  coords <> [] ->
  Forall (formats_safely py_str) coords ->
  exists doc,
    (stream_upstream env (trace w ++ [EvTime]) activity_id access_token
       = Response c data ->
     fst (Main.app.get_activity_gpx env cfg py_str activity_id w) =
       Ok (Resp 200 (gpx_body doc))) /\
    (backend_stream_upstream env (trace w ++ [EvTime]) activity_id access_token
       = Response c data ->
     fst (backend_get_activity_gpx env cfg py_str activity_id w) =
       Ok (Resp 200 (gpx_body doc))) /\
    read_xml doc =
      Some (gpx_tree ("Activity " +:+ str_of_Z activity_id)
              (map (formatted py_str) coords)).
Proof.
  intros Hs He Hx Ha Hf Hl Hne Hsafe.
  destruct (gpx_views_eq env cfg py_str activity_id w tok access_token x Hs He Hx Ha)
    as [Hm Hb].
  cbv zeta in Hm, Hb.
  assert (Ht : truthy (PList (map pair_item coords)) = true)
    by (destruct coords; [congruence|reflexivity]).
  eexists. split; [|split].
  - intros Hu. rewrite Hu in Hm. rewrite Hf, Hl in Hm.
    rewrite Ht, create_gpx_string_spec in Hm. exact Hm.
  - intros Hu. rewrite Hu in Hb. rewrite Hf, Hl in Hb.
    rewrite Ht, create_gpx_string_spec in Hb. exact Hb.
  - destruct (activity_name_safe activity_id) as [H1 H2].
    by apply read_gpx_document.
Qed.

Lemma gpx_view_document_is_well_formed_witness :
  exists doc,
    fst (Main.app.get_activity_gpx (stream_env example_stream) sample_cfg
           one_decimal_str 123 (world_with_token (sample_token "live" "r1" 2000))) =
      Ok (Resp 200 (gpx_body doc)) /\
    read_xml doc =
      Some (gpx_tree "Activity 123"
              [("45.0"%string, "-122.0"%string); ("45.1"%string, "-122.1"%string)]).
Proof.
  destruct (gpx_view_document_is_well_formed (stream_env example_stream) sample_cfg
              one_decimal_str 123 (world_with_token (sample_token "live" "r1" 2000))
              (sample_token "live" "r1" 2000) (PStr "live") (2000 # 1) 200
              (PDict [("latlng"%string, PDict [("data"%string, example_stream)])])
              [(PFloat (45 # 1), PFloat (-122 # 1));
               (PFloat (451 # 10), PFloat (-1221 # 10))]
              eq_refl eq_refl ltac:(discriminate) eq_refl eq_refl eq_refl
              ltac:(discriminate)
              ltac:(repeat constructor))
    as (doc & Hm & _ & Hx).
  exists doc. split; [exact (Hm eq_refl)|exact Hx].
Defined.

(** X16. [create_gpx_string] returns a document for a list exactly when
    every item of the list unpacks into two components (a pair, but also a
    two-character string or an object with two keys); otherwise it raises
    and returns nothing: [ValueError] for a wrong number of components,
    [TypeError] for what cannot be iterated, and no other exception.
    [src/backend/app.py] has the same function. *)
Theorem create_gpx_string_accepts_exactly_pairs (py_str : pyval -> string)
    (activity_name : string) (items : list pyval) :
  ((exists doc,
      Main.app.create_gpx_string py_str activity_name (PList items) = Ok doc) <->
   Forall (fun c => exists lat lng, py_iter c = Ok [lat; lng]) items) /\
  (forall coords e,
     Main.app.create_gpx_string py_str activity_name coords = Raise e ->
     e = ValueError \/ e = TypeError) /\
  (forall coords,
     Backend.app.create_gpx_string py_str activity_name coords =
     Main.app.create_gpx_string py_str activity_name coords).
Proof.
  split; [|split].
  - rewrite <- (gpx_points_loop_ok py_str items EmptyString).
    unfold Main.app.create_gpx_string. simpl.
    destruct (Main.app.gpx_points_loop py_str EmptyString items) as [s|e]; simpl.
    + split; intros _; eexists; reflexivity.
    + split; intros (s & H); discriminate.
  - intros coords e. apply create_gpx_string_raises.
  - reflexivity.
Qed.

(* ===================================================================== *)
(** ** X17, X18: what [get_nearby_pois] answers *)
(* ===================================================================== *)

(** The comprehension fails at the first coordinate that has no item 1, with
    the exception of that subscript. *)
Lemma swap_route_raises (items : list pyval) (e : exn) :
  Main.app.swap_route items = Raise e ->
  (e = IndexError \/ e = TypeError \/ e = KeyError) /\
  exists good bad rest coords,
    items = good ++ bad :: rest /\
    Main.app.swap_route good = Ok coords /\
    py_index bad 1 = Raise e.
Proof.
  induction items as [|c items IH]; [discriminate|]. simpl.
  destruct (py_index c 1) as [lng|e1] eqn:H1; simpl.
  - assert (exists lat, py_index c 0 = Ok lat) as (lat & H0).
    { destruct c as [| | | |s|l|]; try discriminate.
      - destruct s as [|a [|b s]]; try discriminate. simpl. eauto.
      - destruct l as [|a [|b l]]; try discriminate. simpl. eauto. }
    rewrite H0. simpl.
    destruct (Main.app.swap_route items) as [coords|e2] eqn:Hs; [discriminate|].
    simpl. intros H. inversion H; subst e2.
    destruct (IH eq_refl) as (He & good & bad & rest & cs & -> & Hg & Hb).
    split; [exact He|].
    exists (c :: good), bad, rest, ((lng, lat) :: cs).
    split; [reflexivity|]. split; [|exact Hb].
    simpl. by rewrite H1, H0, Hg.
  - intros H. inversion H; subst e1. split.
    + destruct c as [| | | |s|l|]; unfold py_index in H1;
        try (inversion H1; subst; auto).
      * destruct (nth_error (string_chars s) 1); inversion H1; subst; auto.
      * destruct (nth_error l 1); inversion H1; subst; auto.
    + exists [], c, items, []. auto.
Qed.

(** X17. [get_nearby_pois] of [src/app.py], for every JSON body.  For an
    object it always answers, with 200, 400 or 500, and never changes the
    session.  Whenever the answer is 400, nothing was called: the world is
    as it was.  An answer of 500 comes either before any call (the sampling
    step failed, or a coordinate was an object) or after at least one search
    of the Places API, when a search or one of its results made the loop
    raise.  A body that is not an object is either answered 400 or makes the
    view raise [TypeError] before any call, the latter for instance for
    every JSON array that has the string ["route"] among its items. *)
Theorem nearby_pois_answers_or_raises_type_error (env : Env) (cfg : Config)
    (data : pyval) (w : world) :
  ((exists r w',
      Main.app.get_nearby_pois env cfg data w = (Ok r, w') /\
      session w' = session w /\
      (status r = 200 \/ status r = 400 \/ status r = 500) /\
      (status r = 400 -> w' = w) /\
      (status r = 500 ->
       w' = w \/
       exists searched,
         searched <> [] /\
         trace w' = trace w ++ map (search_event cfg) searched))
   \/ (Main.app.get_nearby_pois env cfg data w = (Raise TypeError, w) /\
       forall kv, data <> PDict kv)) /\
  (forall items,
     existsb (is_PStr "route") items = true ->
     Main.app.get_nearby_pois env cfg (PList items) w = (Raise TypeError, w)).
Proof.
  split.
  2:{ intros items Hin.
      unfold Main.app.get_nearby_pois, bind, lift, ret. simpl.
      destruct items as [|x items]; [discriminate|]. simpl.
      simpl in Hin. rewrite Hin. reflexivity. }
  assert (H400 : forall msg, exists r w',
            (Ok (jsonify_with (error_body msg) 400), w) = (Ok r, w') /\
            session w' = session w /\
            (status r = 200 \/ status r = 400 \/ status r = 500) /\
            (status r = 400 -> w' = w) /\
            (status r = 500 ->
             w' = w \/
             exists searched,
               searched <> [] /\
               trace w' = trace w ++ map (search_event cfg) searched)).
  { intros msg. do 2 eexists. split; [reflexivity|]. simpl. auto 6. }
  assert (H500 : forall msg, exists r w',
            (Ok (jsonify_with (error_body msg) 500), w) = (Ok r, w') /\
            session w' = session w /\
            (status r = 200 \/ status r = 400 \/ status r = 500) /\
            (status r = 400 -> w' = w) /\
            (status r = 500 ->
             w' = w \/
             exists searched,
               searched <> [] /\
               trace w' = trace w ++ map (search_event cfg) searched)).
  { intros msg. do 2 eexists. split; [reflexivity|]. simpl. auto 6. }
  unfold Main.app.get_nearby_pois, bind, lift, ret.
  destruct data as [|b|z|q|s|l|kv]; simpl.
  - left. apply H400.
  - destruct b; simpl; [right; split; [reflexivity|discriminate]|left; apply H400].
  - destruct (z =? 0); simpl; [left; apply H400|right; split; [reflexivity|discriminate]].
  - destruct (Qzero_b q); simpl; [left; apply H400|right; split; [reflexivity|discriminate]].
  - destruct (string_nonempty s); simpl; [|left; apply H400].
    destruct (is_substring "route" s); simpl;
      [right; split; [reflexivity|discriminate]|left; apply H400].
  - destruct (list_nonempty l); simpl; [|left; apply H400].
    destruct (existsb (is_PStr "route") l); simpl;
      [right; split; [reflexivity|discriminate]|left; apply H400].
  - left. destruct (list_nonempty kv); simpl; [|apply H400].
    destruct (assoc "route" kv) as [route|]; simpl; [|apply H400].
    destruct (is_list route) eqn:Hl; simpl; [|apply H400].
    destruct route as [| | | | |items|]; try discriminate. simpl.
    destruct (Z.of_nat (length items) <? 2); [apply H400|].
    unfold try_except2, try_except, bind, lift, ret. simpl.
    destruct (Main.app.swap_route items) as [coords|e] eqn:Hs; simpl.
    + destruct (get_pois_for_route_outcome env cfg coords w)
        as [(pois & w' & -> & Hsess)| [-> | (searched & Hne & ->)]]; simpl.
      * do 2 eexists. split; [reflexivity|]. simpl.
        split; [assumption|]. split; [by left|]. split; discriminate.
      * apply H500.
      * do 2 eexists. split; [reflexivity|]. simpl.
        split; [reflexivity|]. split; [auto|]. split; [discriminate|].
        intros _. right. eauto.
    + destruct (except_IndexError_TypeError e); simpl; [apply H400|apply H500].
Qed.

(** X18. A route of two items or more that the comprehension cannot swap,
    because one of its items has no item 1.  The comprehension stops at the
    first such item with the exception of its subscript.  In [src/app.py]
    it runs inside the [try]: a short list, a short string or a scalar is
    answered 400, an object (its [KeyError] falls to the last clause) 500.
    In [src/backend/app.py] it runs before the [try], so the exception
    leaves the view.  Neither calls anything. *)
Theorem unswappable_route_is_rejected_or_crashes (env : Env) (cfg : Config)
    (osm : list (pyval * pyval) -> M (list pyval))
    (data : pyval) (items : list pyval) (e : exn) (w : world) :
  py_getitem data "route" = Ok (PList items) ->
  (2 <= length items)%nat ->
  Main.app.swap_route items = Raise e ->
  (exists good bad rest coords,
     items = good ++ bad :: rest /\
     Main.app.swap_route good = Ok coords /\
     py_index bad 1 = Raise e) /\
  ((e = IndexError \/ e = TypeError) /\
   Main.app.get_nearby_pois env cfg data w =
     (Ok (Resp 400 (error_body msg_invalid_coordinate)), w)
   \/
   e = KeyError /\
   Main.app.get_nearby_pois env cfg data w =
     (Ok (Resp 500 (error_body msg_pois_failed)), w)) /\
  Backend.app.get_nearby_pois osm data w = (Raise e, w).
Proof.
  intros Hr Hlen Hs. destruct (getitem_route_dict _ _ Hr) as [Ht Hc].
  destruct (swap_route_raises items e Hs) as [He Hfirst].
  split; [exact Hfirst|]. split.
  - assert (Hview : Main.app.get_nearby_pois env cfg data w =
              (Ok (if except_IndexError_TypeError e
                   then jsonify_with (error_body msg_invalid_coordinate) 400
                   else jsonify_with (error_body msg_pois_failed) 500), w)).
    { unfold Main.app.get_nearby_pois, try_except2, try_except, bind, lift, ret.
      rewrite Ht. simpl. rewrite Hc. simpl. rewrite Hr. simpl.
      destruct (Z.ltb_spec (Z.of_nat (length items)) 2); [lia|].
      rewrite Hs. simpl.
      by destruct (except_IndexError_TypeError e). }
    rewrite Hview.
    destruct He as [-> | [-> | ->]]; [left|left|right]; split; auto.
  - unfold Backend.app.get_nearby_pois, bind, lift, ret.
    rewrite Ht. simpl. rewrite Hc. simpl. rewrite Hr. simpl. by rewrite Hs.
Qed.

Lemma unswappable_route_is_rejected_or_crashes_witness :
  Main.app.get_nearby_pois offline_env sample_cfg
    (pois_request [latlng (5150 # 100) (-12 # 100); PList [PFloat (5151 # 100)]])
    (World ∅ []) =
    (Ok (Resp 400 (error_body msg_invalid_coordinate)), World ∅ []) /\
  Backend.app.get_nearby_pois (fun _ => ret [])
    (pois_request [latlng (5150 # 100) (-12 # 100); PList [PFloat (5151 # 100)]])
    (World ∅ []) = (Raise IndexError, World ∅ []).
Proof.
  destruct (unswappable_route_is_rejected_or_crashes offline_env sample_cfg
              (fun _ => ret [])
              (pois_request [latlng (5150 # 100) (-12 # 100); PList [PFloat (5151 # 100)]])
              [latlng (5150 # 100) (-12 # 100); PList [PFloat (5151 # 100)]]
              IndexError (World ∅ []) eq_refl ltac:(simpl; lia) eq_refl)
    as (_ & [[_ Hm]|[Hk _]] & Hb).
  - split; [exact Hm|exact Hb].
  - discriminate Hk.
Defined.

(* ===================================================================== *)
(** ** X19 to X21: which points of a route are sampled *)
(* ===================================================================== *)

Lemma slice_step_lengths {A} (l : list A) (step : nat) :
  (1 <= step)%nat ->
  (length (slice_step l step) <= length l)%nat /\
  (l <> [] ->
   ((length (slice_step l step) - 1) * step < length l)%nat /\
   (length l <= length (slice_step l step) * step)%nat /\
   (1 <= length (slice_step l step))%nat).
Proof.
  intros Hstep. unfold slice_step.
  set (s := every_nth step 0 l).
  assert (Hnth : forall i, nth_error s i = nth_error l (i * step))
    by (intros i; subst s; by rewrite every_nth_nth).
  assert (Hup : (length l <= length s * step)%nat).
  { apply nth_error_None. rewrite <- Hnth. by apply nth_error_None. }
  assert (Hlow : (1 <= length s)%nat -> ((length s - 1) * step < length l)%nat).
  { intros H1. apply nth_error_Some. rewrite <- Hnth. apply nth_error_Some. lia. }
  split.
  - destruct (length s) as [|n] eqn:E; [lia|].
    specialize (Hlow ltac:(lia)). nia.
  - intros Hne.
    assert (1 <= length s)%nat.
    { destruct l as [|x l']; [congruence|]. subst s. simpl. lia. }
    auto.
Qed.

(** X19. Whenever [_sample_route_points] returns, its samples are route
    points with longitude and latitude swapped, taken at equal strides from
    the start: there is a step of at least 1 (exactly 1 on a route of at
    most two points, which is sampled whole) such that sample [i] is the
    swap of route point [i * step].  So the samples keep the order of the
    route, the first route point is always sampled, and the number of
    samples is the least [n] with [n * step] not below the length of the
    route. *)
Theorem samples_are_every_step_th_point
    (route_coords pts : list (pyval * pyval)) (sd : Z) :
  _sample_route_points route_coords sd = Ok pts ->
  exists step : nat,
    (1 <= step)%nat /\
    ((length route_coords <= 2)%nat -> step = 1%nat) /\
    (forall i : nat,
       nth_error pts i = option_map swap_pair (nth_error route_coords (i * step))) /\
    (length pts <= length route_coords)%nat /\
    (route_coords <> [] ->
     ((length pts - 1) * step < length route_coords <= length pts * step)%nat).
Proof.
  intros H. apply sample_route_points_step in H as (step & Hstep & -> & H2 & _).
  exists step. split; [assumption|]. split; [assumption|].
  destruct (slice_step_lengths route_coords step Hstep) as [Hle Hne].
  rewrite length_map. repeat apply conj.
  - intros i. rewrite nth_error_map. unfold slice_step.
    by rewrite every_nth_nth.
  - assumption.
  - intros Hr. destruct (Hne Hr) as (Ha & Hb & _). split; assumption.
Qed.

Lemma samples_are_every_step_th_point_witness :
  exists step : nat,
    (1 <= step)%nat /\
    forall i : nat,
      nth_error [(PInt 100, PInt 0); (PInt 105, PInt 5)] i =
      option_map swap_pair (nth_error ten_point_coords (i * step)).
Proof.
  destruct (samples_are_every_step_th_point ten_point_coords
              [(PInt 100, PInt 0); (PInt 105, PInt 5)] 500 eq_refl)
    as (step & H1 & _ & H & _).
  exists step. split; assumption.
Defined.

(** X20. On a route of more than two points whose hundredfold length is at
    least the sampling distance and less than twice that distance, the step
    is the length of the route, and the only sample is the first point: the
    rest of the route is not searched.  With the default distance of 500
    these are the routes of 5 to 9 points. *)
Theorem sparse_sampling_keeps_only_the_start
    (p : pyval * pyval) (rest : list (pyval * pyval)) (sd : Z) :
  (2 <= length rest)%nat ->
  sd <= Z.of_nat (length (p :: rest)) * 100 < 2 * sd ->
  _sample_route_points (p :: rest) sd = Ok [swap_pair p].
Proof.
  intros Hrest [Hlo Hhi].
  unfold _sample_route_points, py_floordiv.
  set (len := Z.of_nat (length (p :: rest))) in *.
  assert (Hlen : len = Z.of_nat (length rest) + 1) by (subst len; simpl; lia).
  destruct (Z.leb_spec len 2) as [|_]; [lia|].
  destruct (Z.eqb_spec sd 0) as [|_]; [lia|]. simpl.
  assert (Hper : len * 100 / sd = 1).
  { symmetry. apply (Z.div_unique _ _ 1 (len * 100 - sd)); lia. }
  rewrite Hper. simpl. rewrite Z.div_1_r.
  replace (Z.to_nat (Z.max 1 len)) with (S (length rest)) by lia.
  unfold slice_step. simpl. rewrite Nat.sub_0_r.
  by rewrite every_nth_skip_all.
Qed.

Lemma sparse_sampling_keeps_only_the_start_witness :
  _sample_route_points seven_point_coords 500 = Ok [(PInt 100, PInt 0)].
Proof.
  apply (sparse_sampling_keeps_only_the_start (numbered_point 0)
           (map numbered_point [1; 2; 3; 4; 5; 6]) 500);
    simpl; lia.
Defined.

(** X21. For a positive sampling distance and a route of more than two
    points, the samples that [_sample_route_points] returns lie at least
    [sample_distance // 100] route points apart, so there is at least one
    sample and, all but the first counted, fewer than one for every
    [sample_distance // 100] points of the route: with the default of 500,
    at most one search for every five points, rounded up. *)
Theorem sampling_bounds_the_number_of_samples
    (route_coords pts : list (pyval * pyval)) (sd : Z) :
  0 < sd ->
  (2 < length route_coords)%nat ->
  _sample_route_points route_coords sd = Ok pts ->
  (1 <= length pts)%nat /\
  (Z.of_nat (length pts) - 1) * (sd / 100) < Z.of_nat (length route_coords).
Proof.
  intros Hsd Hlen H.
  apply sample_route_points_step in H as (step & Hstep & -> & _ & Hge).
  specialize (Hge Hsd Hlen).
  assert (Hne : route_coords <> [])
    by (destruct route_coords; [simpl in Hlen; lia|discriminate]).
  destruct (slice_step_lengths route_coords step Hstep) as [_ Hb].
  destruct (Hb Hne) as (Hlow & _ & Hpos).
  rewrite length_map. split; [assumption|].
  assert (0 <= sd / 100) by (apply Z.div_pos; lia).
  nia.
Qed.

Lemma sampling_bounds_the_number_of_samples_witness :
  (1 <= length [(PInt 100, PInt 0); (PInt 105, PInt 5)])%nat /\
  (Z.of_nat (length [(PInt 100, PInt 0); (PInt 105, PInt 5)]) - 1) * (500 / 100)
    < Z.of_nat (length ten_point_coords).
Proof.
  apply (sampling_bounds_the_number_of_samples ten_point_coords
           [(PInt 100, PInt 0); (PInt 105, PInt 5)] 500);
    [lia | simpl; lia | reflexivity].
Defined.

(* ===================================================================== *)
(** ** X22 to X24: the searches and the records *)
(* ===================================================================== *)

(** X22. With a Google Maps client and a route whose sampling succeeds,
    [get_pois_for_route] searches the sample points in their order,
    starting at the first point of the route, one Places request each with
    the configured radius and the eight types joined by [|], and leaves the
    session alone.  It goes on until the last sample point and then returns
    a list, or it stops after a search that raised or brought a result that
    cannot be stored: the first [except] clause of the loop names
    [googlemaps.ApiError], which the package does not have, so that
    [AttributeError] leaves the function and the sample points after that
    one are not searched.  When every search answers with results that can
    be stored, every sample point is searched and a list is returned. *)
Theorem sample_points_are_searched_in_order (env : Env) (cfg : Config)
    (p : pyval * pyval) (rest pts : list (pyval * pyval)) (w : world) :
  gmaps cfg = true ->
  _sample_route_points (p :: rest) (POI_ROUTE_SAMPLING_DISTANCE cfg) = Ok pts ->
  let request location :=
    EvPlacesNearby location (POI_SEARCH_RADIUS cfg) places_type in
  (exists later unsearched r,
     pts = (swap_pair p :: later) ++ unsearched /\
     get_pois_for_route env cfg (p :: rest) w =
       (r, World (session w) (trace w ++ map request (swap_pair p :: later))) /\
     ((exists pois, r = Ok pois) /\ unsearched = [] \/ r = Raise AttributeError)) /\
  (Forall (fun a => clean_answer a = true) (answers env cfg pts (trace w)) ->
   exists pois,
     get_pois_for_route env cfg (p :: rest) w =
       (Ok pois, World (session w) (trace w ++ map request pts))).
Proof.
  intros Hg Hs request. split.
  - exact (get_pois_for_route_run env cfg p rest pts w Hg Hs).
  - intros Hclean.
    rewrite (get_pois_for_route_searches env cfg (p :: rest) pts w eq_refl Hg Hs).
    destruct (search_samples_clean env cfg pts [] w Hclean) as (found & ->).
    eauto.
Qed.

Lemma sample_points_are_searched_in_order_witness :
  exists pois,
    get_pois_for_route offline_env sample_cfg ten_point_coords (World ∅ []) =
      (Ok pois,
       World ∅ [EvPlacesNearby (PInt 100, PInt 0) 100 places_type;
                EvPlacesNearby (PInt 105, PInt 5) 100 places_type]).
Proof.
  apply (proj2 (sample_points_are_searched_in_order offline_env sample_cfg
                  (numbered_point 0) (map numbered_point [1; 2; 3; 4; 5; 6; 7; 8; 9])
                  [(PInt 100, PInt 0); (PInt 105, PInt 5)] (World ∅ [])
                  eq_refl eq_refl)).
  repeat constructor.
Defined.

(** A search that raised does not end its round normally, nor does one with
    a result that cannot be visited. *)
Lemma round_ends_raised (found : found_dict) (e : exn) :
  round_ends found (Raise e) = false.
Proof. reflexivity. Qed.

Lemma round_ends_malformed (found : found_dict) (r : result pyval)
    (a b : list pyval) (bad : pyval) (e : exn) :
  batch_of r = Ok (a ++ bad :: b) ->
  Forall (fun poi => well_formed_poi poi = true) a ->
  visit_poi (absorb found a) bad = Raise e ->
  round_ends found r = false.
Proof.
  intros Hb Hwf Hbad. unfold round_ends. rewrite Hb, visit_results_app.
  pose proof (visit_results_well_formed a found Hwf) as Ha.
  unfold absorb in Hbad.
  destruct (visit_results found a) as [found' [e'|]]; [discriminate|].
  simpl in *. by rewrite Hbad.
Qed.

(** X23. One search that fails, fails the whole request.  When the search
    at a sample point raises, or one of its results cannot be visited (it
    has no ["place_id"], say, or is new and has no ["geometry"]), the
    handler of the loop raises [AttributeError] in its turn, because
    [googlemaps.ApiError] does not exist: [get_pois_for_route] ends there,
    what the searches before had found is lost, the sample points after
    that one are not searched, and [get_nearby_pois] answers 500. *)
Theorem one_failed_search_fails_the_request (env : Env) (cfg : Config)
    (route : list pyval) (route_coords before after : list (pyval * pyval))
    (location : pyval * pyval) (found_before : found_dict) (w w1 : world) :
  Main.app.swap_route route = Ok route_coords ->
  (2 <= length route)%nat ->
  gmaps cfg = true ->
  _sample_route_points route_coords (POI_ROUTE_SAMPLING_DISTANCE cfg)
    = Ok (before ++ location :: after) ->
  search_samples env cfg [] before w = (Ok found_before, w1) ->
  round_ends found_before (search_answer env cfg (trace w1) location) = false ->
  let stopped :=
    World (session w) (trace w ++ map (search_event cfg) (before ++ [location])) in
  get_pois_for_route env cfg route_coords w = (Raise AttributeError, stopped) /\
  Main.app.get_nearby_pois env cfg (pois_request route) w =
    (Ok (Resp 500 (error_body msg_pois_failed)), stopped) /\
  (forall found e, round_ends found (Raise e) = false) /\
  (forall found r a b bad e,
     batch_of r = Ok (a ++ bad :: b) ->
     Forall (fun poi => well_formed_poi poi = true) a ->
     visit_poi (absorb found a) bad = Raise e ->
     round_ends found r = false).
Proof.
  intros Hswap Hlen Hg Hp Hb Hr stopped.
  assert (Hne : list_nonempty route_coords = true).
  { destruct route_coords; [|reflexivity].
    destruct route as [|c route]; [simpl in Hlen; lia|]. simpl in Hswap.
    destruct (py_index c 1); [|discriminate].
    destruct (py_index c 0); [|discriminate]. simpl in Hswap.
    destruct (Main.app.swap_route route); discriminate. }
  assert (Hrun : get_pois_for_route env cfg route_coords w =
                   (Raise AttributeError, stopped)).
  { rewrite (get_pois_for_route_searches env cfg route_coords _ w Hne Hg Hp).
    by rewrite (search_samples_stop env cfg before after location []
                  found_before w w1 Hb Hr). }
  split; [exact Hrun|]. split; [|split].
  - unfold Main.app.get_nearby_pois, try_except2, try_except, bind, lift, ret.
    simpl.
    destruct (Z.ltb_spec (Z.of_nat (length route)) 2) as [H|H]; [lia|].
    rewrite Hswap. simpl. rewrite Hrun. reflexivity.
  - apply round_ends_raised.
  - apply round_ends_malformed.
Qed.

Lemma one_failed_search_fails_the_request_witness :
  Main.app.get_nearby_pois
    (places_env [place "p1" "Corner Gallery" (5150 # 100) (-12 # 100);
                 nameless_place;
                 place "p2" "Bridge Cafe" (5151 # 100) (-11 # 100)])
    sample_cfg
    (pois_request [latlng (5150 # 100) (-12 # 100); latlng (5151 # 100) (-11 # 100)])
    (World ∅ []) =
  (Ok (Resp 500 (error_body msg_pois_failed)),
   World ∅ [search_event sample_cfg (PFloat (5150 # 100), PFloat (-12 # 100))]).
Proof.
  apply (proj1 (proj2
           (one_failed_search_fails_the_request
              (places_env [place "p1" "Corner Gallery" (5150 # 100) (-12 # 100);
                           nameless_place;
                           place "p2" "Bridge Cafe" (5151 # 100) (-11 # 100)])
              sample_cfg
              [latlng (5150 # 100) (-12 # 100); latlng (5151 # 100) (-11 # 100)]
              two_point_coords []
              [(PFloat (5151 # 100), PFloat (-11 # 100))]
              (PFloat (5150 # 100), PFloat (-12 # 100)) [] (World ∅ []) (World ∅ [])
              eq_refl ltac:(simpl; lia) eq_refl eq_refl eq_refl eq_refl))).
Defined.

Lemma first_poi_type_known (poi_types : pyval) (poi_type : string) :
  first_poi_type poi_types = Ok poi_type ->
  In (str_title (str_replace "_" " " poi_type)) poi_labels.
Proof.
  unfold first_poi_type. destruct (py_iter poi_types) as [ts|]; [|discriminate].
  simpl. intros H. inversion H as [Hp]. clear H Hp.
  destruct (find in_POI_TYPES ts) as [[| | | |s| |]|] eqn:Hf;
    try (vm_compute; tauto).
  apply find_some in Hf as [_ Hin]. unfold in_POI_TYPES in Hin.
  apply existsb_exists in Hin as (k & Hk & Heq). simpl in Heq.
  apply String.eqb_eq in Heq. subst s.
  simpl in Hk. repeat (destruct Hk as [<-|Hk]; [vm_compute; tauto|]).
  destruct Hk.
Qed.

(** X24. A record that [get_pois_for_route] stores is built from an object
    with a ["geometry"] holding a ["location"] with ["lat"] and ["lng"].  It
    has the five keys name, type, coords, rating and price_level in that
    order; its name, rating and price level are those of the result, or
    ["Unknown"], [None] and [None] when the result has none; its coords are
    latitude then longitude; and its type is one of nine labels, the eight
    types of [POI_TYPES] in title case or ["Point Of Interest"]: no other
    type of the Places API reaches the answer. *)
Theorem poi_record_shape (poi record : pyval) :
  poi_record poi = Ok record ->
  exists kv geometry location lat lng label,
    poi = PDict kv /\
    assoc "geometry" kv = Some geometry /\
    py_getitem geometry "location" = Ok location /\
    py_getitem location "lat" = Ok lat /\
    py_getitem location "lng" = Ok lng /\
    In label poi_labels /\
    record =
      PDict [("name"%string, assoc_or "name" (PStr "Unknown") kv);
             ("type"%string, PStr label);
             ("coords"%string, PList [lat; lng]);
             ("rating"%string, assoc_or "rating" PNone kv);
             ("price_level"%string, assoc_or "price_level" PNone kv)].
Proof.
  unfold poi_record.
  destruct poi as [| | | | | |kv]; try discriminate. simpl.
  destruct (first_poi_type _) as [poi_type|] eqn:Ht; [|discriminate]. simpl.
  destruct (assoc "geometry" kv) as [geometry|] eqn:Hg; [|discriminate]. simpl.
  destruct (py_getitem geometry "location") as [location|] eqn:Hl; [|discriminate].
  simpl.
  destruct (py_getitem location "lat") as [lat|] eqn:Hlat; [|discriminate]. simpl.
  destruct (py_getitem location "lng") as [lng|] eqn:Hlng; [|discriminate]. simpl.
  intros H. inversion H.
  exists kv, geometry, location, lat, lng, (str_title (str_replace "_" " " poi_type)).
  repeat apply conj; try reflexivity; try assumption.
  by eapply first_poi_type_known.
Qed.

Lemma poi_record_shape_witness :
  exists label,
    In label poi_labels /\
    py_getitem (place_record "Corner Gallery" (5150 # 100) (-12 # 100)) "type" =
      Ok (PStr label).
Proof.
  destruct (poi_record_shape (place "p1" "Corner Gallery" (5150 # 100) (-12 # 100))
              (place_record "Corner Gallery" (5150 # 100) (-12 # 100)) eq_refl)
    as (kv & geometry & location & lat & lng & label & _ & _ & _ & _ & _ & Hl & Hr).
  exists label. split; [exact Hl|]. rewrite Hr. reflexivity.
Defined.
